(** * IP registry and reachability monitor (app.py)

    A shallow embedding of the registry core of [app.py]: the validator,
    the segment classifier, the registry store (one SQLite table), the
    prober and one probe cycle.

    Conventions.
    - A Python [str] is a [string]; each character stands for one code
      point below 256, so [N_of_ascii] is the code point and the Unicode
      predicates ([isspace], [isdigit], [isdecimal]) are the ones Python
      has on that range.  The statements speak of such texts, and name
      the predicates of Python rather than sets of characters, so that
      they read the same for the digits and spaces above that range.
    - [int] refuses a decimal literal of more than 4300 digits, the limit
      the interpreter starts with.
    - Python exceptions are values of [exn]; a function that may raise
      returns a [result].
    - The functions of the standard [ipaddress] module that [app.py]
      calls are written out in [Module ipaddress], following CPython's
      [Lib/ipaddress.py].
    - The table is the list of its rows in rowid order.  A [SELECT]
      of columns that the index of the [UNIQUE] column holds is answered
      from that index, in ascending order of the address; [ORDER BY]
      keeps rows with equal keys in rowid order; column names are
      compared without regard to case.
    - The outside world (clock, resolver, ping subprocess) is a [World];
      the store and the number of clock readings so far form the state
      that the effectful functions thread. *)

From Stdlib Require Import Bool List Ascii String NArith ZArith Lia.
From Stdlib Require Import Decimal DecimalString DecimalN DecimalZ.
From Stdlib Require Hexadecimal HexadecimalString.
From Stdlib Require Import Sorted Permutation.
Import ListNotations.

#[local] Open Scope string_scope.
#[local] Open Scope N_scope.

(** ** Exceptions and results *)

Inductive exn : Type :=
| ValueError
| UnicodeError
| IndexError
| OSError
| FileNotFoundError
| PermissionError
| TimeoutExpired
| OperationalError.

(** [isinstance(e, ValueError)]: [UnicodeError] is a subclass of
    [ValueError]. *)
Definition is_ValueError (e : exn) : bool :=
  match e with
  | ValueError | UnicodeError => true
  | _ => false
  end.

(** [isinstance(e, OSError)]; [OSError] itself also stands for its
    subclasses [socket.herror] and [socket.gaierror]. *)
Definition is_OSError (e : exn) : bool :=
  match e with
  | OSError | FileNotFoundError | PermissionError => true
  | _ => false
  end.

Inductive result (A : Type) : Type :=
| Ok (a : A)
| Raise (e : exn).

Arguments Ok {A} a.
Arguments Raise {A} e.

Definition rbind {A B} (r : result A) (k : A -> result B) : result B :=
  match r with
  | Ok a => k a
  | Raise e => Raise e
  end.

Notation "'let?' x ':=' r 'in' k" := (rbind r (fun x => k))
  (at level 10, x pattern, r at level 200, k at level 200).

(** ** Python [str] methods used by [app.py] *)

Module Py.

(** [str.isspace] on one code point below 256: the ASCII table of
    CPython has 9-13 and 28-32; above 127 there are U+0085 and U+00A0. *)
Definition isspace_char (c : ascii) : bool :=
  let n := N_of_ascii c in
  ((9 <=? n) && (n <=? 13)) || ((28 <=? n) && (n <=? 32))
  || (n =? 133) || (n =? 160).

(** [str.isdigit] on one code point below 256: the decimal digits and the
    superscripts U+00B2, U+00B3, U+00B9, which [str.isdecimal] and [int]
    refuse. *)
Definition isdigit_char (c : ascii) : bool :=
  let n := N_of_ascii c in
  ((48 <=? n) && (n <=? 57)) || (n =? 178) || (n =? 179) || (n =? 185).

(** [str.isdecimal] on one code point below 256: the digits 0 to 9.
    These are the characters that [int] converts. *)
Definition isdecimal_char (c : ascii) : bool :=
  let n := N_of_ascii c in (48 <=? n) && (n <=? 57).

Fixpoint forallb_str (p : ascii -> bool) (s : string) : bool :=
  match s with
  | EmptyString => true
  | String c s' => p c && forallb_str p s'
  end.

(** Truth value of a [str]: non-empty. *)
Definition truthy (s : string) : bool := negb (String.eqb s "").

(** [s.isdigit()]: non-empty, every character a digit. *)
Definition isdigit (s : string) : bool :=
  truthy s && forallb_str isdigit_char s.

(** [s.isascii()]. *)
Definition isascii (s : string) : bool :=
  forallb_str (fun c => N_of_ascii c <? 128) s.

Fixpoint lstrip (s : string) : string :=
  match s with
  | EmptyString => EmptyString
  | String c s' => if isspace_char c then lstrip s' else s
  end.

Fixpoint rstrip (s : string) : string :=
  match s with
  | EmptyString => EmptyString
  | String c s' =>
      match rstrip s' with
      | EmptyString => if isspace_char c then EmptyString else String c EmptyString
      | r => String c r
      end
  end.

(** [s.strip()] *)
Definition strip (s : string) : string := rstrip (lstrip s).

(** [c in s] for a one-character [c]. *)
Fixpoint contains (c : ascii) (s : string) : bool :=
  match s with
  | EmptyString => false
  | String d s' => Ascii.eqb d c || contains c s'
  end.

(** [s.split(sep)] for a one-character separator: never the empty list. *)
Fixpoint split (sep : ascii) (s : string) : list string :=
  match s with
  | EmptyString => [EmptyString]
  | String c s' =>
      if Ascii.eqb c sep then EmptyString :: split sep s'
      else match split sep s' with
           | p :: ps => String c p :: ps
           | [] => [String c EmptyString]
           end
  end.

(** [s.partition(sep)]: the text before the first separator, whether a
    separator was found, the text after it. *)
Fixpoint partition (sep : ascii) (s : string) : string * bool * string :=
  match s with
  | EmptyString => (EmptyString, false, EmptyString)
  | String c s' =>
      if Ascii.eqb c sep then (EmptyString, true, s')
      else let '(a, found, b) := partition sep s' in (String c a, found, b)
  end.

(** [s.split(sep, maxsplit=1)] *)
Definition split1 (sep : ascii) (s : string) : list string :=
  let '(a, found, b) := partition sep s in
  if found then [a; b] else [a].

(** [s.startswith(p)] *)
Definition startswith (p s : string) : bool := String.prefix p s.

(** [s.endswith(suffix)]: some tail of [s] is [suffix]. *)
Fixpoint endswith (suffix s : string) : bool :=
  String.eqb s suffix
  || match s with
     | EmptyString => false
     | String _ s' => endswith suffix s'
     end.

(** [c * n] for a one-character [c]. *)
Fixpoint mul (c : ascii) (n : nat) : string :=
  match n with
  | O => EmptyString
  | S n' => String c (mul c n')
  end.

(** [xs[i]] for [i >= 0]. *)
Definition getitem {A} (xs : list A) (i : nat) : result A :=
  match nth_error xs i with
  | Some x => Ok x
  | None => Raise IndexError
  end.

(** [str(n)] for a non-negative and for any integer. *)
Definition str_N (n : N) : string := NilZero.string_of_uint (N.to_uint n).
Definition str_Z (z : Z) : string := NilZero.string_of_int (Z.to_int z).

(** The value of a non-empty text of ASCII decimal digits. *)
Definition digits_value (s : string) : option N :=
  option_map N.of_uint (NilZero.uint_of_string s).

(** The digit groups of an integer literal: decimal digits, with single
    underscores allowed between two digits.  [prev] tells whether the
    previous character was a digit.  Returns the digits with the
    underscores removed and the rest of the text. *)
Fixpoint int_digits (prev : bool) (s : string) : option (string * string) :=
  match s with
  | EmptyString => if prev then Some (EmptyString, EmptyString) else None
  | String c s' =>
      if isdecimal_char c then
        option_map (fun '(d, r) => (String c d, r)) (int_digits true s')
      else if Ascii.eqb c "_" then
        if prev then
          match s' with
          | String c' _ => if isdecimal_char c' then int_digits false s' else None
          | EmptyString => None
          end
        else None
      else if prev then Some (EmptyString, s) else None
  end.

(** The white space that [int] skips around a literal: C's [isspace] on
    ASCII, and the two spaces above 127, which [int] first turns into
    blanks. *)
Definition int_space (c : ascii) : bool :=
  let n := N_of_ascii c in
  ((9 <=? n) && (n <=? 13)) || (n =? 32) || (n =? 133) || (n =? 160).

Fixpoint skip_int_space (s : string) : string :=
  match s with
  | EmptyString => EmptyString
  | String c s' => if int_space c then skip_int_space s' else s
  end.

(** [sys.get_int_max_str_digits()] as the interpreter starts: a decimal
    literal with more digits is refused by [int]. *)
Definition INT_MAX_STR_DIGITS : N := 4300.

(** [int(s)] in base 10.  The digits are counted as CPython counts
    them, leading zeros included and underscores left out; above the
    limit the call raises [ValueError] like for a malformed literal. *)
Definition int (s : string) : result Z :=
  let s1 := skip_int_space s in
  let '(neg, s2) :=
    match s1 with
    | String c r =>
        if Ascii.eqb c "-" then (true, r)
        else if Ascii.eqb c "+" then (false, r)
        else (false, s1)
    | EmptyString => (false, s1)
    end in
  match int_digits false s2 with
  | None => Raise ValueError
  | Some (d, rest) =>
      if INT_MAX_STR_DIGITS <? N.of_nat (String.length d) then Raise ValueError
      else
        match skip_int_space rest, digits_value d with
        | EmptyString, Some n =>
            Ok (if neg then Z.opp (Z.of_N n) else Z.of_N n)
        | _, _ => Raise ValueError
        end
  end.

End Py.

(** ** The [ipaddress] module, as far as [app.py] calls it *)

Module ipaddress.

Definition ALL_ONES_V4 : N := 2 ^ 32 - 1.

Fixpoint mapM {A B} (f : A -> option B) (xs : list A) : option (list B) :=
  match xs with
  | [] => Some []
  | x :: xs' =>
      match f x, mapM f xs' with
      | Some y, Some ys => Some (y :: ys)
      | _, _ => None
      end
  end.

(** [int.from_bytes(bs, 'big')] *)
Definition from_bytes_big (bs : list N) : N :=
  fold_left (fun acc b => acc * 256 + b) bs 0.

(** [IPv4Address._parse_octet]; [None] stands for its [ValueError]. *)
Definition parse_octet (octet_str : string) : option N :=
  if negb (Py.truthy octet_str) then None
  else if negb (Py.isascii octet_str && Py.isdigit octet_str) then None
  else if (3 <? String.length octet_str)%nat then None
  else if negb (String.eqb octet_str "0") && Py.startswith "0" octet_str then None
  else match Py.digits_value octet_str with
       | Some octet_int => if 255 <? octet_int then None else Some octet_int
       | None => None
       end.

(** [IPv4Address._ip_int_from_string]; [None] is [AddressValueError]. *)
Definition v4_ip_int_from_string (ip_str : string) : option N :=
  if negb (Py.truthy ip_str) then None
  else
    let octets := Py.split "." ip_str in
    if negb (List.length octets =? 4)%nat then None
    else option_map from_bytes_big (mapM parse_octet octets).

(** [IPv4Address(address)] for a [str]. *)
Definition IPv4Address (address : string) : option N :=
  if Py.contains "/" address then None
  else v4_ip_int_from_string address.

(** [str(IPv4Address)]: the four bytes, most significant first. *)
Definition v4_string_from_ip_int (ip_int : N) : string :=
  String.concat "."
    (map Py.str_N
       [N.land (N.shiftr ip_int 24) 255; N.land (N.shiftr ip_int 16) 255;
        N.land (N.shiftr ip_int 8) 255; N.land ip_int 255]).

(** [_BaseV4._prefix_from_prefix_string], also used by version 6 with
    its own maximum; [None] is [NetmaskValueError]. *)
Definition prefix_from_prefix_string (max_prefixlen : N) (prefixlen_str : string)
  : option N :=
  if negb (Py.isascii prefixlen_str && Py.isdigit prefixlen_str) then None
  else match Py.int prefixlen_str with
       | Ok prefixlen =>
           if ((0 <=? prefixlen) && (prefixlen <=? Z.of_N max_prefixlen))%Z
           then Some (Z.to_N prefixlen) else None
       | Raise _ => None
       end.

(** [int.bit_length] *)
Definition bit_length (z : Z) : Z :=
  if (z =? 0)%Z then 0%Z else (Z.log2 (Z.abs z) + 1)%Z.

(** [_count_righthand_zero_bits(number, bits)] *)
Definition count_righthand_zero_bits (number bits : N) : N :=
  if number =? 0 then bits
  else N.min bits
         (Z.to_N (bit_length (Z.land (Z.lnot (Z.of_N number)) (Z.of_N number - 1)))).

(** [_prefix_from_ip_int]; [None] is its [ValueError]. *)
Definition prefix_from_ip_int (max_prefixlen ip_int : N) : option N :=
  let trailing_zeroes := count_righthand_zero_bits ip_int max_prefixlen in
  let prefixlen := max_prefixlen - trailing_zeroes in
  let leading_ones := N.shiftr ip_int trailing_zeroes in
  let all_ones := N.shiftl 1 prefixlen - 1 in
  if negb (leading_ones =? all_ones) then None else Some prefixlen.

(** [_prefix_from_ip_string] of version 4: a netmask or a hostmask. *)
Definition prefix_from_ip_string (ip_str : string) : option N :=
  match v4_ip_int_from_string ip_str with
  | None => None
  | Some ip_int =>
      match prefix_from_ip_int 32 ip_int with
      | Some p => Some p
      | None => prefix_from_ip_int 32 (N.lxor ip_int ALL_ONES_V4)
      end
  end.

(** [_ip_int_from_prefix] of version 4. *)
Definition v4_ip_int_from_prefix (prefixlen : N) : N :=
  N.lxor ALL_ONES_V4 (N.shiftr ALL_ONES_V4 prefixlen).

(** [IPv4Network._make_netmask] for a [str] argument: the netmask and the
    prefix length. *)
Definition v4_make_netmask (arg : string) : option (N * N) :=
  let prefixlen :=
    match prefix_from_prefix_string 32 arg with
    | Some p => Some p
    | None => prefix_from_ip_string arg
    end in
  option_map (fun p => (v4_ip_int_from_prefix p, p)) prefixlen.

(** [_split_optional_netmask] followed by [_split_addr_prefix]: the
    address text and the mask text, if there is one. *)
Definition split_addr_prefix (address : string) : option (string * option string) :=
  match Py.split "/" address with
  | [addr] => Some (addr, None)
  | [addr; mask] => Some (addr, Some mask)
  | _ => None
  end.

(** [IPv4Network(address, strict=False)]: network address and prefix
    length. *)
Definition IPv4Network (address : string) : option (N * N) :=
  match split_addr_prefix address with
  | None => None
  | Some (addr, mask) =>
      match IPv4Address addr with
      | None => None
      | Some packed =>
          match (match mask with
                 | Some m => v4_make_netmask m
                 | None => Some (v4_ip_int_from_prefix 32, 32)
                 end) with
          | None => None
          | Some (netmask, prefixlen) => Some (N.land packed netmask, prefixlen)
          end
      end
  end.

(** [str(IPv4Network)] *)
Definition v4_network_string (net : N * N) : string :=
  v4_string_from_ip_int (fst net) ++ "/" ++ Py.str_N (snd net).

(** *** Version 6 *)

Definition hex_digit_value (c : ascii) : option N :=
  let n := N_of_ascii c in
  if (48 <=? n) && (n <=? 57) then Some (n - 48)
  else if (65 <=? n) && (n <=? 70) then Some (n - 55)
  else if (97 <=? n) && (n <=? 102) then Some (n - 87)
  else None.

Fixpoint hex_value (acc : N) (s : string) : option N :=
  match s with
  | EmptyString => Some acc
  | String c s' =>
      match hex_digit_value c with
      | Some d => hex_value (acc * 16 + d) s'
      | None => None
      end
  end.

(** [IPv6Address._parse_hextet]: hexadecimal digits only, at most four,
    and [int(s, 16)] refuses the empty text. *)
Definition parse_hextet (hextet_str : string) : option N :=
  if (4 <? String.length hextet_str)%nat then None
  else if negb (Py.truthy hextet_str) then None
  else hex_value 0 hextet_str.

(** ['%x' % n] *)
Definition hex_N (n : N) : string :=
  HexadecimalString.NilZero.string_of_uint (N.to_hex_uint n).

(** The loop of [_ip_int_from_string] that looks for an empty part
    strictly between the two ends: [None] when there are two of them,
    else the index found, if any. *)
Fixpoint find_skip_index (parts : list string) (i : nat) (last : nat)
  (skip_index : option nat) : option (option nat) :=
  match parts with
  | [] => Some skip_index
  | p :: parts' =>
      if ((1 <=? i) && (i <? last))%nat && negb (Py.truthy p) then
        match skip_index with
        | Some _ => None
        | None => find_skip_index parts' (S i) last (Some i)
        end
      else find_skip_index parts' (S i) last skip_index
  end.

Definition shift_hextets (acc : option N) (hextets : list string) : option N :=
  fold_left
    (fun acc h =>
       match acc, parse_hextet h with
       | Some ip_int, Some v => Some (N.lor (N.shiftl ip_int 16) v)
       | _, _ => None
       end)
    hextets acc.

(** [IPv6Address._ip_int_from_string]; [None] is [AddressValueError]. *)
Definition v6_ip_int_from_string (ip_str : string) : option N :=
  if negb (Py.truthy ip_str) then None
  else
    let parts := Py.split ":" ip_str in
    if (List.length parts <? 3)%nat then None
    else
      let last_part := List.last parts EmptyString in
      let parts_opt :=
        if Py.contains "." last_part then
          match IPv4Address last_part with
          | None => None
          | Some ipv4_int =>
              Some (List.removelast parts
                      ++ [hex_N (N.land (N.shiftr ipv4_int 16) 65535);
                          hex_N (N.land ipv4_int 65535)])%list
          end
        else Some parts in
      match parts_opt with
      | None => None
      | Some parts =>
          let n := List.length parts in
          if (9 <? n)%nat then None
          else
            match find_skip_index parts 0 (n - 1) None with
            | None => None
            | Some (Some skip_index) =>
                let first_empty := negb (Py.truthy (List.hd EmptyString parts)) in
                let last_empty := negb (Py.truthy (List.last parts EmptyString)) in
                let parts_hi := (if first_empty then skip_index - 1 else skip_index)%nat in
                let parts_lo :=
                  (if last_empty then n - skip_index - 1 - 1 else n - skip_index - 1)%nat in
                if first_empty && negb (parts_hi =? 0)%nat then None
                else if last_empty && negb (parts_lo =? 0)%nat then None
                else if (8 <=? parts_hi + parts_lo)%nat then None
                else
                  let parts_skipped := (8 - (parts_hi + parts_lo))%nat in
                  let hi := shift_hextets (Some 0) (List.firstn parts_hi parts) in
                  let mid := option_map
                               (fun ip_int => N.shiftl ip_int (16 * N.of_nat parts_skipped))
                               hi in
                  shift_hextets mid (List.skipn (n - parts_lo) parts)
            | Some None =>
                if negb (n =? 8)%nat then None
                else if negb (Py.truthy (List.hd EmptyString parts)) then None
                else if negb (Py.truthy (List.last parts EmptyString)) then None
                else shift_hextets (Some 0) parts
            end
      end.

(** [IPv6Address._split_scope_id] *)
Definition split_scope_id (ip_str : string) : option (string * option string) :=
  let '(addr, sep, scope_id) := Py.partition "%" ip_str in
  if negb sep then Some (addr, None)
  else if negb (Py.truthy scope_id) || Py.contains "%" scope_id then None
  else Some (addr, Some scope_id).

(** [IPv6Address(address)] for a [str]: the integer and the scope id. *)
Definition IPv6Address (address : string) : option (N * option string) :=
  if Py.contains "/" address then None
  else match split_scope_id address with
       | None => None
       | Some (addr_str, scope_id) =>
           option_map (fun ip_int => (ip_int, scope_id)) (v6_ip_int_from_string addr_str)
       end.

(** [IPv6Network(address, strict=False)]: network address, its scope id
    (kept only when no host bit had to be cleared) and prefix length. *)
Definition IPv6Network (address : string) : option (N * option string * N) :=
  match split_addr_prefix address with
  | None => None
  | Some (addr, mask) =>
      match IPv6Address addr with
      | None => None
      | Some (packed, scope_id) =>
          match (match mask with
                 | Some m => prefix_from_prefix_string 128 m
                 | None => Some 128
                 end) with
          | None => None
          | Some prefixlen =>
              let netmask := N.lxor (2 ^ 128 - 1) (N.shiftr (2 ^ 128 - 1) prefixlen) in
              if N.land packed netmask =? packed
              then Some (packed, scope_id, prefixlen)
              else Some (N.land packed netmask, None, prefixlen)
          end
      end
  end.

(** [IPv6Address._string_from_ip_int]: the eight hextets, the longest run
    of two or more zero hextets written as [::]. *)
Definition v6_hextets (ip_int : N) : list string :=
  map (fun i => hex_N (N.land (N.shiftr ip_int (16 * i)) 65535))
    [7; 6; 5; 4; 3; 2; 1; 0].

(** One turn of the loop of [_compress_hextets]: the best run (start,
    length) and the current run, with [None] for the start [-1]. *)
Definition compress_step
  (acc : option nat * nat * option nat * nat * nat) (hextet : string)
  : option nat * nat * option nat * nat * nat :=
  let '(best_start, best_len, cur_start, cur_len, index) := acc in
  if String.eqb hextet "0" then
    let cur_len := S cur_len in
    let cur_start := match cur_start with None => Some index | s => s end in
    if (best_len <? cur_len)%nat
    then (cur_start, cur_len, cur_start, cur_len, S index)
    else (best_start, best_len, cur_start, cur_len, S index)
  else (best_start, best_len, None, O, S index).

Definition compress_hextets (hextets : list string) : list string :=
  let '(best_start, best_len, _, _, _) :=
    fold_left compress_step hextets (None, O, None, O, O) in
  match best_start with
  | Some start =>
      if (1 <? best_len)%nat then
        let stop := (start + best_len)%nat in
        let hextets1 :=
          if (stop =? List.length hextets)%nat
          then (hextets ++ [EmptyString])%list else hextets in
        let hextets2 :=
          (List.firstn start hextets1 ++ [EmptyString] ++ List.skipn stop hextets1)%list in
        if (start =? 0)%nat then EmptyString :: hextets2 else hextets2
      else hextets
  | None => hextets
  end.

Definition v6_string_from_ip_int (ip_int : N) : string :=
  String.concat ":" (compress_hextets (v6_hextets ip_int)).

(** An address object: its version is read off the constructor. *)
Inductive address : Type :=
| V4 (ip_int : N)
| V6 (ip_int : N) (scope_id : option string).

Definition version (a : address) : N :=
  match a with V4 _ => 4 | V6 _ _ => 6 end.

(** [ipaddress.ip_address(s)]: version 4 is tried first. *)
Definition ip_address (s : string) : result address :=
  match IPv4Address s with
  | Some ip_int => Ok (V4 ip_int)
  | None =>
      match IPv6Address s with
      | Some (ip_int, scope_id) => Ok (V6 ip_int scope_id)
      | None => Raise ValueError
      end
  end.

(** A network object. *)
Inductive network : Type :=
| Net4 (network_address prefixlen : N)
| Net6 (network_address : N) (scope_id : option string) (prefixlen : N).

Definition net_version (n : network) : N :=
  match n with Net4 _ _ => 4 | Net6 _ _ _ => 6 end.

Definition net_prefixlen (n : network) : N :=
  match n with Net4 _ p => p | Net6 _ _ p => p end.

(** [str(network)]: the address, a slash, the prefix length. *)
Definition network_string (n : network) : string :=
  match n with
  | Net4 a p => v4_network_string (a, p)
  | Net6 a scope_id p =>
      v6_string_from_ip_int a
      ++ match scope_id with Some sc => "%" ++ sc | None => EmptyString end
      ++ "/" ++ Py.str_N p
  end.

(** [ipaddress.ip_network(s, strict=False)] *)
Definition ip_network (s : string) : result network :=
  match IPv4Network s with
  | Some (a, p) => Ok (Net4 a p)
  | None =>
      match IPv6Network s with
      | Some (a, scope_id, p) => Ok (Net6 a scope_id p)
      | None => Raise ValueError
      end
  end.

End ipaddress.

(** ** The registry store: the table [ip_registry] *)

Module ip_registry.

(** One row, a field per column of the [CREATE TABLE] statement. *)
Record Row : Type := mkRow {
  id : N;
  ip_address : string;
  alias : option string;
  host_name : option string;
  host_type : option string;
  location : option string;
  notes : option string;
  hostname : option string;
  last_ping_at : option string;
  last_status : option string;
  last_output : option string;
  created_at : string
}.

End ip_registry.

(** The database file: the rows in rowid order and the counter that
    [AUTOINCREMENT] keeps. *)
Record Store : Type := mkStore {
  table : list ip_registry.Row;
  sqlite_sequence : N
}.

(** ["INSERT INTO ip_registry (ip_address, alias, created_at) VALUES (?, ?, ?)"]:
    the [UNIQUE] column refuses a second row with the same text; the
    other columns get their default, [NULL]. *)
Inductive insert_outcome : Type :=
| Inserted (s : Store)
| IntegrityError.

Definition insert_row (ip : string) (alias_value : option string) (now : string)
  (s : Store) : insert_outcome :=
  if existsb (fun r => String.eqb (ip_registry.ip_address r) ip) (table s)
  then IntegrityError
  else
    let new_id := sqlite_sequence s + 1 in
    Inserted
      {| table :=
           (table s ++
            [ip_registry.mkRow new_id ip alias_value
               None None None None None None None None now])%list;
         sqlite_sequence := new_id |}.

(** ["SELECT id FROM ip_registry WHERE ip_address = ?"] with [fetchone]. *)
Definition select_by_ip (ip : string) (s : Store) : option ip_registry.Row :=
  find (fun r => String.eqb (ip_registry.ip_address r) ip) (table s).

(** ["UPDATE ip_registry SET alias = ?, host_name = ?, host_type = ?,
    location = ?, notes = ? WHERE ip_address = ?"] *)
Definition set_details (a hn ht loc nt : option string) (r : ip_registry.Row)
  : ip_registry.Row :=
  ip_registry.mkRow (ip_registry.id r) (ip_registry.ip_address r)
    a hn ht loc nt
    (ip_registry.hostname r) (ip_registry.last_ping_at r)
    (ip_registry.last_status r) (ip_registry.last_output r)
    (ip_registry.created_at r).

Definition update_details (a hn ht loc nt : option string) (ip : string)
  (s : Store) : Store :=
  {| table :=
       map (fun r => if String.eqb (ip_registry.ip_address r) ip
                     then set_details a hn ht loc nt r else r) (table s);
     sqlite_sequence := sqlite_sequence s |}.

(** ["UPDATE ip_registry SET hostname = ?, last_ping_at = ?, last_status = ?,
    last_output = ? WHERE id = ?"] *)
Definition set_probe (h : option string) (at_ st out : string) (r : ip_registry.Row)
  : ip_registry.Row :=
  ip_registry.mkRow (ip_registry.id r) (ip_registry.ip_address r)
    (ip_registry.alias r) (ip_registry.host_name r) (ip_registry.host_type r)
    (ip_registry.location r) (ip_registry.notes r)
    h (Some at_) (Some st) (Some out)
    (ip_registry.created_at r).

Definition update_probe (h : option string) (at_ st out : string) (row_id : N)
  (s : Store) : Store :=
  {| table :=
       map (fun r => if ip_registry.id r =? row_id
                     then set_probe h at_ st out r else r) (table s);
     sqlite_sequence := sqlite_sequence s |}.

(** [ORDER BY created_at DESC]: text compared code point by code point,
    the greatest first.  SQLite scans the table in rowid order and its
    sorter keeps rows with equal keys in the order of the scan, so equal
    [created_at] come out in rowid order: [insert_desc] puts a row
    before the rows after it in the table that are not newer. *)
Fixpoint insert_desc (r : ip_registry.Row) (sorted : list ip_registry.Row)
  : list ip_registry.Row :=
  match sorted with
  | [] => [r]
  | r' :: rest =>
      if String.leb (ip_registry.created_at r') (ip_registry.created_at r)
      then r :: sorted
      else r' :: insert_desc r rest
  end.

Definition order_by_created_at_desc (rows : list ip_registry.Row)
  : list ip_registry.Row :=
  fold_right insert_desc [] rows.

(** The index that the [UNIQUE] constraint keeps on [ip_address]: the
    rows in ascending order of the address, compared code point by code
    point as SQLite compares the bytes of the text; rows with the same
    address, which the constraint excludes, would follow their rowid. *)
Fixpoint insert_asc (r : ip_registry.Row) (sorted : list ip_registry.Row)
  : list ip_registry.Row :=
  match sorted with
  | [] => [r]
  | r' :: rest =>
      if String.leb (ip_registry.ip_address r) (ip_registry.ip_address r')
      then r :: sorted
      else r' :: insert_asc r rest
  end.

Definition index_on_ip_address (rows : list ip_registry.Row)
  : list ip_registry.Row :=
  fold_right insert_asc [] rows.

(** ** The world outside the process *)

(** What [subprocess.run(cmd, capture_output=True, text=True, timeout=15,
    check=False)] does: the child ran to its end, or the call raised
    ([FileNotFoundError] when there is no [ping] to start,
    [TimeoutExpired] after 15 seconds). *)
Inductive run_outcome : Type :=
| Completed (returncode : Z) (stdout stderr : string)
| RunRaised (e : exn).

(** The collaborators, each asked at a moment [t], the number of clock
    readings made so far. *)
Record World : Type := mkWorld {
  (** [platform.system().lower() == "windows"] *)
  is_windows : bool;
  (** [datetime.now(timezone.utc).isoformat()] *)
  utc_isoformat : nat -> string;
  (** [socket.gethostbyaddr(ip)]: the primary name, or the exception that
      leaves the call: an [OSError] ([herror], [gaierror]) when no name
      is found, or another one, as the [UnicodeError] of the idna codec
      for a text with an empty label. *)
  gethostbyaddr : nat -> string -> result string;
  subprocess_run : nat -> list string -> run_outcome
}.

(** The state of the process: the store and the clock readings so far. *)
Record State : Type := mkState {
  store : Store;
  ticks : nat
}.

(** Computations that read and change the state and may raise. *)
Definition M (A : Type) : Type := State -> result A * State.

Definition ret {A} (a : A) : M A := fun st => (Ok a, st).

Definition raise {A} (e : exn) : M A := fun st => (Raise e, st).

Definition bind {A B} (m : M A) (k : A -> M B) : M B :=
  fun st =>
    match m st with
    | (Ok a, st') => k a st'
    | (Raise e, st') => (Raise e, st')
    end.

Notation "x <- m ;; k" := (bind m (fun x => k))
  (at level 61, m at next level, right associativity).

Definition get_store : M Store := fun st => (Ok (store st), st).

Definition put_store (s : Store) : M unit :=
  fun st => (Ok tt, {| store := s; ticks := ticks st |}).

Definition get_ticks : M nat := fun st => (Ok (ticks st), st).

(** ** app.py *)

Definition HOST_TYPE_OPTIONS : list string :=
  ["NOTEBOOK"; "DESKTOP"; "SERVER"; "IMPRESORA"; "ROUTER"; "OTRO"].

(** The messages; [a_acute], [o_acute] are U+00E1 and U+00F3. *)
Definition a_acute : string := String "225" EmptyString.
Definition o_acute : string := String "243" EmptyString.

Definition MSG_INVALID_IP : string := "La IP no es v" ++ a_acute ++ "lida".
Definition MSG_DUPLICATE : string := "La IP ya estaba registrada".
Definition MSG_REGISTERED : string := "IP registrada correctamente".
Definition MSG_INVALID_HOST_TYPE : string := "Tipo de host inv" ++ a_acute ++ "lido".
Definition MSG_NOT_FOUND : string := "No existe la IP indicada".
Definition MSG_UPDATED : string := "Host actualizado".

Definition is_valid_ip (ip_value : string) : bool :=
  match ipaddress.ip_address (Py.strip ip_value) with
  | Ok _ => true
  | Raise _ => false
  end.

Definition _now_iso (w : World) : M string :=
  fun st => (Ok (utc_isoformat w (ticks st)),
             {| store := store st; ticks := S (ticks st) |}).

(** [alias.strip() if alias else None] *)
Definition register_alias (alias : option string) : option string :=
  match alias with
  | Some a => if Py.truthy a then Some (Py.strip a) else None
  | None => None
  end.

Definition register_ip (w : World) (ip_address : string) (alias : option string)
  : M (bool * string) :=
  let clean_ip := Py.strip ip_address in
  if negb (is_valid_ip clean_ip) then ret (false, MSG_INVALID_IP)
  else
    now <- _now_iso w ;;
    s <- get_store ;;
    match insert_row clean_ip (register_alias alias) now s with
    | Inserted s' => _ <- put_store s' ;; ret (true, MSG_REGISTERED)
    | IntegrityError => ret (false, MSG_DUPLICATE)
    end.

(** [x.strip() or None] *)
Definition strip_or_none (x : string) : option string :=
  let s := Py.strip x in if Py.truthy s then Some s else None.

Definition update_host_details
  (ip_address host_name host_type location notes alias : string)
  : M (bool * string) :=
  if Py.truthy host_type && negb (existsb (String.eqb host_type) HOST_TYPE_OPTIONS)
  then ret (false, MSG_INVALID_HOST_TYPE)
  else
    s <- get_store ;;
    match select_by_ip ip_address s with
    | None => ret (false, MSG_NOT_FOUND)
    | Some _ =>
        _ <- put_store
               (update_details (strip_or_none alias) (strip_or_none host_name)
                  (strip_or_none host_type) (strip_or_none location)
                  (strip_or_none notes) ip_address s) ;;
        ret (true, MSG_UPDATED)
    end.

(** [except (socket.herror, socket.gaierror, OSError)] gives [None];
    any other exception leaves the function. *)
Definition resolve_hostname (w : World) (ip_address : string) : M (option string) :=
  t <- get_ticks ;;
  match gethostbyaddr w t ip_address with
  | Ok hostname => ret (Some hostname)
  | Raise e => if is_OSError e then ret None else raise e
  end.

Definition ping_cmd (w : World) (ip_address : string) : list string :=
  if is_windows w then ["ping"; "-n"; "1"; "-a"; ip_address]
  else ["ping"; "-c"; "1"; ip_address].

Definition run_ping (w : World) (ip_address : string) : M (string * string) :=
  t <- get_ticks ;;
  match subprocess_run w t (ping_cmd w ip_address) with
  | RunRaised e => raise e
  | Completed returncode stdout stderr =>
      let output := stdout ++ stderr in
      if (returncode =? 0)%Z then ret ("OK", Py.strip output)
      else
        let stripped := Py.strip output in
        ret ("ERROR",
             if Py.truthy stripped then stripped
             else "Ping fallido con c" ++ o_acute ++ "digo " ++ Py.str_Z returncode)
  end.

(** The body of the [for] loop of [ping_all_registered_ips], over the
    rows read at the start. *)
Fixpoint ping_rows (w : World) (rows : list (N * string)) : M unit :=
  match rows with
  | [] => ret tt
  | (row_id, ip_address) :: rest =>
      hostname <- resolve_hostname w ip_address ;;
      so <- run_ping w ip_address ;;
      now <- _now_iso w ;;
      s <- get_store ;;
      _ <- put_store (update_probe hostname now (fst so) (snd so) row_id s) ;;
      ping_rows w rest
  end.

(** ["SELECT id, ip_address FROM ip_registry"] has no [ORDER BY]: SQLite
    answers it from the index on [ip_address], which holds both columns,
    so the rows come in the order of that index. *)
Definition ping_all_registered_ips (w : World) : M unit :=
  s <- get_store ;;
  let rows :=
    map (fun r => (ip_registry.id r, ip_registry.ip_address r))
      (index_on_ip_address (table s)) in
  ping_rows w rows.

Definition infer_segment_24 (ip_address : string) : result string :=
  let? parsed_ip := ipaddress.ip_address ip_address in
  if negb (ipaddress.version parsed_ip =? 4) then Ok "IPv6"
  else
    let? net := ipaddress.ip_network (ip_address ++ "/24") in
    Ok (ipaddress.network_string net).

(** The second half of [normalize_segment_filter]: the [try] block and
    the final [return None]. *)
Definition cidr_filter (value : string) : result (option string) :=
  match ipaddress.ip_network value with
  | Ok network =>
      if (ipaddress.net_version network =? 4)
         && (ipaddress.net_prefixlen network =? 24)
      then Ok (Some (ipaddress.network_string network))
      else Ok None
  | Raise e => if is_ValueError e then Ok None else Raise e
  end.

Definition normalize_segment_filter (raw_value : option string)
  : result (option string) :=
  match raw_value with
  | None => Ok None
  | Some raw =>
      if negb (Py.truthy raw) then Ok None
      else
        let value := Py.strip raw in
        if negb (Py.truthy value) then Ok None
        else if Py.endswith "/24" value && negb (Py.contains "." value) then
          let? octet := Py.getitem (Py.split "/" value) 0 in
          if Py.isdigit octet then
            let? n := Py.int octet in
            if ((0 <=? n) && (n <=? 255))%Z
            then Ok (Some ("THIRD_OCTET:" ++ Py.str_Z n))
            else cidr_filter value
          else cidr_filter value
        else cidr_filter value
  end.

(** A [dict[str, str | None]], in insertion order. *)
Definition dict : Type := list (string * option string).

(** [d[key]]; [None] when the key is absent. *)
Fixpoint dict_get (key : string) (d : dict) : option (option string) :=
  match d with
  | [] => None
  | (k, v) :: d' => if String.eqb k key then Some v else dict_get key d'
  end.

(** The ten columns that [get_rows] and [get_ip_row] select. *)
Definition selected_columns (row : ip_registry.Row) : dict :=
  [("ip_address", Some (ip_registry.ip_address row));
   ("alias", ip_registry.alias row);
   ("host_name", ip_registry.host_name row);
   ("host_type", ip_registry.host_type row);
   ("location", ip_registry.location row);
   ("notes", ip_registry.notes row);
   ("hostname", ip_registry.hostname row);
   ("last_ping_at", ip_registry.last_ping_at row);
   ("last_status", ip_registry.last_status row);
   ("last_output", ip_registry.last_output row)].

(** The dict [current] that [get_rows] builds for one row. *)
Definition with_segment (row : ip_registry.Row) (segment : string) : dict :=
  (selected_columns row ++ [("segment", Some segment)])%list.

(** The filter of [get_rows] on one row: [false] where the loop says
    [continue]. *)
Definition keep_row (segment_filter : option string) (ip segment : string)
  : result bool :=
  match segment_filter with
  | None => Ok true
  | Some f =>
      if negb (Py.truthy f) then Ok true
      else if Py.startswith "THIRD_OCTET:" f then
        if String.eqb segment "IPv6" then Ok false
        else
          let? o := Py.getitem (Py.split "." ip) 2 in
          let? third_octet := Py.int o in
          let? q := Py.getitem (Py.split1 ":" f) 1 in
          let? requested := Py.int q in
          Ok (third_octet =? requested)%Z
      else Ok (String.eqb segment f)
  end.

Fixpoint render_rows (segment_filter : option string) (rows : list ip_registry.Row)
  : result (list dict) :=
  match rows with
  | [] => Ok []
  | row :: rest =>
      let? segment := infer_segment_24 (ip_registry.ip_address row) in
      let current := with_segment row segment in
      let? keep := keep_row segment_filter (ip_registry.ip_address row) segment in
      let? rendered_rows := render_rows segment_filter rest in
      Ok (if keep then current :: rendered_rows else rendered_rows)
  end.

Definition lift {A} (r : result A) : M A := fun st => (r, st).

Definition get_rows (segment_filter : option string) : M (list dict) :=
  s <- get_store ;;
  lift (render_rows segment_filter (order_by_created_at_desc (table s))).

Definition get_ip_row (ip_address : string) : M (option dict) :=
  s <- get_store ;;
  ret (option_map selected_columns (select_by_ip ip_address s)).

(** [init_db] on a new file. *)
Definition init_db : Store := {| table := []; sqlite_sequence := 0 |}.

Definition initial_state : State := {| store := init_db; ticks := O |}.

(** ** Sample worlds and states *)

(** A clock that reads successive seconds of one minute. *)
Definition sample_clock (t : nat) : string :=
  "2024-05-01T10:00:"
  ++ (if (t <? 10)%nat then "0" else "") ++ Py.str_N (N.of_nat t) ++ "+00:00".

(** Every host answers the ping; no reverse name is known. *)
Definition world_reachable : World :=
  {| is_windows := false;
     utc_isoformat := sample_clock;
     gethostbyaddr := fun _ _ => Raise OSError;
     subprocess_run := fun _ _ => Completed 0 "1 packets transmitted, 1 received" "" |}.

(** Every ping takes longer than the 15 seconds [subprocess.run] allows. *)
Definition world_timeout : World :=
  {| is_windows := false;
     utc_isoformat := sample_clock;
     gethostbyaddr := fun _ _ => Raise OSError;
     subprocess_run := fun _ _ => RunRaised TimeoutExpired |}.

(** There is no [ping] program to run. *)
Definition world_no_ping : World :=
  {| is_windows := false;
     utc_isoformat := sample_clock;
     gethostbyaddr := fun _ _ => Raise OSError;
     subprocess_run := fun _ _ => RunRaised FileNotFoundError |}.

(** Every host answers the ping; the resolver raises [UnicodeError] for
    an address text that holds two dots in a row, as the idna codec does
    for a scope id with an empty label, and knows no name otherwise. *)
Definition world_empty_label : World :=
  {| is_windows := false;
     utc_isoformat := sample_clock;
     gethostbyaddr := fun _ ip =>
       if existsb (String.eqb "") (Py.split "." ip) then Raise UnicodeError
       else Raise OSError;
     subprocess_run := fun _ _ => Completed 0 "1 packets transmitted, 1 received" "" |}.

(** The ping of 10.0.0.1 times out; every other host answers. *)
Definition world_first_times_out : World :=
  {| is_windows := false;
     utc_isoformat := sample_clock;
     gethostbyaddr := fun _ _ => Raise OSError;
     subprocess_run := fun _ cmd =>
       if existsb (String.eqb "10.0.0.1") cmd then RunRaised TimeoutExpired
       else Completed 0 "1 packets transmitted, 1 received" "" |}.

(** The state after registering one address, and after a second one. *)
Definition state_one : State :=
  snd (register_ip world_reachable "10.0.0.1" (Some "gw") initial_state).

Definition state_two : State :=
  snd (register_ip world_reachable "10.0.0.2" None state_one).

(** 10.0.0.2 registered before 10.0.0.1, and a link-local address whose
    scope id has an empty label registered before 10.0.0.1. *)
Definition state_reversed : State :=
  snd (register_ip world_reachable "10.0.0.1" None
         (snd (register_ip world_reachable "10.0.0.2" None initial_state))).

Definition state_scoped : State :=
  snd (register_ip world_reachable "10.0.0.1" None
         (snd (register_ip world_reachable "fe80::1%a..b" None initial_state))).

(** Two version 4 addresses in different /24 networks and one version 6
    address. *)
Definition state_segments : State :=
  snd (register_ip world_reachable "::1" None
         (snd (register_ip world_reachable "192.168.59.20" (Some "seg59")
                 (snd (register_ip world_reachable "192.168.56.10" (Some "seg56")
                         initial_state))))).

(** Two filter texts whose number has more digits than [int] converts:
    4301 ones, and 56 written after 4299 zeros. *)
Definition filter_of_4301_ones : string := Py.mul "1" 4301 ++ "/24".
Definition filter_of_padded_56 : string := Py.mul "0" 4299 ++ "56/24".

(** The enumeration of host types as the specification words it. *)
Definition SPEC_HOST_TYPES : list string :=
  ["NOTEBOOK"; "DESKTOP"; "SERVER"; "PRINTER"; "ROUTER"; "OTHER"].

(** ** Notions used in the statements *)

(** [r'] is [r] after one write of a probe result: the four probe columns
    come from one [UPDATE], the other columns are those of [r]. *)
Definition probed (w : World) (r r' : ip_registry.Row) : Prop :=
  exists t hostname status output,
    (status = "OK" \/ status = "ERROR")
    /\ r' = set_probe hostname (utc_isoformat w t) status output r.

(** The third of the four bytes of a version 4 address. *)
Definition third_octet (ip_int : N) : N := N.land (N.shiftr ip_int 8) 255.

(** The record holds a version 4 address whose third octet is [n]. *)
Definition has_third_octet (n : N) (row : ip_registry.Row) : bool :=
  match ipaddress.IPv4Address (ip_registry.ip_address row) with
  | Some ip_int => third_octet ip_int =? n
  | None => false
  end.

(** The computed segment of the record is the text [f]. *)
Definition has_segment (f : string) (row : ip_registry.Row) : bool :=
  match infer_segment_24 (ip_registry.ip_address row) with
  | Ok segment => String.eqb segment f
  | Raise _ => false
  end.

(** [d] is the listing of [row]: ten entries for its columns and, under
    the key "segment", what [infer_segment_24] computes for its
    address. *)
Definition listed (row : ip_registry.Row) (d : dict) : Prop :=
  exists segment,
    infer_segment_24 (ip_registry.ip_address row) = Ok segment
    /\ d = [("ip_address", Some (ip_registry.ip_address row));
            ("alias", ip_registry.alias row);
            ("host_name", ip_registry.host_name row);
            ("host_type", ip_registry.host_type row);
            ("location", ip_registry.location row);
            ("notes", ip_registry.notes row);
            ("hostname", ip_registry.hostname row);
            ("last_ping_at", ip_registry.last_ping_at row);
            ("last_status", ip_registry.last_status row);
            ("last_output", ip_registry.last_output row);
            ("segment", Some segment)].

(** The records created at the moment [c]. *)
Definition created_at_is (c : string) (r : ip_registry.Row) : bool :=
  String.eqb (ip_registry.created_at r) c.

(** Greatest [created_at] first. *)
Definition newest_first (rows : list ip_registry.Row) : Prop :=
  StronglySorted
    (fun r1 r2 =>
       String.leb (ip_registry.created_at r2) (ip_registry.created_at r1) = true)
    rows.

(** Every stored address is one that [ipaddress.ip_address] accepts, as
    [register_ip] ensures. *)
Definition addresses_valid (s : Store) : Prop :=
  Forall (fun r => exists a, ipaddress.ip_address (ip_registry.ip_address r) = Ok a)
    (table s).

(** ** The rest of the registry code *)

(** The set comprehension of [get_available_segments], in row order. *)
Fixpoint segments_of (rows : list ip_registry.Row) : result (list string) :=
  match rows with
  | [] => Ok []
  | row :: rest =>
      let? segment := infer_segment_24 (ip_registry.ip_address row) in
      let? segments := segments_of rest in
      Ok (segment :: segments)
  end.

(** [sorted(set(xs))]: each text once, in ascending code point order. *)
Fixpoint insert_distinct (x : string) (sorted : list string) : list string :=
  match sorted with
  | [] => [x]
  | y :: rest =>
      match String.compare x y with
      | Lt => x :: sorted
      | Eq => sorted
      | Gt => y :: insert_distinct x rest
      end
  end.

Definition sorted_set (xs : list string) : list string :=
  fold_right insert_distinct [] xs.

Definition get_available_segments : M (list string) :=
  s <- get_store ;;
  lift (let? segments := segments_of (table s) in Ok (sorted_set segments)).

(** The columns of the [CREATE TABLE] statement of [init_db]. *)
Definition CREATE_TABLE_COLUMNS : list string :=
  ["id"; "ip_address"; "alias"; "host_name"; "host_type"; "location"; "notes";
   "hostname"; "last_ping_at"; "last_status"; "last_output"; "created_at"].

(** The keys of the dict [missing] of [_ensure_columns], in its order. *)
Definition MIGRATED_COLUMNS : list string :=
  ["host_name"; "host_type"; "location"; "notes"].

(** SQLite compares column names without regard to the case of the
    letters A to Z. *)
Definition lower_char (c : ascii) : ascii :=
  let n := N_of_ascii c in
  if (65 <=? n) && (n <=? 90) then ascii_of_N (n + 32) else c.

Fixpoint lower (s : string) : string :=
  match s with
  | EmptyString => EmptyString
  | String c s' => String (lower_char c) (lower s')
  end.

Definition same_column (a b : string) : bool := String.eqb (lower a) (lower b).

(** ["ALTER TABLE ip_registry ADD COLUMN c TEXT"] on the column names of
    the table: SQLite refuses a name the table has, whatever the case of
    its letters (the [sqlite3.OperationalError] "duplicate column name"),
    else the column comes last. *)
Definition add_column (c : string) (columns : list string) : result (list string) :=
  if existsb (same_column c) columns then Raise OperationalError
  else Ok (columns ++ [c])%list.

(** The loop of [_ensure_columns]: [current] is the set of names read
    once, before it, and compared as Python compares texts.  The result
    comes with the columns of the table afterwards: each [ALTER TABLE]
    is committed as it runs, so the columns added before a failure
    stay. *)
Fixpoint ensure_loop (current : list string) (missing : list string)
  (columns : list string) : result unit * list string :=
  match missing with
  | [] => (Ok tt, columns)
  | column :: rest =>
      if negb (existsb (String.eqb column) current) then
        match add_column column columns with
        | Ok columns' => ensure_loop current rest columns'
        | Raise e => (Raise e, columns)
        end
      else ensure_loop current rest columns
  end.

Definition _ensure_columns (columns : list string) : result unit * list string :=
  ensure_loop columns MIGRATED_COLUMNS columns.

(** [init_db] on the column names of the file's table, [None] when the
    file has no table yet: [CREATE TABLE IF NOT EXISTS], then
    [_ensure_columns]. *)
Definition init_db_columns (existing : option (list string))
  : result unit * list string :=
  _ensure_columns
    (match existing with
     | Some columns => columns
     | None => CREATE_TABLE_COLUMNS
     end).

(** The table lacks the name [m] but has a column that is [m] up to the
    case of its letters. *)
Definition blocked (columns : list string) (m : string) : bool :=
  negb (existsb (String.eqb m) columns) && existsb (same_column m) columns.

(** The names of [ms] before the first blocked one. *)
Fixpoint until_blocked (columns : list string) (ms : list string) : list string :=
  match ms with
  | [] => []
  | m :: rest => if blocked columns m then [] else m :: until_blocked columns rest
  end.

(** [scheduler_loop]: [is_set k] is what the [k]-th call of
    [stop_event.is_set()] answers.  The loop may run for ever, so it is
    given [fuel] turns; the result tells whether it left the [while]. *)
Fixpoint scheduler_loop (w : World) (is_set : nat -> bool) (k fuel : nat) : M bool :=
  match fuel with
  | O => ret false
  | S fuel' =>
      if negb (is_set k) then
        _ <- ping_all_registered_ips w ;;
        scheduler_loop w is_set (S k) fuel'
      else ret true
  end.

(** The states the process can be in: after [init_db] on a new file, any
    sequence of registrations, detail updates and probe cycles, whether a
    cycle ran to its end or raised. *)
Inductive reachable (w : World) : State -> Prop :=
| reach_init : reachable w initial_state
| reach_register ip alias st :
    reachable w st -> reachable w (snd (register_ip w ip alias st))
| reach_update ip hn ht loc nt al st :
    reachable w st -> reachable w (snd (update_host_details ip hn ht loc nt al st))
| reach_ping st :
    reachable w st -> reachable w (snd (ping_all_registered_ips w st)).

(** Addresses and ids are keys; ids come from the counter. *)
Definition keys_unique (s : Store) : Prop :=
  NoDup (map ip_registry.ip_address (table s))
  /\ NoDup (map ip_registry.id (table s))
  /\ Forall (fun r => 1 <= ip_registry.id r <= sqlite_sequence s) (table s).

(** A stored text field is null or trimmed. *)
Definition trimmed_or_null (x : option string) : Prop :=
  match x with
  | None => True
  | Some v => Py.strip v = v
  end.

(** What every stored record looks like. *)
Record row_wellformed (r : ip_registry.Row) : Prop := mkWellformed {
  wf_address_trimmed : Py.strip (ip_registry.ip_address r) = ip_registry.ip_address r;
  wf_address_valid : is_valid_ip (ip_registry.ip_address r) = true;
  wf_alias : trimmed_or_null (ip_registry.alias r);
  wf_host_name : trimmed_or_null (ip_registry.host_name r)
                 /\ ip_registry.host_name r <> Some "";
  wf_host_type : ip_registry.host_type r = None
                 \/ exists h, ip_registry.host_type r = Some h /\ In h HOST_TYPE_OPTIONS;
  wf_location : trimmed_or_null (ip_registry.location r)
                /\ ip_registry.location r <> Some "";
  wf_notes : trimmed_or_null (ip_registry.notes r)
             /\ ip_registry.notes r <> Some "";
  wf_probe :
    (ip_registry.hostname r = None /\ ip_registry.last_ping_at r = None
     /\ ip_registry.last_status r = None /\ ip_registry.last_output r = None)
    \/ (exists at_ output,
          ip_registry.last_ping_at r = Some at_
          /\ (ip_registry.last_status r = Some "OK"
              \/ ip_registry.last_status r = Some "ERROR")
          /\ ip_registry.last_output r = Some output
          /\ Py.strip output = output
          /\ (ip_registry.last_status r = Some "ERROR" -> output <> ""))
}.

(** The columns that no statement of [app.py] rewrites. *)
Definition row_key (r : ip_registry.Row) : N * string * string :=
  (ip_registry.id r, ip_registry.ip_address r, ip_registry.created_at r).

(** [r'] is [r] after one write of a probe result whose output is what
    [run_ping] returns: trimmed, and not empty under status ERROR. *)
Definition probe_written (r r' : ip_registry.Row) : Prop :=
  exists hostname at_ status output,
    r' = set_probe hostname at_ status output r
    /\ Py.strip output = output
    /\ (status = "OK" \/ (status = "ERROR" /\ output <> "")).

(** What holds of every reachable state. *)
Definition state_invariant (st : State) : Prop :=
  keys_unique (store st) /\ Forall row_wellformed (table (store st)).

(** What [resolve_hostname] and [run_ping] answer for an address at the
    moment [t]; the store plays no part in it. *)
Definition lookup_outcome (w : World) (t : nat) (ip : string)
  : result (option string) :=
  fst (resolve_hostname w ip {| store := init_db; ticks := t |}).

Definition probe_outcome (w : World) (t : nat) (ip : string)
  : result (string * string) :=
  fst (run_ping w ip {| store := init_db; ticks := t |}).

(** What the body of the loop of [ping_all_registered_ips] has in hand
    for an address at the moment [t] when it comes to its [UPDATE]: the
    host name and the (status, output) pair, or else the exception that
    left [resolve_hostname] or, after it, [run_ping]. *)
Definition loop_outcome (w : World) (t : nat) (ip : string)
  : result (option string * (string * string)) :=
  let? hostname := lookup_outcome w t ip in
  let? so := probe_outcome w t ip in
  Ok (hostname, so).

(** The record after the loop body of [ping_all_registered_ips] ran for
    it at the moment [t]. *)
Definition probe_row (w : World) (t : nat) (r : ip_registry.Row) : ip_registry.Row :=
  match loop_outcome w t (ip_registry.ip_address r) with
  | Ok (hostname, (status, output)) =>
      set_probe hostname (utc_isoformat w t) status output r
  | Raise _ => r
  end.

(** The position of the first row with the id [row_id]. *)
Fixpoint position (row_id : N) (rows : list ip_registry.Row) : option nat :=
  match rows with
  | [] => None
  | r :: rest =>
      if ip_registry.id r =? row_id then Some O
      else option_map S (position row_id rest)
  end.

(** Ascending [ip_address]. *)
Definition by_address (rows : list ip_registry.Row) : Prop :=
  StronglySorted
    (fun r1 r2 =>
       String.leb (ip_registry.ip_address r1) (ip_registry.ip_address r2) = true)
    rows.

(** The resolver raises nothing that [resolve_hostname] lets through. *)
Definition resolver_raises_only_OSError (w : World) : Prop :=
  forall t ip e, gethostbyaddr w t ip = Raise e -> is_OSError e = true.

(** Every ping subprocess runs to its end. *)
Definition every_ping_completes (w : World) : Prop :=
  forall t cmd, exists returncode stdout stderr,
    subprocess_run w t cmd = Completed returncode stdout stderr.

(** The text of the /24 network with the given first three octets. *)
Definition segment_text (v0 v1 v2 : N) : string :=
  Py.str_N v0 ++ "." ++ Py.str_N v1 ++ "." ++ Py.str_N v2 ++ ".0/24".

(** * Properties *)

(** ** Texts *)

Lemma truthy_true_iff (s : string) : Py.truthy s = true <-> s <> "".
Proof.
  unfold Py.truthy. destruct s; simpl; split; intro H; congruence.
Qed.

Lemma truthy_false_iff (s : string) : Py.truthy s = false <-> s = "".
Proof.
  unfold Py.truthy. destruct s; simpl; split; intro H; congruence.
Qed.

Lemma rstrip_head (c : ascii) (s : string) :
  Py.isspace_char c = false -> exists r, Py.rstrip (String c s) = String c r.
Proof.
  intro Hc. simpl. destruct (Py.rstrip s).
  - rewrite Hc. now exists "".
  - eexists. reflexivity.
Qed.

Lemma rstrip_idempotent (s : string) : Py.rstrip (Py.rstrip s) = Py.rstrip s.
Proof.
  induction s as [|c s IH]; [reflexivity|].
  simpl. destruct (Py.rstrip s) as [|d r] eqn:E.
  - destruct (Py.isspace_char c) eqn:Hc; [reflexivity|].
    simpl. now rewrite Hc.
  - simpl in *. now rewrite IH.
Qed.

Lemma lstrip_head (s : string) :
  Py.lstrip s = "" \/
  exists c r, Py.lstrip s = String c r /\ Py.isspace_char c = false.
Proof.
  induction s as [|c s IH]; [now left|].
  simpl. destruct (Py.isspace_char c) eqn:Hc; [exact IH|].
  right. now exists c, s.
Qed.

Lemma strip_idempotent (s : string) : Py.strip (Py.strip s) = Py.strip s.
Proof.
  unfold Py.strip.
  destruct (lstrip_head s) as [E | (c & r & E & Hc)]; rewrite E.
  - reflexivity.
  - destruct (rstrip_head c r Hc) as [r' E'].
    rewrite E'. simpl Py.lstrip. rewrite Hc.
    rewrite <- E'. apply rstrip_idempotent.
Qed.

Lemma is_valid_ip_strip (s : string) : is_valid_ip (Py.strip s) = is_valid_ip s.
Proof. unfold is_valid_ip. now rewrite strip_idempotent. Qed.

Lemma strip_or_none_spec (x : string) :
  (Py.strip x = "" -> strip_or_none x = None)
  /\ (Py.strip x <> "" -> strip_or_none x = Some (Py.strip x)).
Proof.
  unfold strip_or_none. split; intro H.
  - now rewrite H.
  - apply truthy_true_iff in H. now rewrite H.
Qed.

(** ** The store *)

Lemma existsb_eqb_In (x : string) (xs : list string) :
  existsb (String.eqb x) xs = true <-> In x xs.
Proof.
  rewrite existsb_exists. split.
  - intros (y & Hy & E). apply String.eqb_eq in E. now subst.
  - intro H. exists x. split; [assumption | apply String.eqb_refl].
Qed.

Lemma select_by_ip_existsb (ip : string) (s : Store) :
  existsb (fun r => String.eqb (ip_registry.ip_address r) ip) (table s) = true
  <-> select_by_ip ip s <> None.
Proof.
  unfold select_by_ip. induction (table s) as [|r rows IH]; simpl.
  - split; [discriminate | congruence].
  - destruct (String.eqb (ip_registry.ip_address r) ip); simpl.
    + split; [discriminate | reflexivity].
    + exact IH.
Qed.

Lemma select_by_ip_ip (ip : string) (s : Store) (r : ip_registry.Row) :
  select_by_ip ip s = Some r -> ip_registry.ip_address r = ip.
Proof.
  unfold select_by_ip. intro H. apply find_some in H.
  now apply String.eqb_eq.
Qed.

Lemma select_by_ip_update_details a hn ht loc nt ip s :
  select_by_ip ip (update_details a hn ht loc nt ip s)
  = option_map (set_details a hn ht loc nt) (select_by_ip ip s).
Proof.
  unfold select_by_ip, update_details; simpl.
  induction (table s) as [|r rows IH]; [reflexivity|].
  simpl. destruct (String.eqb (ip_registry.ip_address r) ip) eqn:E; simpl.
  - now rewrite E.
  - now rewrite E.
Qed.

Lemma select_by_ip_update_details_other a hn ht loc nt ip ip' s :
  ip' <> ip ->
  select_by_ip ip' (update_details a hn ht loc nt ip s) = select_by_ip ip' s.
Proof.
  intro Hne. unfold select_by_ip, update_details; simpl.
  induction (table s) as [|r rows IH]; [reflexivity|].
  simpl. destruct (String.eqb (ip_registry.ip_address r) ip) eqn:E; simpl.
  - apply String.eqb_eq in E.
    assert (E' : String.eqb (ip_registry.ip_address r) ip' = false)
      by (apply String.eqb_neq; congruence).
    now rewrite E'.
  - destruct (String.eqb (ip_registry.ip_address r) ip'); [reflexivity | exact IH].
Qed.

Lemma select_by_ip_app_new ip rows r seq :
  find (fun r => String.eqb (ip_registry.ip_address r) ip) rows = None ->
  ip_registry.ip_address r = ip ->
  select_by_ip ip {| table := (rows ++ [r])%list; sqlite_sequence := seq |} = Some r.
Proof.
  unfold select_by_ip; simpl. intros Hnone Hip.
  induction rows as [|r0 rows IH]; simpl in *.
  - subst. now rewrite String.eqb_refl.
  - destruct (String.eqb (ip_registry.ip_address r0) ip); [discriminate | auto].
Qed.

(** ** The prober *)

Lemma run_ping_completed w ip st returncode stdout stderr :
  subprocess_run w (ticks st) (ping_cmd w ip) = Completed returncode stdout stderr ->
  exists status output,
    run_ping w ip st = (Ok (status, output), st)
    /\ (status = "OK" \/ status = "ERROR").
Proof.
  intro H. unfold run_ping, bind, get_ticks. rewrite H.
  destruct (returncode =? 0)%Z; unfold ret; eauto.
Qed.

Lemma run_ping_raised w ip st e :
  subprocess_run w (ticks st) (ping_cmd w ip) = RunRaised e ->
  run_ping w ip st = (Raise e, st).
Proof.
  intro H. unfold run_ping, bind, get_ticks. now rewrite H.
Qed.

Lemma run_ping_ok_inv w ip st status output st' :
  run_ping w ip st = (Ok (status, output), st') ->
  st' = st /\ (status = "OK" \/ status = "ERROR").
Proof.
  unfold run_ping, bind, get_ticks.
  destruct (subprocess_run w (ticks st) (ping_cmd w ip)) as [rc out err | e].
  - destruct (rc =? 0)%Z; unfold ret; intros [= <- <- <-]; auto.
  - unfold raise. discriminate.
Qed.

(** C1, what the code does where the claim fails: when the ping
    subprocess runs into the 15-second timeout, or when there is no ping
    program, [run_ping] returns no (status, output) pair; the exception of
    [subprocess.run] leaves it. *)
Theorem run_ping_raises_on_timeout_and_missing_binary :
  run_ping world_timeout "10.0.0.1" state_one = (Raise TimeoutExpired, state_one)
  /\ run_ping world_no_ping "10.0.0.1" state_one
     = (Raise FileNotFoundError, state_one).
Proof. split; reflexivity. Qed.

(** C2, what the code does where the claim fails: with 10.0.0.1 and
    10.0.0.2 registered and the ping of 10.0.0.1 timing out, the cycle
    ends with the exception at the first address and persists nothing,
    neither for 10.0.0.1 nor for 10.0.0.2, which would have answered. *)
Theorem ping_cycle_aborts_on_first_timeout :
  ping_all_registered_ips world_first_times_out state_two
  = (Raise TimeoutExpired, state_two)
  /\ map ip_registry.ip_address (table (store state_two)) = ["10.0.0.1"; "10.0.0.2"]
  /\ Forall (fun r => ip_registry.last_status r = None
                      /\ ip_registry.last_ping_at r = None)
       (table (store state_two))
  /\ fst (run_ping world_first_times_out "10.0.0.2" state_two)
     = Ok ("OK", "1 packets transmitted, 1 received").
Proof.
  split; [reflexivity|]. split; [reflexivity|]. split; [|reflexivity].
  repeat constructor.
Qed.

(** ** Host details *)

Lemma msg_invalid_host_type_distinct :
  MSG_INVALID_HOST_TYPE <> MSG_NOT_FOUND /\ MSG_INVALID_HOST_TYPE <> MSG_UPDATED.
Proof. split; vm_compute; discriminate. Qed.

Lemma update_host_details_rejected ip hn ht loc nt al st :
  Py.truthy ht && negb (existsb (String.eqb ht) HOST_TYPE_OPTIONS) = true ->
  update_host_details ip hn ht loc nt al st = (Ok (false, MSG_INVALID_HOST_TYPE), st).
Proof. intro H. unfold update_host_details. now rewrite H. Qed.

Lemma update_host_details_accepted ip hn ht loc nt al st :
  Py.truthy ht && negb (existsb (String.eqb ht) HOST_TYPE_OPTIONS) = false ->
  update_host_details ip hn ht loc nt al st
  = match select_by_ip ip (store st) with
    | None => (Ok (false, MSG_NOT_FOUND), st)
    | Some _ =>
        (Ok (true, MSG_UPDATED),
         {| store := update_details (strip_or_none al) (strip_or_none hn)
                       (strip_or_none ht) (strip_or_none loc) (strip_or_none nt)
                       ip (store st);
            ticks := ticks st |})
    end.
Proof.
  intro H. unfold update_host_details. rewrite H.
  unfold bind, get_store, put_store, ret.
  now destruct (select_by_ip ip (store st)).
Qed.

Lemma host_type_guard_iff (ht : string) :
  Py.truthy ht && negb (existsb (String.eqb ht) HOST_TYPE_OPTIONS) = true
  <-> ht <> "" /\ ~ In ht HOST_TYPE_OPTIONS.
Proof.
  rewrite andb_true_iff, negb_true_iff, truthy_true_iff.
  rewrite <- existsb_eqb_In.
  destruct (existsb (String.eqb ht) HOST_TYPE_OPTIONS); intuition congruence.
Qed.

(** C3, the claim as worded fails: "PRINTER" is a member of the
    enumeration the claim names, yet [update_host_details] on the
    registered address 10.0.0.1 refuses it as an unknown host type. *)
Lemma update_host_details_refuses_PRINTER :
  In "PRINTER" SPEC_HOST_TYPES
  /\ select_by_ip "10.0.0.1" (store state_one) <> None
  /\ update_host_details "10.0.0.1" "" "PRINTER" "" "" "" state_one
     = (Ok (false, MSG_INVALID_HOST_TYPE), state_one).
Proof.
  split; [simpl; tauto|]. split; [vm_compute; discriminate | reflexivity].
Qed.

(** C3, amended: [update_host_details] fails with the unknown-host-type
    message if and only if the supplied host type is non-empty and not a
    member of [HOST_TYPE_OPTIONS] = NOTEBOOK, DESKTOP, SERVER, IMPRESORA,
    ROUTER, OTRO; in particular on an existing address the host types
    "IMPRESORA" and "OTRO" succeed. *)
Theorem update_host_details_host_type_check :
  forall ip_address host_name host_type location notes alias st,
    (fst (update_host_details ip_address host_name host_type location notes alias st)
       = Ok (false, MSG_INVALID_HOST_TYPE)
     <-> host_type <> "" /\ ~ In host_type HOST_TYPE_OPTIONS)
    /\ (In host_type ["IMPRESORA"; "OTRO"] ->
        select_by_ip ip_address (store st) <> None ->
        fst (update_host_details ip_address host_name host_type location notes alias st)
        = Ok (true, MSG_UPDATED)).
Proof.
  intros ip hn ht loc nt al st.
  destruct (Py.truthy ht && negb (existsb (String.eqb ht) HOST_TYPE_OPTIONS)) eqn:G.
  - rewrite (update_host_details_rejected _ _ _ _ _ _ _ G). simpl. split.
    + split; [intros _; now apply host_type_guard_iff | reflexivity].
    + intros Hin _. apply host_type_guard_iff in G. destruct G as [_ G].
      exfalso. apply G. simpl in *. intuition.
  - rewrite (update_host_details_accepted _ _ _ _ _ _ _ G). split.
    + split.
      * destruct (select_by_ip ip (store st)); simpl; intros [= E];
          exfalso; now apply msg_invalid_host_type_distinct.
      * intro H. apply host_type_guard_iff in H. congruence.
    + intros _ Hsel. now destruct (select_by_ip ip (store st)).
Qed.

Lemma update_host_details_host_type_check_witness :
  (fst (update_host_details "10.0.0.1" "" "PRINTER" "" "" "" state_one)
     = Ok (false, MSG_INVALID_HOST_TYPE)
   <-> "PRINTER" <> "" /\ ~ In "PRINTER" HOST_TYPE_OPTIONS)
  /\ fst (update_host_details "10.0.0.1" "" "OTRO" "" "" "" state_one)
     = Ok (true, MSG_UPDATED).
Proof.
  split.
  - exact (proj1 (update_host_details_host_type_check
                    "10.0.0.1" "" "PRINTER" "" "" "" state_one)).
  - apply (proj2 (update_host_details_host_type_check
                    "10.0.0.1" "" "OTRO" "" "" "" state_one)).
    + simpl; tauto.
    + vm_compute; discriminate.
Defined.

(** ** Registration *)

Lemma register_ip_unfold w ip alias st :
  register_ip w ip alias st
  = if negb (is_valid_ip ip) then (Ok (false, MSG_INVALID_IP), st)
    else
      match insert_row (Py.strip ip) (register_alias alias)
              (utc_isoformat w (ticks st)) (store st) with
      | Inserted s' =>
          (Ok (true, MSG_REGISTERED), {| store := s'; ticks := S (ticks st) |})
      | IntegrityError =>
          (Ok (false, MSG_DUPLICATE), {| store := store st; ticks := S (ticks st) |})
      end.
Proof.
  unfold register_ip. rewrite is_valid_ip_strip.
  destruct (is_valid_ip ip); simpl; [|reflexivity].
  unfold bind, _now_iso, get_store, put_store, ret; simpl.
  now destruct (insert_row _ _ _ _).
Qed.

Lemma register_alias_spec :
  register_alias None = None
  /\ register_alias (Some "") = None
  /\ forall a, a <> "" -> register_alias (Some a) = Some (Py.strip a).
Proof.
  split; [reflexivity|]. split; [reflexivity|].
  intros a Ha. unfold register_alias.
  apply truthy_true_iff in Ha. now rewrite Ha.
Qed.

(** C4, the claim as worded fails: registering 10.0.0.1 with the alias
    "gw" inserts a record whose optional field [alias] holds "gw", so not
    all optional fields of the new record are empty or null. *)
Lemma register_ip_stores_alias :
  fst (register_ip world_reachable "10.0.0.1" (Some "gw") initial_state)
  = Ok (true, MSG_REGISTERED)
  /\ map ip_registry.alias
       (table (store (snd (register_ip world_reachable "10.0.0.1" (Some "gw")
                             initial_state))))
     = [Some "gw"].
Proof. split; reflexivity. Qed.

(** C4, amended: [register_ip] fails with the invalid-address message when
    the validator rejects the address; fails with the duplicate message
    when a record for the trimmed address exists, leaving the store as it
    was; otherwise it appends exactly one record, whose [created_at] is
    the clock reading, whose alias is the trimmed alias argument (null
    when no alias or the empty alias is given) and whose other optional
    fields are all null. *)
Theorem register_ip_outcomes :
  forall w ip alias st,
    (is_valid_ip ip = false ->
     register_ip w ip alias st = (Ok (false, MSG_INVALID_IP), st))
    /\ (is_valid_ip ip = true ->
        select_by_ip (Py.strip ip) (store st) <> None ->
        fst (register_ip w ip alias st) = Ok (false, MSG_DUPLICATE)
        /\ store (snd (register_ip w ip alias st)) = store st)
    /\ (is_valid_ip ip = true ->
        select_by_ip (Py.strip ip) (store st) = None ->
        fst (register_ip w ip alias st) = Ok (true, MSG_REGISTERED)
        /\ table (store (snd (register_ip w ip alias st)))
           = (table (store st)
              ++ [ip_registry.mkRow (sqlite_sequence (store st) + 1) (Py.strip ip)
                    (register_alias alias) None None None None None None None None
                    (utc_isoformat w (ticks st))])%list)
    /\ (register_alias None = None
        /\ register_alias (Some "") = None
        /\ forall a, a <> "" -> register_alias (Some a) = Some (Py.strip a)).
Proof.
  intros w ip alias st. rewrite register_ip_unfold.
  split; [|split; [|split]].
  - intros ->. reflexivity.
  - intros -> Hsel. simpl. unfold insert_row.
    apply select_by_ip_existsb in Hsel. rewrite Hsel. now split.
  - intros -> Hsel. simpl. unfold insert_row.
    destruct (existsb _ (table (store st))) eqn:E.
    + apply select_by_ip_existsb in E. contradiction.
    + now split.
  - exact register_alias_spec.
Qed.

Lemma register_ip_outcomes_witness :
  register_ip world_reachable "not-an-ip" (Some "x") initial_state
  = (Ok (false, MSG_INVALID_IP), initial_state)
  /\ fst (register_ip world_reachable " 10.0.0.1 " None state_one)
     = Ok (false, MSG_DUPLICATE)
  /\ map ip_registry.ip_address
       (table (store (snd (register_ip world_reachable "10.0.0.2" None state_one))))
     = ["10.0.0.1"; "10.0.0.2"].
Proof.
  split; [|split].
  - apply (proj1 (register_ip_outcomes world_reachable "not-an-ip" (Some "x")
                    initial_state)).
    reflexivity.
  - apply (proj1 (proj2 (register_ip_outcomes world_reachable " 10.0.0.1 " None
                           state_one))).
    + reflexivity.
    + vm_compute; discriminate.
  - rewrite (proj2 (proj1 (proj2 (proj2 (register_ip_outcomes world_reachable
                                           "10.0.0.2" None state_one)))
                      eq_refl eq_refl)).
    reflexivity.
Defined.

(** ** Details and lookup *)

Lemma get_ip_row_unfold ip st :
  get_ip_row ip st = (Ok (option_map selected_columns (select_by_ip ip (store st))), st).
Proof. reflexivity. Qed.

Lemma update_host_details_then_get_ip_row ip hn ht loc nt al st st' :
  update_host_details ip hn ht loc nt al st = (Ok (true, MSG_UPDATED), st') ->
  exists r,
    select_by_ip ip (store st) = Some r
    /\ store st'
       = update_details (strip_or_none al) (strip_or_none hn) (strip_or_none ht)
           (strip_or_none loc) (strip_or_none nt) ip (store st)
    /\ fst (get_ip_row ip st')
       = Ok (Some (selected_columns
                     (set_details (strip_or_none al) (strip_or_none hn)
                        (strip_or_none ht) (strip_or_none loc) (strip_or_none nt) r))).
Proof.
  intro H.
  destruct (Py.truthy ht && negb (existsb (String.eqb ht) HOST_TYPE_OPTIONS)) eqn:G.
  - rewrite (update_host_details_rejected _ _ _ _ _ _ _ G) in H. discriminate.
  - rewrite (update_host_details_accepted _ _ _ _ _ _ _ G) in H.
    destruct (select_by_ip ip (store st)) as [r|] eqn:Hsel; [|discriminate].
    injection H as <-. exists r. split; [reflexivity|]. split; [reflexivity|].
    rewrite get_ip_row_unfold. simpl store.
    now rewrite select_by_ip_update_details, Hsel.
Qed.

(** C7: a successful [update_host_details] overwrites, in the records of
    that address and in no other, exactly the five metadata fields, each
    trimmed and with the empty text stored as null; [ip_address] and every
    other column keep their value; and [get_ip_row] afterwards returns the
    record with exactly these five values. *)
Theorem update_host_details_overwrites_metadata :
  forall ip host_name host_type location notes alias st st',
    update_host_details ip host_name host_type location notes alias st
    = (Ok (true, MSG_UPDATED), st') ->
    let new_details :=
      set_details (strip_or_none alias) (strip_or_none host_name)
        (strip_or_none host_type) (strip_or_none location) (strip_or_none notes) in
    table (store st')
    = map (fun r => if String.eqb (ip_registry.ip_address r) ip
                    then new_details r else r) (table (store st))
    /\ (forall r,
          ip_registry.id (new_details r) = ip_registry.id r
          /\ ip_registry.ip_address (new_details r) = ip_registry.ip_address r
          /\ ip_registry.hostname (new_details r) = ip_registry.hostname r
          /\ ip_registry.last_ping_at (new_details r) = ip_registry.last_ping_at r
          /\ ip_registry.last_status (new_details r) = ip_registry.last_status r
          /\ ip_registry.last_output (new_details r) = ip_registry.last_output r
          /\ ip_registry.created_at (new_details r) = ip_registry.created_at r)
    /\ (exists r d,
          select_by_ip ip (store st) = Some r
          /\ fst (get_ip_row ip st') = Ok (Some d)
          /\ d = selected_columns (new_details r)
          /\ dict_get "ip_address" d = Some (Some ip)
          /\ dict_get "alias" d = Some (strip_or_none alias)
          /\ dict_get "host_name" d = Some (strip_or_none host_name)
          /\ dict_get "host_type" d = Some (strip_or_none host_type)
          /\ dict_get "location" d = Some (strip_or_none location)
          /\ dict_get "notes" d = Some (strip_or_none notes))
    /\ (forall ip', ip' <> ip -> fst (get_ip_row ip' st') = fst (get_ip_row ip' st))
    /\ (forall x,
          (Py.strip x = "" -> strip_or_none x = None)
          /\ (Py.strip x <> "" -> strip_or_none x = Some (Py.strip x))).
Proof.
  intros ip hn ht loc nt al st st' H new_details.
  destruct (update_host_details_then_get_ip_row _ _ _ _ _ _ _ _ H)
    as (r & Hsel & Hstore & Hget).
  split; [now rewrite Hstore|]. split; [intro r0; repeat split|].
  split; [|split].
  - exists r, (selected_columns (new_details r)).
    split; [exact Hsel|]. split; [exact Hget|]. split; [reflexivity|].
    apply select_by_ip_ip in Hsel. subst ip.
    repeat split.
  - intros ip' Hne. rewrite !get_ip_row_unfold. simpl. rewrite Hstore.
    now rewrite select_by_ip_update_details_other.
  - exact strip_or_none_spec.
Qed.

Lemma update_host_details_overwrites_metadata_witness :
  exists d,
    fst (get_ip_row "10.0.0.1"
           (snd (update_host_details "10.0.0.1" " PABLO RIVEROS " "NOTEBOOK" "INF"
                   "  " "PABLO" state_one))) = Ok (Some d)
    /\ dict_get "host_name" d = Some (Some "PABLO RIVEROS")
    /\ dict_get "notes" d = Some None.
Proof.
  destruct (update_host_details_overwrites_metadata
              "10.0.0.1" " PABLO RIVEROS " "NOTEBOOK" "INF" "  " "PABLO" state_one
              (snd (update_host_details "10.0.0.1" " PABLO RIVEROS " "NOTEBOOK" "INF"
                      "  " "PABLO" state_one)) eq_refl)
    as (_ & _ & (r & d & _ & Hget & _ & _ & _ & Hn & _ & _ & Hnotes) & _).
  exists d. split; [exact Hget|]. split; [exact Hn | exact Hnotes].
Defined.

(** C10: for a non-empty alias made of white space only, [register_ip]
    stores the empty text, while [update_host_details] stores null, and
    [get_ip_row] shows the difference. *)
Theorem whitespace_alias_register_vs_update :
  forall w alias,
    alias <> "" ->
    Py.strip alias = "" ->
    (register_alias (Some alias) = Some "" /\ strip_or_none alias = None)
    /\ (forall ip st,
          is_valid_ip ip = true ->
          select_by_ip (Py.strip ip) (store st) = None ->
          exists d,
            fst (get_ip_row (Py.strip ip) (snd (register_ip w ip (Some alias) st)))
            = Ok (Some d)
            /\ dict_get "alias" d = Some (Some ""))
    /\ (forall ip host_name host_type location notes st,
          fst (update_host_details ip host_name host_type location notes alias st)
          = Ok (true, MSG_UPDATED) ->
          exists d,
            fst (get_ip_row ip
                   (snd (update_host_details ip host_name host_type location notes
                           alias st)))
            = Ok (Some d)
            /\ dict_get "alias" d = Some None).
Proof.
  intros w alias Hne Hstrip.
  assert (Hreg : register_alias (Some alias) = Some "").
  { rewrite (proj2 (proj2 register_alias_spec) alias Hne). now rewrite Hstrip. }
  assert (Hupd : strip_or_none alias = None)
    by (now apply strip_or_none_spec).
  split; [now split|]. split.
  - intros ip st Hvalid Hsel.
    rewrite register_ip_unfold, Hvalid. simpl negb. cbv iota.
    unfold insert_row. rewrite Hreg.
    destruct (existsb _ (table (store st))) eqn:E.
    { apply select_by_ip_existsb in E. contradiction. }
    rewrite get_ip_row_unfold. simpl snd. simpl store.
    erewrite select_by_ip_app_new; [| exact Hsel | reflexivity].
    eexists. split; reflexivity.
  - intros ip hn ht loc nt st H.
    destruct (update_host_details ip hn ht loc nt alias st) as [res st'] eqn:E.
    simpl in H. subst res.
    destruct (update_host_details_then_get_ip_row _ _ _ _ _ _ _ _ E)
      as (r & _ & _ & Hget).
    eexists. split; [exact Hget|]. simpl. now rewrite Hupd.
Qed.

Lemma whitespace_alias_register_vs_update_witness :
  register_alias (Some "   ") = Some "" /\ strip_or_none "   " = None.
Proof.
  apply (proj1 (whitespace_alias_register_vs_update world_reachable "   "
                  ltac:(discriminate) eq_refl)).
Defined.

(** ** One probe cycle *)

Lemma resolve_hostname_by_ticks w ip st :
  resolve_hostname w ip st = (lookup_outcome w (ticks st) ip, st).
Proof.
  unfold lookup_outcome, resolve_hostname, bind, get_ticks. simpl.
  destruct (gethostbyaddr w (ticks st) ip) as [hostname | e]; [reflexivity|].
  now destruct (is_OSError e).
Qed.

Lemma ping_rows_cons w row_id ip rest st :
  ping_rows w ((row_id, ip) :: rest) st
  = match lookup_outcome w (ticks st) ip with
    | Ok hostname =>
        match run_ping w ip st with
        | (Ok so, _) =>
            ping_rows w rest
              {| store := update_probe hostname (utc_isoformat w (ticks st))
                            (fst so) (snd so) row_id (store st);
                 ticks := S (ticks st) |}
        | (Raise e, st') => (Raise e, st')
        end
    | Raise e => (Raise e, st)
    end.
Proof.
  cbn [ping_rows]. unfold bind at 1. rewrite resolve_hostname_by_ticks.
  destruct (lookup_outcome w (ticks st) ip) as [hostname | e]; [|reflexivity].
  unfold bind at 1.
  destruct (run_ping w ip st) as [[[status output]|e] st1] eqn:E; [|reflexivity].
  apply run_ping_ok_inv in E. destruct E as [-> _].
  reflexivity.
Qed.

Lemma lookup_outcome_ok w t ip :
  resolver_raises_only_OSError w -> exists hostname, lookup_outcome w t ip = Ok hostname.
Proof.
  intro H. unfold lookup_outcome, resolve_hostname, bind, get_ticks. simpl.
  destruct (gethostbyaddr w t ip) as [hostname | e] eqn:E; [now eexists|].
  rewrite (H t ip e E). now eexists.
Qed.

Lemma set_probe_set_probe h1 t1 s1 o1 h2 t2 s2 o2 r :
  set_probe h2 t2 s2 o2 (set_probe h1 t1 s1 o1 r) = set_probe h2 t2 s2 o2 r.
Proof. reflexivity. Qed.

Lemma probed_after_probe w h t s o r r' :
  probed w (set_probe h t s o r) r' -> probed w r r'.
Proof.
  intros (t' & h' & s' & o' & Hs & ->).
  exists t', h', s', o'. split; [assumption | apply set_probe_set_probe].
Qed.

Lemma ping_rows_probed w rows :
  forall st st',
    ping_rows w rows st = (Ok tt, st') ->
    exists F : ip_registry.Row -> ip_registry.Row,
      table (store st') = map F (table (store st))
      /\ forall r,
           (F r = r \/ probed w r (F r))
           /\ (In (ip_registry.id r) (map fst rows) -> probed w r (F r)).
Proof.
  induction rows as [|[row_id ip] rest IH]; intros st st' H.
  - injection H as <-. exists (fun r => r). split.
    + now rewrite map_id.
    + intro r. split; [now left | intros []].
  - rewrite ping_rows_cons in H.
    destruct (lookup_outcome w (ticks st) ip) as [hostname | e0]; [|discriminate].
    destruct (run_ping w ip st) as [[[status output]|e] st1] eqn:E; [|discriminate].
    apply run_ping_ok_inv in E. destruct E as [_ Hstatus].
    apply IH in H. destruct H as (F & Htable & HF).
    simpl in Htable. rewrite map_map in Htable.
    eexists. split; [exact Htable|].
    intro r. cbv beta. simpl fst. simpl snd.
    destruct (ip_registry.id r =? row_id) eqn:Hid.
    + assert (Hp : probed w r
                     (F (set_probe hostname
                           (utc_isoformat w (ticks st)) status output r))).
      { destruct (HF (set_probe hostname
                        (utc_isoformat w (ticks st)) status output r))
          as [[Heq | Hp] _].
        - rewrite Heq. now exists (ticks st), hostname, status, output.
        - now apply probed_after_probe in Hp. }
      split; [now right | intros _; exact Hp].
    + destruct (HF r) as [H1 H2]. split; [exact H1|].
      simpl. intros [Heq | Hin]; [|now apply H2].
      apply N.eqb_neq in Hid. congruence.
Qed.

Lemma ping_rows_completes w :
  resolver_raises_only_OSError w ->
  every_ping_completes w ->
  forall rows st, exists st', ping_rows w rows st = (Ok tt, st').
Proof.
  intros Hlookup Hrun rows. induction rows as [|[row_id ip] rest IH]; intro st.
  - now exists st.
  - rewrite ping_rows_cons.
    destruct (lookup_outcome_ok w (ticks st) ip Hlookup) as [hostname ->].
    destruct (Hrun (ticks st) (ping_cmd w ip)) as (rc & out & err & E).
    destruct (run_ping_completed _ _ _ _ _ _ E) as (status & output & -> & _).
    apply IH.
Qed.

Lemma insert_asc_perm r rows : Permutation (insert_asc r rows) (r :: rows).
Proof.
  induction rows as [|r' rows IH]; simpl; [reflexivity|].
  destruct (String.leb _ _); [reflexivity|].
  rewrite IH. apply perm_swap.
Qed.

Lemma index_on_ip_address_perm rows :
  Permutation (index_on_ip_address rows) rows.
Proof.
  induction rows as [|r rows IH]; simpl; [reflexivity|].
  rewrite insert_asc_perm. now constructor.
Qed.

Lemma ping_all_unfold w st :
  ping_all_registered_ips w st
  = ping_rows w
      (map (fun r => (ip_registry.id r, ip_registry.ip_address r))
         (index_on_ip_address (table (store st))))
      st.
Proof. reflexivity. Qed.

(** C9: after a probe cycle that ran to its end, every record that was
    registered at the start has [last_status] OK or ERROR and a non-null
    [last_ping_at]; its hostname, [last_ping_at], [last_status] and
    [last_output] are those of one write ([probed]), its other columns are
    untouched.  The cycle does run to its end whenever every ping
    subprocess completes and the resolver raises nothing but [OSError]. *)
Theorem ping_cycle_records_every_address :
  forall w st,
    (forall st',
        ping_all_registered_ips w st = (Ok tt, st') ->
        List.length (table (store st')) = List.length (table (store st))
        /\ forall i r,
             nth_error (table (store st)) i = Some r ->
             exists r',
               nth_error (table (store st')) i = Some r'
               /\ probed w r r'
               /\ (ip_registry.last_status r' = Some "OK"
                   \/ ip_registry.last_status r' = Some "ERROR")
               /\ ip_registry.last_ping_at r' <> None
               /\ ip_registry.id r' = ip_registry.id r
               /\ ip_registry.ip_address r' = ip_registry.ip_address r)
    /\ (resolver_raises_only_OSError w ->
        every_ping_completes w ->
        exists st', ping_all_registered_ips w st = (Ok tt, st')).
Proof.
  intros w st. split.
  - intros st' H. rewrite ping_all_unfold in H.
    apply ping_rows_probed in H. destruct H as (F & Htable & HF).
    rewrite Htable. split; [apply length_map|].
    intros i r Hnth. exists (F r). split.
    + now rewrite nth_error_map, Hnth.
    + assert (Hp : probed w r (F r)).
      { apply HF. rewrite map_map. simpl.
        apply in_map.
        apply (Permutation_in _ (Permutation_sym (index_on_ip_address_perm _))).
        eapply nth_error_In; eassumption. }
      split; [exact Hp|].
      destruct Hp as (t & h & s & o & Hs & ->). simpl.
      split; [destruct Hs as [-> | ->]; auto|].
      split; [discriminate|]. now split.
  - intros Hlookup Hrun. rewrite ping_all_unfold.
    now apply ping_rows_completes.
Qed.

Lemma ping_cycle_records_every_address_witness :
  exists r',
    nth_error (table (store (snd (ping_all_registered_ips world_reachable state_two)))) 1
    = Some r'
    /\ ip_registry.last_status r' = Some "OK"
    /\ ip_registry.last_ping_at r' = Some "2024-05-01T10:00:03+00:00".
Proof.
  destruct (proj1 (ping_cycle_records_every_address world_reachable state_two)
              (snd (ping_all_registered_ips world_reachable state_two)) eq_refl)
    as [_ H].
  destruct (H 1%nat _ eq_refl) as (r' & Hnth & _ & _ & _ & _ & _).
  exists r'. split; [exact Hnth|].
  vm_compute in Hnth. injection Hnth as <-. split; reflexivity.
Defined.

(** ** Splitting and searching texts *)

Lemma contains_app c a b :
  Py.contains c (a ++ b) = Py.contains c a || Py.contains c b.
Proof.
  induction a as [|d a IH]; simpl; [reflexivity|].
  now rewrite IH, orb_assoc.
Qed.

Lemma split_not_nil sep s : Py.split sep s <> [].
Proof.
  destruct s as [|c s]; simpl; [discriminate|].
  destruct (Ascii.eqb c sep); [discriminate|].
  destruct (Py.split sep s); discriminate.
Qed.

Lemma split_no_sep sep s : Py.contains sep s = false -> Py.split sep s = [s].
Proof.
  induction s as [|c s IH]; simpl; [reflexivity|].
  intro H. apply orb_false_iff in H. destruct H as [Hc Hs].
  rewrite Hc, (IH Hs). reflexivity.
Qed.

Lemma split_app_sep sep a b :
  Py.contains sep a = false ->
  Py.split sep (a ++ String sep b) = a :: Py.split sep b.
Proof.
  induction a as [|c a IH]; simpl.
  - intros _. now rewrite Ascii.eqb_refl.
  - intro H. apply orb_false_iff in H. destruct H as [Hc Ha].
    rewrite Hc, (IH Ha). reflexivity.
Qed.

Lemma split_part_contains sep c s :
  forall p, In p (Py.split sep s) -> Py.contains c p = true -> Py.contains c s = true.
Proof.
  induction s as [|d s IH]; simpl; intros p Hin Hp.
  - destruct Hin as [<- | []]. exact Hp.
  - destruct (Ascii.eqb d sep) eqn:Hd.
    + destruct Hin as [<- | Hin]; [discriminate|].
      rewrite (IH p Hin Hp). apply orb_true_r.
    + destruct (Py.split sep s) as [|q qs] eqn:E.
      * destruct Hin as [<- | []]. simpl in Hp.
        rewrite orb_false_r in Hp. now rewrite Hp.
      * destruct Hin as [<- | Hin].
        -- simpl in Hp. apply orb_true_iff in Hp. destruct Hp as [Hp | Hp].
           ++ now rewrite Hp.
           ++ rewrite (IH q (or_introl eq_refl) Hp). apply orb_true_r.
        -- rewrite (IH p (or_intror Hin) Hp). apply orb_true_r.
Qed.

Lemma split_two_contains sep s :
  (2 <= List.length (Py.split sep s))%nat -> Py.contains sep s = true.
Proof.
  intro H. destruct (Py.contains sep s) eqn:E; [reflexivity|].
  rewrite (split_no_sep _ _ E) in H. simpl in H. lia.
Qed.

Lemma append_assoc (a b c : string) : (a ++ b) ++ c = a ++ (b ++ c).
Proof. induction a as [|x a IH]; simpl; [reflexivity | now rewrite IH]. Qed.

Lemma endswith_app suffix p s :
  Py.endswith suffix s = true -> Py.endswith suffix (p ++ s) = true.
Proof.
  intro H. induction p as [|c p IH]; simpl; [exact H|].
  rewrite IH. apply orb_true_r.
Qed.

Lemma endswith_refl s : Py.endswith s s = true.
Proof.
  destruct s; [reflexivity|].
  cbn [Py.endswith]. now rewrite String.eqb_refl.
Qed.

(** ** Decimal texts *)

Lemma isdecimal_not_space c : Py.isdecimal_char c = true -> Py.int_space c = false.
Proof.
  unfold Py.isdecimal_char, Py.int_space. cbv zeta.
  rewrite andb_true_iff, !N.leb_le. intros [H1 H2].
  repeat rewrite orb_false_iff. rewrite andb_false_iff, !N.leb_gt, !N.eqb_neq.
  repeat split; try lia.
Qed.

Lemma isdecimal_not_sign c :
  Py.isdecimal_char c = true ->
  Ascii.eqb c "-" = false /\ Ascii.eqb c "+" = false /\ Ascii.eqb c "_" = false
  /\ Ascii.eqb c "." = false /\ Ascii.eqb c "/" = false
  /\ Py.isspace_char c = false.
Proof.
  destruct c as [[] [] [] [] [] [] [] []]; vm_compute; intro H;
    try discriminate H; repeat split.
Qed.

Lemma ascii_digit_is_decimal c :
  (N_of_ascii c <? 128) = true -> Py.isdigit_char c = true ->
  Py.isdecimal_char c = true.
Proof.
  unfold Py.isdigit_char, Py.isdecimal_char. cbv zeta.
  rewrite N.ltb_lt. intro Hlt.
  rewrite !orb_true_iff, !N.eqb_eq. intros [[[H | H] | H] | H]; try lia.
  exact H.
Qed.

Lemma ascii_digits_are_decimal s :
  Py.isascii s = true -> Py.forallb_str Py.isdigit_char s = true ->
  Py.forallb_str Py.isdecimal_char s = true.
Proof.
  unfold Py.isascii. induction s as [|c s IH]; simpl; [reflexivity|].
  rewrite !andb_true_iff. intros [Ha Hs] [Hd Hds].
  split; [now apply ascii_digit_is_decimal | now apply IH].
Qed.

Lemma decimal_is_digit s :
  Py.forallb_str Py.isdecimal_char s = true ->
  Py.forallb_str Py.isdigit_char s = true /\ Py.isascii s = true.
Proof.
  unfold Py.isascii. induction s as [|c s IH]; simpl; [now split|].
  rewrite !andb_true_iff. intros [Hc Hs]. destruct (IH Hs) as [H1 H2].
  unfold Py.isdigit_char, Py.isdecimal_char in *. cbv zeta in *.
  apply andb_true_iff in Hc. destruct Hc as [Hc1 Hc2].
  rewrite Hc1, Hc2. simpl. repeat split; try assumption.
  apply N.leb_le in Hc2. apply N.ltb_lt. lia.
Qed.

Lemma decimal_contains_none s :
  Py.forallb_str Py.isdecimal_char s = true ->
  Py.contains "." s = false /\ Py.contains "/" s = false.
Proof.
  induction s as [|c s IH]; simpl; [now split|].
  rewrite andb_true_iff. intros [Hc Hs]. destruct (IH Hs) as [H1 H2].
  destruct (isdecimal_not_sign c Hc) as (_ & _ & _ & Hdot & Hslash & _).
  now rewrite Hdot, Hslash, H1, H2.
Qed.

Lemma int_digits_decimal s :
  Py.forallb_str Py.isdecimal_char s = true ->
  Py.int_digits true s = Some (s, "").
Proof.
  induction s as [|c s IH]; simpl; [reflexivity|].
  rewrite andb_true_iff. intros [Hc Hs]. now rewrite Hc, (IH Hs).
Qed.

Lemma int_decimal s v :
  s <> "" ->
  Py.forallb_str Py.isdecimal_char s = true ->
  Py.digits_value s = Some v ->
  N.of_nat (String.length s) <= Py.INT_MAX_STR_DIGITS ->
  Py.int s = Ok (Z.of_N v).
Proof.
  intros Hne Hdec Hv Hlen. apply N.ltb_ge in Hlen.
  destruct s as [|c s]; [congruence|].
  pose proof Hdec as Hdec'. cbn [Py.forallb_str] in Hdec'.
  apply andb_true_iff in Hdec'. destruct Hdec' as [Hc Hs].
  unfold Py.int. cbn [Py.skip_int_space].
  rewrite (isdecimal_not_space c Hc).
  destruct (isdecimal_not_sign c Hc) as (Hm & Hp & _).
  rewrite Hm, Hp. cbn [Py.int_digits]. rewrite Hc, (int_digits_decimal s Hs).
  cbn [option_map]. rewrite Hlen, Hv. reflexivity.
Qed.

Lemma string_of_uint_decimal d :
  Py.forallb_str Py.isdecimal_char (NilEmpty.string_of_uint d) = true.
Proof. induction d; simpl; try rewrite IHd; reflexivity. Qed.

Lemma N_to_uint_nonnil n : N.to_uint n <> Nil.
Proof.
  destruct n; simpl; [discriminate | apply DecimalPos.Unsigned.to_uint_nonnil].
Qed.

Lemma str_N_facts n :
  Py.str_N n <> ""
  /\ Py.forallb_str Py.isdecimal_char (Py.str_N n) = true
  /\ Py.digits_value (Py.str_N n) = Some n.
Proof.
  unfold Py.str_N, Py.digits_value.
  pose proof (N_to_uint_nonnil n) as Hnil.
  split; [|split].
  - destruct (N.to_uint n); simpl; congruence.
  - destruct (N.to_uint n) eqn:E; [congruence | ..];
      apply string_of_uint_decimal.
  - rewrite (NilZero.usu _ Hnil). simpl.
    now rewrite DecimalN.Unsigned.of_to.
Qed.

Lemma str_Z_of_N n : Py.str_Z (Z.of_N n) = Py.str_N n.
Proof. destruct n; reflexivity. Qed.

Lemma str_N_short n :
  n <= 255 -> N.of_nat (String.length (Py.str_N n)) <= Py.INT_MAX_STR_DIGITS.
Proof.
  intro Hn.
  assert (H : forallb
                (fun k => N.of_nat (String.length (Py.str_N (N.of_nat k))) <=? 3)
                (seq 0 256) = true) by (vm_compute; reflexivity).
  rewrite forallb_forall in H.
  specialize (H (N.to_nat n)). rewrite N2Nat.id in H.
  assert (Hin : In (N.to_nat n) (seq 0 256)) by (apply in_seq; lia).
  apply H, N.leb_le in Hin. unfold Py.INT_MAX_STR_DIGITS. lia.
Qed.

Lemma int_str_N n :
  N.of_nat (String.length (Py.str_N n)) <= Py.INT_MAX_STR_DIGITS ->
  Py.int (Py.str_N n) = Ok (Z.of_N n).
Proof.
  intro Hn. destruct (str_N_facts n) as (H1 & H2 & H3).
  now apply int_decimal.
Qed.

(** ** Version 4 addresses *)

Lemma div_mod_base b q r : r < b -> (q * b + r) / b = q /\ (q * b + r) mod b = r.
Proof.
  intro H. split.
  - symmetry. apply (N.div_unique _ _ q r); lia.
  - symmetry. apply (N.mod_unique _ _ q r); lia.
Qed.

Lemma land_255 a : N.land a 255 = a mod 256.
Proof. change 255 with (N.ones 8). now rewrite N.land_ones. Qed.

Lemma land_mask24 a : N.land a 4294967040 = (a / 256) mod 16777216 * 256.
Proof.
  change 4294967040 with (N.shiftl (N.ones 24) 8).
  change 256 with (2 ^ 8). change 16777216 with (2 ^ 24).
  rewrite <- N.shiftr_div_pow2, <- N.land_ones, <- N.shiftl_mul_pow2.
  apply N.bits_inj. intro i.
  rewrite N.land_spec.
  destruct (N.lt_ge_cases i 8) as [Hlt | Hge].
  - rewrite !N.shiftl_spec_low by assumption. apply andb_false_r.
  - rewrite !N.shiftl_spec_high' by assumption.
    rewrite N.land_spec, N.shiftr_spec'.
    replace (i - 8 + 8) with i by lia. reflexivity.
Qed.

(** The bytes of a packed address and of its /24 network. *)
Lemma packed_octets v0 v1 v2 v3 :
  v0 <= 255 -> v1 <= 255 -> v2 <= 255 -> v3 <= 255 ->
  let a := ((v0 * 256 + v1) * 256 + v2) * 256 + v3 in
  let x := N.land a 4294967040 in
  N.land (N.shiftr x 24) 255 = v0
  /\ N.land (N.shiftr x 16) 255 = v1
  /\ N.land (N.shiftr x 8) 255 = v2
  /\ N.land x 255 = 0
  /\ N.land (N.shiftr a 8) 255 = v2.
Proof.
  intros H0 H1 H2 H3 a x.
  assert (Ha : a / 256 = (v0 * 256 + v1) * 256 + v2) by (apply div_mod_base; lia).
  assert (Hx : x = ((v0 * 256 + v1) * 256 + v2) * 256).
  { subst x. rewrite land_mask24, Ha. f_equal. apply N.mod_small. lia. }
  rewrite !land_255, !N.shiftr_div_pow2.
  change (2 ^ 24) with 16777216. change (2 ^ 16) with 65536. change (2 ^ 8) with 256.
  rewrite Ha, Hx.
  repeat split.
  - replace (((v0 * 256 + v1) * 256 + v2) * 256)
      with (v0 * 16777216 + (v1 * 65536 + v2 * 256)) by lia.
    destruct (div_mod_base 16777216 v0 (v1 * 65536 + v2 * 256)) as [-> _]; [lia|].
    apply N.mod_small; lia.
  - replace (((v0 * 256 + v1) * 256 + v2) * 256)
      with ((v0 * 256 + v1) * 65536 + v2 * 256) by lia.
    destruct (div_mod_base 65536 (v0 * 256 + v1) (v2 * 256)) as [-> _]; [lia|].
    apply div_mod_base; lia.
  - replace (((v0 * 256 + v1) * 256 + v2) * 256)
      with (((v0 * 256 + v1) * 256 + v2) * 256 + 0) by lia.
    destruct (div_mod_base 256 ((v0 * 256 + v1) * 256 + v2) 0) as [-> _]; [lia|].
    apply div_mod_base; lia.
  - replace (((v0 * 256 + v1) * 256 + v2) * 256)
      with (((v0 * 256 + v1) * 256 + v2) * 256 + 0) by lia.
    apply div_mod_base; lia.
  - apply div_mod_base; lia.
Qed.

Lemma parse_octet_short o v :
  ipaddress.parse_octet o = Some v ->
  N.of_nat (String.length o) <= Py.INT_MAX_STR_DIGITS.
Proof.
  unfold ipaddress.parse_octet.
  destruct (negb (Py.truthy o)); [discriminate|].
  destruct (negb (Py.isascii o && Py.isdigit o)); [discriminate|].
  destruct (3 <? String.length o)%nat eqn:E; [discriminate|].
  intros _. apply Nat.ltb_ge in E. unfold Py.INT_MAX_STR_DIGITS. lia.
Qed.

Lemma parse_octet_facts o v :
  ipaddress.parse_octet o = Some v ->
  o <> ""
  /\ Py.forallb_str Py.isdecimal_char o = true
  /\ Py.digits_value o = Some v
  /\ v <= 255.
Proof.
  unfold ipaddress.parse_octet.
  destruct (Py.truthy o) eqn:Ht; simpl; [|discriminate].
  destruct (Py.isascii o) eqn:Ha; simpl; [|discriminate].
  destruct (Py.isdigit o) eqn:Hd; simpl; [|discriminate].
  destruct (3 <? String.length o)%nat; [discriminate|].
  destruct (negb (String.eqb o "0") && Py.startswith "0" o); [discriminate|].
  destruct (Py.digits_value o) as [n|] eqn:Hv; [|discriminate].
  destruct (255 <? n) eqn:Hn; [discriminate|].
  intros [= <-].
  apply truthy_true_iff in Ht. apply N.ltb_ge in Hn.
  unfold Py.isdigit in Hd. apply andb_true_iff in Hd. destruct Hd as [_ Hd].
  repeat split; try assumption.
  now apply ascii_digits_are_decimal.
Qed.

Lemma IPv4Address_inv s a :
  ipaddress.IPv4Address s = Some a ->
  Py.contains "/" s = false
  /\ exists o0 o1 o2 o3 v0 v1 v2 v3,
       Py.split "." s = [o0; o1; o2; o3]
       /\ ipaddress.parse_octet o0 = Some v0
       /\ ipaddress.parse_octet o1 = Some v1
       /\ ipaddress.parse_octet o2 = Some v2
       /\ ipaddress.parse_octet o3 = Some v3
       /\ a = ((v0 * 256 + v1) * 256 + v2) * 256 + v3.
Proof.
  unfold ipaddress.IPv4Address, ipaddress.v4_ip_int_from_string.
  destruct (Py.contains "/" s); [discriminate|].
  destruct (negb (Py.truthy s)); [discriminate|].
  destruct (Py.split "." s) as [|o0 [|o1 [|o2 [|o3 [|o4 rest]]]]];
    try (simpl; discriminate).
  simpl.
  destruct (ipaddress.parse_octet o0) as [v0|] eqn:P0; [|discriminate].
  destruct (ipaddress.parse_octet o1) as [v1|] eqn:P1; [|discriminate].
  destruct (ipaddress.parse_octet o2) as [v2|] eqn:P2; [|discriminate].
  destruct (ipaddress.parse_octet o3) as [v3|] eqn:P3; [|discriminate].
  simpl. intros [= <-]. split; [reflexivity|].
  exists o0, o1, o2, o3, v0, v1, v2, v3.
  unfold ipaddress.from_bytes_big. simpl. repeat split; assumption.
Qed.

Lemma IPv4Address_contains_dot s a :
  ipaddress.IPv4Address s = Some a -> Py.contains "." s = true.
Proof.
  intro H. apply IPv4Address_inv in H.
  destruct H as (_ & o0 & o1 & o2 & o3 & _ & _ & _ & _ & Hsplit & _).
  apply split_two_contains. rewrite Hsplit. simpl. lia.
Qed.

Lemma IPv4Network_slash24 s a :
  ipaddress.IPv4Address s = Some a ->
  ipaddress.IPv4Network (s ++ "/24") = Some (N.land a 4294967040, 24).
Proof.
  intro H. pose proof (IPv4Address_inv _ _ H) as [Hslash _].
  unfold ipaddress.IPv4Network, ipaddress.split_addr_prefix.
  change (s ++ "/24") with (s ++ String "/" "24").
  rewrite (split_app_sep "/" s "24" Hslash).
  change (Py.split "/" "24") with ["24"].
  cbv beta iota. rewrite H.
  change (ipaddress.v4_make_netmask "24") with (Some (4294967040, 24)).
  reflexivity.
Qed.

Lemma infer_segment_24_v4 s a :
  ipaddress.IPv4Address s = Some a ->
  infer_segment_24 s
  = Ok (ipaddress.network_string (ipaddress.Net4 (N.land a 4294967040) 24)).
Proof.
  intro H. unfold infer_segment_24, ipaddress.ip_address. rewrite H.
  simpl. unfold ipaddress.ip_network.
  now rewrite (IPv4Network_slash24 _ _ H).
Qed.

Lemma infer_segment_24_v6 s x :
  ipaddress.IPv4Address s = None ->
  ipaddress.IPv6Address s = Some x ->
  infer_segment_24 s = Ok "IPv6".
Proof.
  intros H4 H6. unfold infer_segment_24, ipaddress.ip_address.
  rewrite H4, H6. now destruct x.
Qed.

Lemma infer_segment_24_octets s a v0 v1 v2 v3 :
  ipaddress.IPv4Address s = Some a ->
  v0 <= 255 -> v1 <= 255 -> v2 <= 255 -> v3 <= 255 ->
  a = ((v0 * 256 + v1) * 256 + v2) * 256 + v3 ->
  infer_segment_24 s
  = Ok (Py.str_N v0 ++ "." ++ Py.str_N v1 ++ "." ++ Py.str_N v2 ++ ".0/24").
Proof.
  intros H H0 H1 H2 H3 ->. rewrite (infer_segment_24_v4 _ _ H).
  destruct (packed_octets v0 v1 v2 v3 H0 H1 H2 H3) as (E0 & E1 & E2 & E3 & _).
  unfold ipaddress.network_string, ipaddress.v4_network_string,
    ipaddress.v4_string_from_ip_int.
  cbn [fst snd map]. rewrite E0, E1, E2, E3.
  cbn [String.concat]. f_equal.
  rewrite !append_assoc. reflexivity.
Qed.

(** C6: for every text that parses as a version 4 address,
    [infer_segment_24] returns the canonical text of the /24 network that
    contains it, that is the first three octets, a zero octet and "/24";
    for every text that parses only as a version 6 address it returns
    "IPv6". *)
Theorem infer_segment_24_spec :
  (forall s a,
      ipaddress.IPv4Address s = Some a ->
      infer_segment_24 s
      = Ok (ipaddress.network_string (ipaddress.Net4 (N.land a 4294967040) 24))
      /\ exists o0 o1 o2 o3 v0 v1 v2 v3,
           Py.split "." s = [o0; o1; o2; o3]
           /\ ipaddress.parse_octet o0 = Some v0
           /\ ipaddress.parse_octet o1 = Some v1
           /\ ipaddress.parse_octet o2 = Some v2
           /\ ipaddress.parse_octet o3 = Some v3
           /\ infer_segment_24 s
              = Ok (Py.str_N v0 ++ "." ++ Py.str_N v1 ++ "." ++ Py.str_N v2
                    ++ ".0/24"))
  /\ infer_segment_24 "192.168.56.10" = Ok "192.168.56.0/24"
  /\ (forall s x,
        ipaddress.IPv4Address s = None ->
        ipaddress.IPv6Address s = Some x ->
        infer_segment_24 s = Ok "IPv6").
Proof.
  split; [|split].
  - intros s a H. split; [now apply infer_segment_24_v4|].
    destruct (IPv4Address_inv _ _ H)
      as (_ & o0 & o1 & o2 & o3 & v0 & v1 & v2 & v3 & Hs & P0 & P1 & P2 & P3 & Ha).
    exists o0, o1, o2, o3, v0, v1, v2, v3.
    repeat (split; [assumption|]).
    apply (infer_segment_24_octets s a v0 v1 v2 v3 H);
      try assumption; eapply parse_octet_facts; eassumption.
  - reflexivity.
  - intros s x. apply infer_segment_24_v6.
Qed.

Lemma infer_segment_24_spec_witness :
  infer_segment_24 "10.0.1.55"
  = Ok (ipaddress.network_string (ipaddress.Net4 (N.land 167772471 4294967040) 24))
  /\ infer_segment_24 "fe80::1%eth0" = Ok "IPv6".
Proof.
  split.
  - apply (proj1 (proj1 infer_segment_24_spec "10.0.1.55" 167772471 eq_refl)).
  - apply (proj2 (proj2 infer_segment_24_spec) "fe80::1%eth0"
             (338288524927261089654018896841347694593, Some "eth0") eq_refl eq_refl).
Defined.

(** ** Filters *)

Lemma IPv4Network_contains_dot v x :
  ipaddress.IPv4Network v = Some x -> Py.contains "." v = true.
Proof.
  unfold ipaddress.IPv4Network, ipaddress.split_addr_prefix.
  destruct (Py.split "/" v) as [|addr [|mask [|extra rest]]] eqn:Hsplit;
    try discriminate;
    (destruct (ipaddress.IPv4Address addr) as [packed|] eqn:Ha; [|discriminate]);
    intros _;
    apply (split_part_contains "/" "." v addr);
    try (rewrite Hsplit; now left);
    eapply IPv4Address_contains_dot; eassumption.
Qed.

Lemma cidr_filter_v4_24 v a :
  ipaddress.IPv4Network v = Some (a, 24) ->
  cidr_filter v = Ok (Some (ipaddress.v4_string_from_ip_int a ++ "/24")).
Proof.
  intro H. unfold cidr_filter, ipaddress.ip_network. now rewrite H.
Qed.

Lemma cidr_filter_none v :
  (forall a, ipaddress.IPv4Network v <> Some (a, 24)) ->
  cidr_filter v = Ok None.
Proof.
  intro H. unfold cidr_filter, ipaddress.ip_network.
  destruct (ipaddress.IPv4Network v) as [[a p]|] eqn:E4.
  - simpl. destruct (p =? 24) eqn:Hp; [|reflexivity].
    apply N.eqb_eq in Hp. subst p. now destruct (H a).
  - destruct (ipaddress.IPv6Network v) as [[[a sc] p]|]; reflexivity.
Qed.

Lemma rstrip_app_fixed t u :
  u <> "" -> Py.rstrip u = u -> Py.rstrip (t ++ u) = t ++ u.
Proof.
  intros Hne Hu. induction t as [|x t IH]; [exact Hu|].
  simpl. rewrite IH. destruct (t ++ u) eqn:E; [|reflexivity].
  destruct t; simpl in E; congruence.
Qed.

Lemma strip_empty_of_empty raw : Py.truthy raw = false -> Py.strip raw = "".
Proof. intro H. apply truthy_false_iff in H. now subst. Qed.

Lemma normalize_segment_filter_some raw :
  normalize_segment_filter (Some raw)
  = let value := Py.strip raw in
    if negb (Py.truthy value) then Ok None
    else if Py.endswith "/24" value && negb (Py.contains "." value) then
      let? octet := Py.getitem (Py.split "/" value) 0 in
      if Py.isdigit octet then
        let? n := Py.int octet in
        if ((0 <=? n) && (n <=? 255))%Z
        then Ok (Some ("THIRD_OCTET:" ++ Py.str_Z n))
        else cidr_filter value
      else cidr_filter value
    else cidr_filter value.
Proof.
  unfold normalize_segment_filter.
  destruct (Py.truthy raw) eqn:E; [reflexivity|].
  simpl. now rewrite (strip_empty_of_empty raw E).
Qed.

Lemma app_sep_not_empty d c tail : d ++ String c tail <> "".
Proof. destruct d; discriminate. Qed.

(** The first branch of [normalize_segment_filter] on a text
    [d ++ "/" ++ tail] whose first part [d] is a decimal number. *)
Lemma normalize_decimal_head raw d tail n :
  Py.strip raw = d ++ String "/" tail ->
  d <> "" ->
  Py.forallb_str Py.isdecimal_char d = true ->
  Py.digits_value d = Some n ->
  Py.contains "." tail = false ->
  Py.endswith "/24" (String "/" tail) = true ->
  N.of_nat (String.length d) <= Py.INT_MAX_STR_DIGITS ->
  normalize_segment_filter (Some raw)
  = if n <=? 255 then Ok (Some ("THIRD_OCTET:" ++ Py.str_N n)) else Ok None.
Proof.
  intros Hv Hne Hdec Hval Hdot Hend Hlen.
  rewrite normalize_segment_filter_some. cbv zeta. rewrite Hv.
  assert (Ht : Py.truthy (d ++ String "/" tail) = true)
    by (apply truthy_true_iff, app_sep_not_empty).
  rewrite Ht. simpl negb. cbv iota.
  destruct (decimal_contains_none d Hdec) as [Hd_dot Hd_slash].
  assert (Hnodot : Py.contains "." (d ++ String "/" tail) = false).
  { rewrite contains_app, Hd_dot. simpl. exact Hdot. }
  rewrite (endswith_app "/24" d _ Hend), Hnodot. simpl andb. cbv iota.
  rewrite (split_app_sep "/" d tail Hd_slash). simpl Py.getitem. simpl rbind.
  assert (Hdig : Py.isdigit d = true).
  { unfold Py.isdigit. apply andb_true_iff. split.
    - now apply truthy_true_iff.
    - now apply decimal_is_digit. }
  rewrite Hdig, (int_decimal d n Hne Hdec Hval Hlen). simpl rbind.
  assert (H0 : (0 <=? Z.of_N n)%Z = true) by (apply Z.leb_le; lia).
  rewrite H0. simpl andb.
  destruct (n <=? 255) eqn:Hle.
  - apply N.leb_le in Hle.
    assert (H1 : (Z.of_N n <=? 255)%Z = true) by (apply Z.leb_le; lia).
    now rewrite H1, str_Z_of_N.
  - apply N.leb_gt in Hle.
    assert (H1 : (Z.of_N n <=? 255)%Z = false) by (apply Z.leb_gt; lia).
    rewrite H1. apply cidr_filter_none. intros a Ha.
    apply IPv4Network_contains_dot in Ha. congruence.
Qed.

(** X22 (what [normalize_segment_filter] returns): the token
    THIRD_OCTET:n for every input that, once trimmed, has no dot, ends in
    "/24" and whose text before its first "/" is a decimal number n in
    [0,255] of at most 4300 digits; the canonical text of the network for
    every input whose trimmed form parses as a version 4 network of
    prefix length 24; and null for empty and white-space-only input, for
    an input of the first kind whose number exceeds 255, and for every
    input that has a dot, does not end in "/24" or whose text before the
    first "/" does not pass [str.isdigit], unless it parses as such a
    network. *)
Theorem normalize_segment_filter_spec :
  (forall raw d tail n,
      Py.strip raw = d ++ String "/" tail ->
      d <> "" ->
      Py.forallb_str Py.isdecimal_char d = true ->
      Py.digits_value d = Some n ->
      Py.contains "." tail = false ->
      Py.endswith "/24" (String "/" tail) = true ->
      N.of_nat (String.length d) <= Py.INT_MAX_STR_DIGITS ->
      (n <= 255 ->
       normalize_segment_filter (Some raw) = Ok (Some ("THIRD_OCTET:" ++ Py.str_N n)))
      /\ (255 < n -> normalize_segment_filter (Some raw) = Ok None))
  /\ (forall n, n <= 255 ->
        normalize_segment_filter (Some (Py.str_N n ++ "/24"))
        = Ok (Some ("THIRD_OCTET:" ++ Py.str_N n)))
  /\ (forall raw a,
        ipaddress.IPv4Network (Py.strip raw) = Some (a, 24) ->
        normalize_segment_filter (Some raw)
        = Ok (Some (ipaddress.v4_string_from_ip_int a ++ "/24")))
  /\ (normalize_segment_filter None = Ok None
      /\ forall raw, Py.strip raw = "" -> normalize_segment_filter (Some raw) = Ok None)
  /\ (forall raw,
        Py.endswith "/24" (Py.strip raw) && negb (Py.contains "." (Py.strip raw))
        && Py.isdigit (List.hd "" (Py.split "/" (Py.strip raw))) = false ->
        (forall a, ipaddress.IPv4Network (Py.strip raw) <> Some (a, 24)) ->
        normalize_segment_filter (Some raw) = Ok None)
  /\ (normalize_segment_filter (Some "56/24") = Ok (Some "THIRD_OCTET:56")
      /\ normalize_segment_filter (Some "192.168.59.0/24") = Ok (Some "192.168.59.0/24")
      /\ normalize_segment_filter (Some "") = Ok None
      /\ normalize_segment_filter (Some "not-a-filter") = Ok None).
Proof.
  split; [|split; [|split; [|split; [|split]]]].
  - intros raw d tail n Hv Hne Hdec Hval Hdot Hend Hlen.
    rewrite (normalize_decimal_head raw d tail n Hv Hne Hdec Hval Hdot Hend Hlen).
    split; intro H.
    + apply N.leb_le in H. now rewrite H.
    + apply N.leb_gt in H. now rewrite H.
  - intros n Hn. destruct (str_N_facts n) as (Hne & Hdec & Hval).
    assert (Hstrip : Py.strip (Py.str_N n ++ "/24") = Py.str_N n ++ String "/" "24").
    { destruct (Py.str_N n) as [|c s] eqn:E; [congruence|].
      simpl in Hdec. apply andb_true_iff in Hdec. destruct Hdec as [Hc _].
      destruct (isdecimal_not_sign c Hc) as (_ & _ & _ & _ & _ & Hsp).
      unfold Py.strip. simpl Py.lstrip. rewrite Hsp.
      apply (rstrip_app_fixed (String c s) "/24"); [discriminate | reflexivity]. }
    rewrite (normalize_decimal_head _ _ "24" n Hstrip Hne Hdec Hval eq_refl eq_refl
               (str_N_short n Hn)).
    apply N.leb_le in Hn. now rewrite Hn.
  - intros raw a H. rewrite normalize_segment_filter_some. cbv zeta.
    pose proof (IPv4Network_contains_dot _ _ H) as Hdot.
    assert (Ht : Py.truthy (Py.strip raw) = true).
    { apply truthy_true_iff. intro E. rewrite E in Hdot. discriminate. }
    rewrite Ht, Hdot, andb_false_r. cbn [negb]. cbv iota.
    now apply cidr_filter_v4_24.
  - split; [reflexivity|].
    intros raw H. rewrite normalize_segment_filter_some. cbv zeta.
    now rewrite H.
  - intros raw Hguard Hnot. rewrite normalize_segment_filter_some. cbv zeta.
    destruct (Py.truthy (Py.strip raw)); [|reflexivity]. simpl negb. cbv iota.
    destruct (Py.endswith "/24" (Py.strip raw)
              && negb (Py.contains "." (Py.strip raw))) eqn:G.
    + cbn [andb] in Hguard.
      destruct (Py.split "/" (Py.strip raw)) as [|octet rest] eqn:Hs.
      * now destruct (split_not_nil "/" (Py.strip raw)).
      * cbn [List.hd] in Hguard. cbn [Py.getitem nth_error rbind].
        rewrite Hguard. now apply cidr_filter_none.
    + now apply cidr_filter_none.
  - repeat split; vm_compute; reflexivity.
Qed.

Lemma normalize_segment_filter_spec_witness :
  normalize_segment_filter (Some " 056/24 ") = Ok (Some ("THIRD_OCTET:" ++ Py.str_N 56))
  /\ normalize_segment_filter (Some "192.168.59.77/255.255.255.0")
     = Ok (Some (ipaddress.v4_string_from_ip_int 3232250624 ++ "/24"))
  /\ normalize_segment_filter (Some "10.0.0.0/8") = Ok None.
Proof.
  split; [|split].
  - apply (proj1 normalize_segment_filter_spec " 056/24 " "056" "24" 56);
      try reflexivity; [discriminate | vm_compute; discriminate | vm_compute; discriminate].
  - apply (proj1 (proj2 (proj2 normalize_segment_filter_spec))
             "192.168.59.77/255.255.255.0" 3232250624).
    reflexivity.
  - apply (proj1 (proj2 (proj2 (proj2 (proj2 normalize_segment_filter_spec))))
             "10.0.0.0/8").
    + reflexivity.
    + intros a H. vm_compute in H. discriminate.
Defined.

(** ** Order of the listing *)

Lemma string_leb_trans a b c :
  String.leb a b = true -> String.leb b c = true -> String.leb a c = true.
Proof.
  unfold String.leb. revert b c.
  induction a as [|x a IH]; intros [|y b] [|z c]; simpl; try congruence.
  unfold Ascii.compare.
  destruct (N.compare_spec (N_of_ascii x) (N_of_ascii y)) as [Exy | Lxy | Gxy];
    destruct (N.compare_spec (N_of_ascii y) (N_of_ascii z)) as [Eyz | Lyz | Gyz];
    destruct (N.compare_spec (N_of_ascii x) (N_of_ascii z)) as [Exz | Lxz | Gxz];
    try congruence; try lia.
  apply IH.
Qed.

Lemma string_leb_total a b : String.leb a b = false -> String.leb b a = true.
Proof.
  unfold String.leb. rewrite (String.compare_antisym b a).
  now destruct (String.compare a b).
Qed.

Lemma string_leb_antisym a b :
  String.leb a b = true -> String.leb b a = true -> a = b.
Proof.
  unfold String.leb. rewrite (String.compare_antisym b a).
  destruct (String.compare a b) eqn:E; try discriminate.
  intros _ _. now apply String.compare_eq_iff.
Qed.

Lemma insert_desc_perm r rows : Permutation (insert_desc r rows) (r :: rows).
Proof.
  induction rows as [|r' rows IH]; simpl; [reflexivity|].
  destruct (String.leb _ _); [reflexivity|].
  rewrite IH. apply perm_swap.
Qed.

Lemma order_by_created_at_desc_perm rows :
  Permutation (order_by_created_at_desc rows) rows.
Proof.
  induction rows as [|r rows IH]; simpl; [reflexivity|].
  rewrite insert_desc_perm. now constructor.
Qed.

Lemma insert_desc_sorted r rows :
  newest_first rows -> newest_first (insert_desc r rows).
Proof.
  unfold newest_first. induction rows as [|r' rows IH]; intro Hs; simpl.
  - constructor; constructor.
  - apply StronglySorted_inv in Hs. destruct Hs as [Hs Hall].
    destruct (String.leb (ip_registry.created_at r') (ip_registry.created_at r)) eqn:E.
    + constructor; [now constructor|].
      constructor; [exact E|].
      rewrite Forall_forall in *. intros x Hx.
      eapply string_leb_trans; [apply Hall, Hx | exact E].
    + constructor; [now apply IH|].
      apply string_leb_total in E.
      rewrite Forall_forall in *. intros x Hx.
      apply (Permutation_in _ (insert_desc_perm r rows)) in Hx.
      destruct Hx as [<- | Hx]; [exact E | now apply Hall].
Qed.

Lemma order_by_created_at_desc_sorted rows :
  newest_first (order_by_created_at_desc rows).
Proof.
  induction rows as [|r rows IH]; simpl.
  - constructor.
  - now apply insert_desc_sorted.
Qed.

Lemma string_leb_refl a : String.leb a a = true.
Proof.
  unfold String.leb. pose proof (String.compare_antisym a a) as H.
  destruct (String.compare a a); simpl in H; congruence.
Qed.

Lemma insert_desc_created_at c r rows :
  filter (created_at_is c) (insert_desc r rows)
  = filter (created_at_is c) (r :: rows).
Proof.
  induction rows as [|r' rows IH]; [reflexivity|].
  cbn [insert_desc].
  destruct (String.leb (ip_registry.created_at r') (ip_registry.created_at r)) eqn:E;
    [reflexivity|].
  cbn [filter] in *. rewrite IH.
  unfold created_at_is.
  destruct (String.eqb_spec (ip_registry.created_at r') c) as [E1|_];
    destruct (String.eqb_spec (ip_registry.created_at r) c) as [E2|_];
    try reflexivity.
  rewrite E1, E2, string_leb_refl in E. discriminate.
Qed.

Lemma order_by_created_at_desc_stable c rows :
  filter (created_at_is c) (order_by_created_at_desc rows)
  = filter (created_at_is c) rows.
Proof.
  induction rows as [|r rows IH]; [reflexivity|].
  unfold order_by_created_at_desc in *. cbn [fold_right].
  rewrite insert_desc_created_at. cbn [filter]. now rewrite IH.
Qed.

(** ** The listing *)

Lemma Z_of_N_eqb a b : (Z.of_N a =? Z.of_N b)%Z = (a =? b).
Proof.
  destruct (N.eqb_spec a b) as [-> | Hne].
  - apply Z.eqb_refl.
  - apply Z.eqb_neq. lia.
Qed.

Lemma startswith_app p x : Py.startswith p (p ++ x) = true.
Proof.
  unfold Py.startswith. induction p as [|c p IH]; simpl.
  - now destruct x.
  - destruct (Ascii.ascii_dec c c); [exact IH | congruence].
Qed.

Lemma infer_segment_24_total ip a :
  ipaddress.ip_address ip = Ok a -> exists segment, infer_segment_24 ip = Ok segment.
Proof.
  unfold ipaddress.ip_address.
  destruct (ipaddress.IPv4Address ip) as [n|] eqn:E4.
  - intros _. eexists. apply (infer_segment_24_v4 _ _ E4).
  - destruct (ipaddress.IPv6Address ip) as [x|] eqn:E6; [|discriminate].
    intros _. exists "IPv6". apply (infer_segment_24_v6 _ _ E4 E6).
Qed.

Lemma third_octet_of_text ip a :
  ipaddress.IPv4Address ip = Some a ->
  exists o0 o1 o2 o3,
    Py.split "." ip = [o0; o1; o2; o3]
    /\ ipaddress.parse_octet o2 = Some (third_octet a)
    /\ Py.int o2 = Ok (Z.of_N (third_octet a))
    /\ exists rest, infer_segment_24 ip = Ok (rest ++ ".0/24").
Proof.
  intro H.
  destruct (IPv4Address_inv _ _ H)
    as (_ & o0 & o1 & o2 & o3 & v0 & v1 & v2 & v3 & Hs & P0 & P1 & P2 & P3 & Ha).
  destruct (parse_octet_facts _ _ P0) as (_ & _ & _ & B0).
  destruct (parse_octet_facts _ _ P1) as (_ & _ & _ & B1).
  destruct (parse_octet_facts _ _ P2) as (N2 & D2 & V2 & B2).
  destruct (parse_octet_facts _ _ P3) as (_ & _ & _ & B3).
  destruct (packed_octets v0 v1 v2 v3 B0 B1 B2 B3) as (_ & _ & _ & _ & E).
  assert (Ht : third_octet a = v2) by (subst a; exact E).
  exists o0, o1, o2, o3. rewrite Ht.
  split; [exact Hs|]. split; [exact P2|].
  split; [apply int_decimal; eauto using parse_octet_short|].
  exists (Py.str_N v0 ++ "." ++ Py.str_N v1 ++ "." ++ Py.str_N v2).
  rewrite (infer_segment_24_octets ip a v0 v1 v2 v3 H B0 B1 B2 B3 Ha).
  f_equal. now rewrite !append_assoc.
Qed.

Lemma keep_row_no_filter ip segment :
  keep_row None ip segment = Ok true /\ keep_row (Some "") ip segment = Ok true.
Proof. split; reflexivity. Qed.

Lemma keep_row_third_octet n (row : ip_registry.Row) a segment :
  N.of_nat (String.length (Py.str_N n)) <= Py.INT_MAX_STR_DIGITS ->
  ipaddress.ip_address (ip_registry.ip_address row) = Ok a ->
  infer_segment_24 (ip_registry.ip_address row) = Ok segment ->
  keep_row (Some ("THIRD_OCTET:" ++ Py.str_N n)) (ip_registry.ip_address row) segment
  = Ok (has_third_octet n row).
Proof.
  intros Hlen Hvalid Hseg. unfold keep_row, has_third_octet.
  assert (Ht : Py.truthy ("THIRD_OCTET:" ++ Py.str_N n) = true) by reflexivity.
  rewrite Ht, startswith_app. cbn [negb]. cbv iota.
  destruct (ipaddress.IPv4Address (ip_registry.ip_address row)) as [ip_int|] eqn:E4.
  - destruct (third_octet_of_text _ _ E4)
      as (o0 & o1 & o2 & o3 & Hs & _ & Hint & rest & Hinf).
    rewrite Hinf in Hseg. injection Hseg as <-.
    assert (Hne : String.eqb (rest ++ ".0/24") "IPv6" = false).
    { apply String.eqb_neq. intro E.
      assert (C : Py.contains "." (rest ++ ".0/24") = Py.contains "." "IPv6")
        by (now rewrite E).
      rewrite contains_app in C. simpl in C. rewrite orb_true_r in C. discriminate. }
    rewrite Hne, Hs. cbn [Py.getitem nth_error rbind]. rewrite Hint.
    cbn [rbind].
    change (Py.split1 ":" ("THIRD_OCTET:" ++ Py.str_N n))
      with ["THIRD_OCTET"; Py.str_N n].
    cbn [Py.getitem nth_error rbind]. rewrite (int_str_N n Hlen). cbn [rbind].
    f_equal. apply Z_of_N_eqb.
  - unfold ipaddress.ip_address in Hvalid. rewrite E4 in Hvalid.
    destruct (ipaddress.IPv6Address (ip_registry.ip_address row)) as [x|] eqn:E6;
      [|discriminate].
    rewrite (infer_segment_24_v6 _ _ E4 E6) in Hseg. injection Hseg as <-.
    reflexivity.
Qed.

Lemma keep_row_cidr f (row : ip_registry.Row) segment :
  f <> "" ->
  Py.startswith "THIRD_OCTET:" f = false ->
  infer_segment_24 (ip_registry.ip_address row) = Ok segment ->
  keep_row (Some f) (ip_registry.ip_address row) segment = Ok (has_segment f row).
Proof.
  intros Hne Hpre Hseg. unfold keep_row, has_segment.
  apply truthy_true_iff in Hne. now rewrite Hne, Hpre, Hseg.
Qed.

Lemma render_rows_filter segment_filter (keep : ip_registry.Row -> bool) rows :
  Forall (fun row =>
            exists segment,
              infer_segment_24 (ip_registry.ip_address row) = Ok segment
              /\ keep_row segment_filter (ip_registry.ip_address row) segment
                 = Ok (keep row)) rows ->
  exists ds,
    render_rows segment_filter rows = Ok ds
    /\ Forall2 listed (filter keep rows) ds.
Proof.
  induction 1 as [|row rows (segment & Hseg & Hkeep) _ (ds & Hds & Hall)].
  - exists []. split; [reflexivity | constructor].
  - cbn [render_rows]. rewrite Hseg. cbn [rbind]. rewrite Hkeep. cbn [rbind].
    rewrite Hds. cbn [rbind filter].
    destruct (keep row).
    + eexists. split; [reflexivity|]. constructor; [|exact Hall].
      exists segment. split; [exact Hseg | reflexivity].
    + now exists ds.
Qed.

Lemma get_rows_unfold segment_filter st :
  get_rows segment_filter st
  = (render_rows segment_filter (order_by_created_at_desc (table (store st))), st).
Proof. reflexivity. Qed.

Lemma addresses_valid_sorted s :
  addresses_valid s ->
  Forall (fun r => exists a, ipaddress.ip_address (ip_registry.ip_address r) = Ok a)
    (order_by_created_at_desc (table s)).
Proof.
  unfold addresses_valid. intro H. rewrite Forall_forall in *.
  intros r Hr. apply H.
  eapply Permutation_in; [apply order_by_created_at_desc_perm | exact Hr].
Qed.

(** C8: [get_rows] lists the registered records, each with its ten
    columns and, under the key "segment", its computed segment; the
    greatest [created_at] comes first and records created at the same
    moment keep their rowid order.  With a THIRD_OCTET:n token (n written
    with no more digits than [int] converts) it lists exactly the version
    4 records whose third octet is n, so no version 6 record; with
    another non-empty token it lists exactly the records whose computed
    segment is the token. *)
Theorem get_rows_spec :
  forall st,
    addresses_valid (store st) ->
    let sorted := order_by_created_at_desc (table (store st)) in
    (newest_first sorted
     /\ Permutation sorted (table (store st))
     /\ forall c,
          filter (created_at_is c) sorted
          = filter (created_at_is c) (table (store st)))
    /\ (forall row d,
          listed row d ->
          exists segment,
            infer_segment_24 (ip_registry.ip_address row) = Ok segment
            /\ dict_get "segment" d = Some (Some segment)
            /\ dict_get "ip_address" d = Some (Some (ip_registry.ip_address row))
            /\ List.length d = 11%nat)
    /\ (exists ds, get_rows None st = (Ok ds, st) /\ Forall2 listed sorted ds)
    /\ (forall n,
          N.of_nat (String.length (Py.str_N n)) <= Py.INT_MAX_STR_DIGITS ->
          exists ds,
            get_rows (Some ("THIRD_OCTET:" ++ Py.str_N n)) st = (Ok ds, st)
            /\ Forall2 listed (filter (has_third_octet n) sorted) ds)
    /\ (forall f,
          f <> "" ->
          Py.startswith "THIRD_OCTET:" f = false ->
          exists ds,
            get_rows (Some f) st = (Ok ds, st)
            /\ Forall2 listed (filter (has_segment f) sorted) ds)
    /\ (forall n row,
          (ipaddress.IPv4Address (ip_registry.ip_address row) = None ->
           has_third_octet n row = false)
          /\ (forall a,
                ipaddress.IPv4Address (ip_registry.ip_address row) = Some a ->
                exists o0 o1 o2 o3,
                  Py.split "." (ip_registry.ip_address row) = [o0; o1; o2; o3]
                  /\ (has_third_octet n row = true
                      <-> ipaddress.parse_octet o2 = Some n))).
Proof.
  intros st Hvalid sorted.
  pose proof (addresses_valid_sorted _ Hvalid) as Hsorted. fold sorted in Hsorted.
  split; [split; [apply order_by_created_at_desc_sorted|];
          split; [apply order_by_created_at_desc_perm|];
          intro c; apply order_by_created_at_desc_stable|].
  split; [|split; [|split; [|split]]].
  - intros row d (segment & Hseg & ->). exists segment. repeat split; assumption.
  - destruct (render_rows_filter None (fun _ => true) sorted) as (ds & Hds & Hall).
    + eapply Forall_impl; [|exact Hsorted].
      intros row [a Ha]. destruct (infer_segment_24_total _ _ Ha) as [seg Hseg].
      now exists seg.
    + exists ds. rewrite get_rows_unfold. fold sorted. rewrite Hds.
      split; [reflexivity|].
      assert (E : filter (fun _ : ip_registry.Row => true) sorted = sorted).
      { clear. induction sorted as [|r l IH]; simpl; [reflexivity | now rewrite IH]. }
      now rewrite E in Hall.
  - intros n Hlen.
    destruct (render_rows_filter (Some ("THIRD_OCTET:" ++ Py.str_N n))
                (has_third_octet n) sorted) as (ds & Hds & Hall).
    + eapply Forall_impl; [|exact Hsorted].
      intros row [a Ha]. destruct (infer_segment_24_total _ _ Ha) as [seg Hseg].
      exists seg. split; [exact Hseg|]. now apply (keep_row_third_octet n row a).
    + exists ds. rewrite get_rows_unfold. fold sorted. now rewrite Hds.
  - intros f Hne Hpre.
    destruct (render_rows_filter (Some f) (has_segment f) sorted) as (ds & Hds & Hall).
    + eapply Forall_impl; [|exact Hsorted].
      intros row [a Ha]. destruct (infer_segment_24_total _ _ Ha) as [seg Hseg].
      exists seg. split; [exact Hseg|]. now apply keep_row_cidr.
    + exists ds. rewrite get_rows_unfold. fold sorted. now rewrite Hds.
  - intros n row. split.
    + intro H. unfold has_third_octet. now rewrite H.
    + intros a H.
      destruct (third_octet_of_text _ _ H) as (o0 & o1 & o2 & o3 & Hs & P2 & _).
      exists o0, o1, o2, o3. split; [exact Hs|].
      unfold has_third_octet. rewrite H, P2, N.eqb_eq.
      split; [intros ->; reflexivity | intros [= ->]; reflexivity].
Qed.

Lemma get_rows_spec_witness :
  addresses_valid (store state_segments)
  /\ exists ds,
       get_rows (Some ("THIRD_OCTET:" ++ Py.str_N 56)) state_segments
       = (Ok ds, state_segments)
       /\ Forall2 listed
            (filter (has_third_octet 56)
               (order_by_created_at_desc (table (store state_segments)))) ds
       /\ map (dict_get "ip_address") ds = [Some (Some "192.168.56.10")]
       /\ map (dict_get "segment") ds = [Some (Some "192.168.56.0/24")].
Proof.
  assert (Hvalid : addresses_valid (store state_segments)).
  { repeat constructor; eexists; vm_compute; reflexivity. }
  split; [exact Hvalid|].
  assert (Hlen : N.of_nat (String.length (Py.str_N 56)) <= Py.INT_MAX_STR_DIGITS)
    by (vm_compute; discriminate).
  destruct (proj1 (proj2 (proj2 (proj2 (get_rows_spec state_segments Hvalid)))) 56 Hlen)
    as (ds & Hget & Hall).
  exists ds. split; [exact Hget|]. split; [exact Hall|].
  vm_compute in Hget. injection Hget as <-. split; reflexivity.
Defined.

(** ** The stored addresses stay valid *)

Lemma init_db_valid : addresses_valid init_db.
Proof. constructor. Qed.

Lemma register_ip_keeps_valid w ip alias st :
  addresses_valid (store st) ->
  addresses_valid (store (snd (register_ip w ip alias st))).
Proof.
  intro H. rewrite register_ip_unfold.
  destruct (is_valid_ip ip) eqn:Hv; simpl; [|exact H].
  unfold insert_row. destruct (existsb _ (table (store st))); simpl; [exact H|].
  unfold addresses_valid in *. simpl. apply Forall_app. split; [exact H|].
  constructor; [|constructor]. simpl.
  unfold is_valid_ip in Hv.
  destruct (ipaddress.ip_address (Py.strip ip)) as [a|]; [now exists a | discriminate].
Qed.

Lemma update_host_details_keeps_valid ip hn ht loc nt al st :
  addresses_valid (store st) ->
  addresses_valid (store (snd (update_host_details ip hn ht loc nt al st))).
Proof.
  intro H.
  destruct (Py.truthy ht && negb (existsb (String.eqb ht) HOST_TYPE_OPTIONS)) eqn:G.
  - now rewrite (update_host_details_rejected _ _ _ _ _ _ _ G).
  - rewrite (update_host_details_accepted _ _ _ _ _ _ _ G).
    destruct (select_by_ip ip (store st)) as [found|]; [|exact H].
    unfold addresses_valid in *. simpl. rewrite Forall_map.
    eapply Forall_impl; [|exact H].
    intros r Hr. now destruct (String.eqb (ip_registry.ip_address r) ip).
Qed.

Lemma ping_cycle_keeps_valid w st st' :
  ping_all_registered_ips w st = (Ok tt, st') ->
  addresses_valid (store st) ->
  addresses_valid (store st').
Proof.
  intros H Hvalid. unfold ping_all_registered_ips, bind at 1, get_store in H.
  apply ping_rows_probed in H. destruct H as (F & Htable & HF).
  unfold addresses_valid in *. rewrite Htable, Forall_map.
  eapply Forall_impl; [|exact Hvalid].
  intros r Hr. destruct (HF r) as [[-> | (t & h & s & o & _ & ->)] _]; exact Hr.
Qed.

(** * Further properties of the code *)

(** ** What the prober returns *)

Lemma rstrip_no_space s :
  Py.forallb_str (fun c => negb (Py.isspace_char c)) s = true -> Py.rstrip s = s.
Proof.
  induction s as [|c s IH]; simpl; [reflexivity|].
  rewrite andb_true_iff, negb_true_iff. intros [Hc Hs].
  rewrite (IH Hs). destruct s; [now rewrite Hc | reflexivity].
Qed.

Lemma decimal_no_space s :
  Py.forallb_str Py.isdecimal_char s = true ->
  Py.forallb_str (fun c => negb (Py.isspace_char c)) s = true.
Proof.
  induction s as [|c s IH]; simpl; [reflexivity|].
  rewrite andb_true_iff. intros [Hc Hs].
  destruct (isdecimal_not_sign c Hc) as (_ & _ & _ & _ & _ & Hsp).
  now rewrite Hsp, (IH Hs).
Qed.

Lemma str_Z_no_space z :
  Py.str_Z z <> ""
  /\ Py.forallb_str (fun c => negb (Py.isspace_char c)) (Py.str_Z z) = true.
Proof.
  assert (Hpos : forall p,
             NilZero.string_of_uint (Pos.to_uint p) <> ""
             /\ Py.forallb_str (fun c => negb (Py.isspace_char c))
                  (NilZero.string_of_uint (Pos.to_uint p)) = true).
  { intro p. destruct (str_N_facts (Npos p)) as (Hne & Hdec & _).
    split; [exact Hne | now apply decimal_no_space]. }
  destruct z as [|p|p]; unfold Py.str_Z; simpl.
  - split; [discriminate | reflexivity].
  - apply Hpos.
  - split; [discriminate|]. simpl. apply Hpos.
Qed.

Lemma ping_failed_message_trimmed z :
  let message := "Ping fallido con c" ++ o_acute ++ "digo " ++ Py.str_Z z in
  Py.strip message = message /\ message <> "".
Proof.
  cbv zeta. split; [|discriminate].
  destruct (str_Z_no_space z) as [Hne Hsp].
  unfold Py.strip.
  change (Py.lstrip ("Ping fallido con c" ++ o_acute ++ "digo " ++ Py.str_Z z))
    with ("Ping fallido con c" ++ o_acute ++ "digo " ++ Py.str_Z z).
  change ("Ping fallido con c" ++ o_acute ++ "digo " ++ Py.str_Z z)
    with (("Ping fallido con c" ++ o_acute ++ "digo ") ++ Py.str_Z z).
  apply rstrip_app_fixed; [exact Hne | now apply rstrip_no_space].
Qed.

Lemma run_ping_ok_output w ip st status output st' :
  run_ping w ip st = (Ok (status, output), st') ->
  st' = st
  /\ Py.strip output = output
  /\ (status = "OK" \/ (status = "ERROR" /\ output <> "")).
Proof.
  unfold run_ping, bind, get_ticks.
  destruct (subprocess_run w (ticks st) (ping_cmd w ip)) as [rc out err | e];
    [|unfold raise; discriminate].
  destruct (rc =? 0)%Z; unfold ret; intros [= <- <- <-].
  - split; [reflexivity|]. split; [apply strip_idempotent | now left].
  - split; [reflexivity|].
    destruct (Py.truthy (Py.strip (out ++ err))) eqn:Ht.
    + split; [apply strip_idempotent|]. right. split; [reflexivity|].
      now apply truthy_true_iff.
    + destruct (ping_failed_message_trimmed rc) as [H1 H2].
      split; [exact H1|]. right. now split.
Qed.

(** X1 ([run_ping]): when the ping subprocess completes, [run_ping]
    returns OK exactly for exit code 0 and leaves the state alone; the
    output is always trimmed; under ERROR it is never empty: it is the
    trimmed text of both streams, or, when that is empty, the message
    that names the exit code. *)
Theorem run_ping_completed_output :
  forall w ip st returncode stdout stderr,
    subprocess_run w (ticks st) (ping_cmd w ip) = Completed returncode stdout stderr ->
    exists output,
      run_ping w ip st
      = (Ok (if (returncode =? 0)%Z then "OK" else "ERROR", output), st)
      /\ Py.strip output = output
      /\ (returncode <> 0%Z -> output <> "")
      /\ (returncode = 0%Z \/ Py.strip (stdout ++ stderr) <> "" ->
          output = Py.strip (stdout ++ stderr))
      /\ (returncode <> 0%Z -> Py.strip (stdout ++ stderr) = "" ->
          output = "Ping fallido con c" ++ o_acute ++ "digo " ++ Py.str_Z returncode).
Proof.
  intros w ip st rc out err H.
  unfold run_ping, bind, get_ticks. rewrite H.
  destruct (Z.eqb_spec rc 0) as [-> | Hrc]; unfold ret.
  - eexists. split; [reflexivity|]. split; [apply strip_idempotent|].
    split; [congruence|]. split; [reflexivity | congruence].
  - destruct (Py.truthy (Py.strip (out ++ err))) eqn:Ht.
    + eexists. split; [reflexivity|]. split; [apply strip_idempotent|].
      apply truthy_true_iff in Ht.
      split; [intros _; exact Ht|]. split; [reflexivity | congruence].
    + eexists. split; [reflexivity|].
      destruct (ping_failed_message_trimmed rc) as [H1 H2].
      split; [exact H1|]. split; [intros _; exact H2|].
      apply truthy_false_iff in Ht.
      split; [intros [E | E]; congruence | reflexivity].
Qed.

Lemma run_ping_completed_output_witness :
  exists output,
    run_ping world_reachable "10.0.0.1" state_one = (Ok ("OK", output), state_one)
    /\ Py.strip output = output.
Proof.
  destruct (run_ping_completed_output world_reachable "10.0.0.1" state_one
              0%Z "1 packets transmitted, 1 received" "" eq_refl)
    as (output & H & Hs & _).
  exists output. split; [exact H | exact Hs].
Defined.

(** ** What the statements keep *)

Lemma probe_written_after_probe h t s o r r' :
  probe_written (set_probe h t s o r) r' -> probe_written r r'.
Proof.
  intros (h' & t' & s' & o' & -> & Ho & Hs).
  exists h', t', s', o'. now split.
Qed.

Lemma ping_rows_writes w rows :
  forall st res st',
    ping_rows w rows st = (res, st') ->
    exists F : ip_registry.Row -> ip_registry.Row,
      table (store st') = map F (table (store st))
      /\ sqlite_sequence (store st') = sqlite_sequence (store st)
      /\ forall r, F r = r \/ probe_written r (F r).
Proof.
  induction rows as [|[row_id ip] rest IH]; intros st res st' H.
  - injection H as <- <-. exists (fun r => r). split; [now rewrite map_id|].
    split; [reflexivity | now left].
  - rewrite ping_rows_cons in H.
    destruct (lookup_outcome w (ticks st) ip) as [hostname | e0].
    2:{ injection H as <- <-. exists (fun r => r).
        split; [now rewrite map_id|]. split; [reflexivity | now left]. }
    destruct (run_ping w ip st) as [[[status output]|e] st1] eqn:E.
    + apply run_ping_ok_output in E. destruct E as (_ & Hout & Hstatus).
      apply IH in H. destruct H as (F & Htable & Hseq & HF).
      simpl in Htable, Hseq. rewrite map_map in Htable.
      eexists. split; [exact Htable|]. split; [exact Hseq|].
      intro r. cbv beta. simpl fst. simpl snd.
      destruct (ip_registry.id r =? row_id); [|apply HF].
      right.
      destruct (HF (set_probe hostname
                      (utc_isoformat w (ticks st)) status output r))
        as [-> | Hp].
      * eexists _, _, _, _. split; [reflexivity|]. now split.
      * now apply probe_written_after_probe in Hp.
    + injection H as <- <-.
      unfold run_ping, bind, get_ticks in E.
      destruct (subprocess_run w (ticks st) (ping_cmd w ip)) as [rc out err | e'].
      * destruct (rc =? 0)%Z; discriminate.
      * injection E as <- <-. exists (fun r => r).
        split; [now rewrite map_id|]. split; [reflexivity | now left].
Qed.

Lemma ping_cycle_writes w st :
  exists F : ip_registry.Row -> ip_registry.Row,
    table (store (snd (ping_all_registered_ips w st))) = map F (table (store st))
    /\ sqlite_sequence (store (snd (ping_all_registered_ips w st)))
       = sqlite_sequence (store st)
    /\ forall r, F r = r \/ probe_written r (F r).
Proof.
  rewrite ping_all_unfold.
  destruct (ping_rows w _ st) as [res st'] eqn:E.
  apply ping_rows_writes in E. exact E.
Qed.

Lemma probe_written_key r r' : probe_written r r' -> row_key r' = row_key r.
Proof. now intros (h & t & s & o & -> & _). Qed.

Lemma map_keeps {A : Type} (f : ip_registry.Row -> A)
  (F : ip_registry.Row -> ip_registry.Row) rows :
  (forall r, f (F r) = f r) -> map f (map F rows) = map f rows.
Proof.
  intro H. rewrite map_map. apply map_ext. exact H.
Qed.

Lemma set_probe_wellformed h t s o r :
  row_wellformed r ->
  Py.strip o = o ->
  (s = "OK" \/ (s = "ERROR" /\ o <> "")) ->
  row_wellformed (set_probe h t s o r).
Proof.
  intros [H1 H2 H3 H4 H5 H6 H7 H8] Ho Hs.
  constructor; simpl; try assumption.
  right. exists t, o. split; [reflexivity|].
  split; [destruct Hs as [-> | [-> _]]; auto|].
  split; [reflexivity|]. split; [exact Ho|].
  intros [= E]. destruct Hs as [-> | [_ Hne]]; [discriminate | exact Hne].
Qed.

Lemma probe_written_wellformed r r' :
  row_wellformed r -> probe_written r r' -> row_wellformed r'.
Proof.
  intros Hr (h & t & s & o & -> & Ho & Hs). now apply set_probe_wellformed.
Qed.

Lemma strip_or_none_wellformed x :
  trimmed_or_null (strip_or_none x) /\ strip_or_none x <> Some "".
Proof.
  unfold strip_or_none. destruct (Py.truthy (Py.strip x)) eqn:E; simpl.
  - split; [apply strip_idempotent|]. apply truthy_true_iff in E. congruence.
  - split; [exact I | discriminate].
Qed.

Lemma accepted_host_type_stored ht :
  Py.truthy ht && negb (existsb (String.eqb ht) HOST_TYPE_OPTIONS) = false ->
  strip_or_none ht = None
  \/ (strip_or_none ht = Some ht /\ In ht HOST_TYPE_OPTIONS).
Proof.
  intro G. apply andb_false_iff in G. destruct G as [G | G].
  - apply truthy_false_iff in G. subst. now left.
  - apply negb_false_iff, existsb_eqb_In in G. right. split; [|exact G].
    simpl in G.
    destruct G as [<- | [<- | [<- | [<- | [<- | [<- | []]]]]]]; reflexivity.
Qed.

Lemma set_details_wellformed al hn ht loc nt r :
  row_wellformed r ->
  Py.truthy ht && negb (existsb (String.eqb ht) HOST_TYPE_OPTIONS) = false ->
  row_wellformed
    (set_details (strip_or_none al) (strip_or_none hn) (strip_or_none ht)
       (strip_or_none loc) (strip_or_none nt) r).
Proof.
  intros [H1 H2 H3 H4 H5 H6 H7 H8] G.
  constructor; simpl; try assumption; try apply strip_or_none_wellformed.
  destruct (accepted_host_type_stored ht G) as [-> | [-> Hin]];
    [now left | right; now exists ht].
Qed.

Lemma register_alias_trimmed alias : trimmed_or_null (register_alias alias).
Proof.
  destruct alias as [a|]; simpl; [|exact I].
  destruct (Py.truthy a); simpl; [apply strip_idempotent | exact I].
Qed.

Lemma existsb_ip_In ip rows :
  existsb (fun r => String.eqb (ip_registry.ip_address r) ip) rows = false ->
  ~ In ip (map ip_registry.ip_address rows).
Proof.
  induction rows as [|r rows IH]; simpl; [tauto|].
  intro H. apply orb_false_iff in H. destruct H as [Hr Hrest].
  apply String.eqb_neq in Hr. intros [E | Hin]; [congruence | now apply IH].
Qed.

Lemma NoDup_snoc {A : Type} (xs : list A) (x : A) :
  NoDup xs -> ~ In x xs -> NoDup (xs ++ [x]).
Proof.
  intros Hnd Hx. induction Hnd as [|y ys Hy Hys IH]; simpl.
  - constructor; [tauto | constructor].
  - constructor.
    + rewrite in_app_iff. intros [H | [-> | []]]; [tauto|].
      apply Hx. now left.
    + apply IH. intro H. apply Hx. now right.
Qed.

Lemma new_row_wellformed ip alias now new_id :
  is_valid_ip ip = true ->
  row_wellformed
    (ip_registry.mkRow new_id (Py.strip ip) (register_alias alias)
       None None None None None None None None now).
Proof.
  intro Hv. constructor; simpl.
  - apply strip_idempotent.
  - now rewrite is_valid_ip_strip.
  - apply register_alias_trimmed.
  - split; [exact I | discriminate].
  - now left.
  - split; [exact I | discriminate].
  - split; [exact I | discriminate].
  - left. repeat split.
Qed.

Lemma register_ip_invariant w ip alias st :
  state_invariant st -> state_invariant (snd (register_ip w ip alias st)).
Proof.
  intros [(Hips & Hids & Hbound) Hwf]. rewrite register_ip_unfold.
  destruct (is_valid_ip ip) eqn:Hv; simpl; [|now repeat split].
  unfold insert_row.
  destruct (existsb _ (table (store st))) eqn:E; simpl; [now repeat split|].
  unfold state_invariant, keys_unique. simpl.
  rewrite !map_app. simpl.
  repeat split.
  - apply NoDup_snoc; [exact Hips | now apply existsb_ip_In].
  - apply NoDup_snoc; [exact Hids|].
    intro Hin. apply in_map_iff in Hin. destruct Hin as (r & Hr & Hin).
    rewrite Forall_forall in Hbound. specialize (Hbound r Hin). lia.
  - apply Forall_app. split.
    + eapply Forall_impl; [|exact Hbound]. simpl. intros r Hr. lia.
    + constructor; [simpl; lia | constructor].
  - apply Forall_app. split; [exact Hwf|].
    constructor; [now apply new_row_wellformed | constructor].
Qed.

Lemma update_host_details_invariant ip hn ht loc nt al st :
  state_invariant st ->
  state_invariant (snd (update_host_details ip hn ht loc nt al st)).
Proof.
  intros [(Hips & Hids & Hbound) Hwf].
  destruct (Py.truthy ht && negb (existsb (String.eqb ht) HOST_TYPE_OPTIONS)) eqn:G.
  - rewrite (update_host_details_rejected _ _ _ _ _ _ _ G). now repeat split.
  - rewrite (update_host_details_accepted _ _ _ _ _ _ _ G).
    destruct (select_by_ip ip (store st)) as [found|]; [|now repeat split].
    unfold state_invariant, keys_unique. simpl.
    rewrite !map_keeps
      by (intro r; now destruct (String.eqb (ip_registry.ip_address r) ip)).
    repeat split; try assumption.
    + rewrite Forall_map. eapply Forall_impl; [|exact Hbound].
      intros r Hr. now destruct (String.eqb (ip_registry.ip_address r) ip).
    + rewrite Forall_map. eapply Forall_impl; [|exact Hwf].
      intros r Hr. destruct (String.eqb (ip_registry.ip_address r) ip);
        [now apply set_details_wellformed | exact Hr].
Qed.

Lemma written_rows_invariant (F : ip_registry.Row -> ip_registry.Row) s s' :
  table s' = map F (table s) ->
  sqlite_sequence s' = sqlite_sequence s ->
  (forall r, F r = r \/ probe_written r (F r)) ->
  (keys_unique s /\ Forall row_wellformed (table s)) ->
  keys_unique s' /\ Forall row_wellformed (table s').
Proof.
  intros Htable Hseq HF [(Hips & Hids & Hbound) Hwf].
  assert (Hkey : forall r, row_key (F r) = row_key r).
  { intro r. destruct (HF r) as [-> | Hp];
      [reflexivity | now apply probe_written_key]. }
  assert (Hip : forall r, ip_registry.ip_address (F r) = ip_registry.ip_address r).
  { intro r. specialize (Hkey r). unfold row_key in Hkey. congruence. }
  assert (Hid : forall r, ip_registry.id (F r) = ip_registry.id r).
  { intro r. specialize (Hkey r). unfold row_key in Hkey. congruence. }
  unfold keys_unique. rewrite Htable, Hseq, !map_keeps by assumption.
  repeat split; try assumption.
  - rewrite Forall_map. eapply Forall_impl; [|exact Hbound].
    intros r Hr. now rewrite Hid.
  - rewrite Forall_map. eapply Forall_impl; [|exact Hwf].
    intros r Hr. destruct (HF r) as [-> | Hp];
      [exact Hr | now apply (probe_written_wellformed r)].
Qed.

Lemma ping_cycle_invariant w st :
  state_invariant st -> state_invariant (snd (ping_all_registered_ips w st)).
Proof.
  intro H. destruct (ping_cycle_writes w st) as (F & Htable & Hseq & HF).
  exact (written_rows_invariant F _ _ Htable Hseq HF H).
Qed.

Lemma reachable_invariant w st : reachable w st -> state_invariant st.
Proof.
  induction 1.
  - split; [|constructor]. repeat split; constructor.
  - now apply register_ip_invariant.
  - now apply update_host_details_invariant.
  - now apply ping_cycle_invariant.
Qed.

Lemma state_segments_reachable : reachable world_reachable state_segments.
Proof. repeat apply reach_register. apply reach_init. Qed.

Lemma probed_segments_reachable :
  reachable world_first_times_out
    (snd (ping_all_registered_ips world_first_times_out
            (snd (update_host_details "192.168.56.10" " core " "ROUTER" "" "" ""
                    (snd (register_ip world_first_times_out "10.0.0.1" (Some " gw ")
                            (snd (register_ip world_first_times_out "192.168.56.10"
                                    None initial_state)))))))).
Proof.
  apply reach_ping, reach_update. repeat apply reach_register. apply reach_init.
Qed.

(** X2 (store keys): in every reachable state no two records share an
    address, no two share an id, and every id lies between 1 and the
    [AUTOINCREMENT] counter. *)
Theorem reachable_keys_unique :
  forall w st,
    reachable w st ->
    NoDup (map ip_registry.ip_address (table (store st)))
    /\ NoDup (map ip_registry.id (table (store st)))
    /\ Forall (fun r => 1 <= ip_registry.id r <= sqlite_sequence (store st))
         (table (store st)).
Proof. intros w st H. exact (proj1 (reachable_invariant w st H)). Qed.

Lemma reachable_keys_unique_witness :
  NoDup (map ip_registry.ip_address (table (store state_segments))).
Proof.
  exact (proj1 (reachable_keys_unique world_reachable state_segments
                  state_segments_reachable)).
Defined.

(** X3 (stored addresses): in every reachable state each stored address
    is trimmed and is one the validator accepts. *)
Theorem reachable_addresses_trimmed_and_valid :
  forall w st,
    reachable w st ->
    Forall (fun r =>
              Py.strip (ip_registry.ip_address r) = ip_registry.ip_address r
              /\ is_valid_ip (ip_registry.ip_address r) = true
              /\ exists a, ipaddress.ip_address (ip_registry.ip_address r) = Ok a)
      (table (store st)).
Proof.
  intros w st H. destruct (reachable_invariant w st H) as [_ Hwf].
  eapply Forall_impl; [|exact Hwf].
  intros r [H1 H2 _ _ _ _ _ _]. split; [exact H1|]. split; [exact H2|].
  unfold is_valid_ip in H2. rewrite H1 in H2.
  destruct (ipaddress.ip_address (ip_registry.ip_address r)) as [a|];
    [now exists a | discriminate].
Qed.

Lemma reachable_addresses_trimmed_and_valid_witness :
  Forall (fun r =>
            Py.strip (ip_registry.ip_address r) = ip_registry.ip_address r
            /\ is_valid_ip (ip_registry.ip_address r) = true
            /\ exists a, ipaddress.ip_address (ip_registry.ip_address r) = Ok a)
    (table (store state_segments)).
Proof.
  exact (reachable_addresses_trimmed_and_valid world_reachable state_segments
           state_segments_reachable).
Defined.

(** X4 (stored metadata): in every reachable state [host_type] is null or
    a member of [HOST_TYPE_OPTIONS]; [host_name], [location] and [notes]
    are null or a non-empty trimmed text; [alias] is null or trimmed. *)
Theorem reachable_metadata_normalized :
  forall w st,
    reachable w st ->
    Forall (fun r =>
              (ip_registry.host_type r = None
               \/ exists h, ip_registry.host_type r = Some h /\ In h HOST_TYPE_OPTIONS)
              /\ (forall x,
                    In (Some x) [ip_registry.host_name r; ip_registry.location r;
                                 ip_registry.notes r] ->
                    x <> "" /\ Py.strip x = x)
              /\ (forall x, ip_registry.alias r = Some x -> Py.strip x = x))
      (table (store st)).
Proof.
  intros w st H. destruct (reachable_invariant w st H) as [_ Hwf].
  eapply Forall_impl; [|exact Hwf].
  intros r [_ _ Ha [Hn1 Hn2] Ht [Hl1 Hl2] [Ho1 Ho2] _].
  split; [exact Ht|]. split.
  - intros x [E | [E | [E | []]]]; rewrite E in *; simpl in *;
      (split; [congruence | assumption]).
  - intros x E. now rewrite E in Ha.
Qed.

Lemma reachable_metadata_normalized_witness :
  Forall (fun r =>
            (ip_registry.host_type r = None
             \/ exists h, ip_registry.host_type r = Some h /\ In h HOST_TYPE_OPTIONS)
            /\ (forall x,
                  In (Some x) [ip_registry.host_name r; ip_registry.location r;
                               ip_registry.notes r] ->
                  x <> "" /\ Py.strip x = x)
            /\ (forall x, ip_registry.alias r = Some x -> Py.strip x = x))
    (table (store
       (snd (ping_all_registered_ips world_first_times_out
               (snd (update_host_details "192.168.56.10" " core " "ROUTER" "" "" ""
                       (snd (register_ip world_first_times_out "10.0.0.1" (Some " gw ")
                               (snd (register_ip world_first_times_out "192.168.56.10"
                                       None initial_state)))))))))).
Proof.
  exact (reachable_metadata_normalized _ _ probed_segments_reachable).
Defined.

(** X5 (probe columns): in every reachable state, also after a cycle that
    an exception cut short, each record either has never been probed
    (hostname, [last_ping_at], [last_status] and [last_output] all null)
    or has a timestamp, a status that is OK or ERROR and a trimmed
    output, which is not empty under ERROR. *)
Theorem reachable_probe_columns_together :
  forall w st,
    reachable w st ->
    Forall (fun r =>
              (ip_registry.hostname r = None /\ ip_registry.last_ping_at r = None
               /\ ip_registry.last_status r = None
               /\ ip_registry.last_output r = None)
              \/ (exists at_ output,
                    ip_registry.last_ping_at r = Some at_
                    /\ (ip_registry.last_status r = Some "OK"
                        \/ ip_registry.last_status r = Some "ERROR")
                    /\ ip_registry.last_output r = Some output
                    /\ Py.strip output = output
                    /\ (ip_registry.last_status r = Some "ERROR" -> output <> "")))
      (table (store st)).
Proof.
  intros w st H. destruct (reachable_invariant w st H) as [_ Hwf].
  eapply Forall_impl; [|exact Hwf].
  now intros r [_ _ _ _ _ _ _ Hp].
Qed.

Lemma reachable_probe_columns_together_witness :
  Forall (fun r =>
            (ip_registry.hostname r = None /\ ip_registry.last_ping_at r = None
             /\ ip_registry.last_status r = None
             /\ ip_registry.last_output r = None)
            \/ (exists at_ output,
                  ip_registry.last_ping_at r = Some at_
                  /\ (ip_registry.last_status r = Some "OK"
                      \/ ip_registry.last_status r = Some "ERROR")
                  /\ ip_registry.last_output r = Some output
                  /\ Py.strip output = output
                  /\ (ip_registry.last_status r = Some "ERROR" -> output <> "")))
    (table (store
       (snd (ping_all_registered_ips world_first_times_out
               (snd (update_host_details "192.168.56.10" " core " "ROUTER" "" "" ""
                       (snd (register_ip world_first_times_out "10.0.0.1" (Some " gw ")
                               (snd (register_ip world_first_times_out "192.168.56.10"
                                       None initial_state)))))))))).
Proof.
  exact (reachable_probe_columns_together _ _ probed_segments_reachable).
Defined.

(** ** Updating and looking up *)

(** X6 ([update_host_details]): the call never raises and never reads the
    clock; it succeeds exactly when the host type passes the check and a
    record of that very address text exists; a refused call leaves the
    state as it was, and the host type is checked before the address is
    looked up. *)
Theorem update_host_details_outcomes :
  forall ip hn ht loc nt al st,
    exists ok msg st',
      update_host_details ip hn ht loc nt al st = (Ok (ok, msg), st')
      /\ ticks st' = ticks st
      /\ (ok = false -> st' = st)
      /\ (ok = true <->
          Py.truthy ht && negb (existsb (String.eqb ht) HOST_TYPE_OPTIONS) = false
          /\ select_by_ip ip (store st) <> None)
      /\ (Py.truthy ht && negb (existsb (String.eqb ht) HOST_TYPE_OPTIONS) = true ->
          msg = MSG_INVALID_HOST_TYPE).
Proof.
  intros ip hn ht loc nt al st.
  destruct (Py.truthy ht && negb (existsb (String.eqb ht) HOST_TYPE_OPTIONS)) eqn:G.
  - rewrite (update_host_details_rejected _ _ _ _ _ _ _ G).
    exists false, MSG_INVALID_HOST_TYPE, st. repeat split; try congruence.
    intros [H _]. discriminate.
  - rewrite (update_host_details_accepted _ _ _ _ _ _ _ G).
    destruct (select_by_ip ip (store st)) as [r|] eqn:E.
    + eexists true, MSG_UPDATED, _. repeat split; try congruence; discriminate.
    + exists false, MSG_NOT_FOUND, st. repeat split; try congruence.
      intros [_ H]. congruence.
Qed.

Lemma select_by_ip_none_untrimmed ip s :
  Forall (fun r => Py.strip (ip_registry.ip_address r) = ip_registry.ip_address r)
    (table s) ->
  Py.strip ip <> ip ->
  select_by_ip ip s = None.
Proof.
  intros Hall Hne. unfold select_by_ip.
  destruct (find _ (table s)) as [r|] eqn:E; [|reflexivity].
  apply find_some in E. destruct E as [Hin Heq].
  apply String.eqb_eq in Heq. rewrite Forall_forall in Hall.
  specialize (Hall r Hin). congruence.
Qed.

Lemma reachable_addresses_trimmed w st :
  reachable w st ->
  Forall (fun r => Py.strip (ip_registry.ip_address r) = ip_registry.ip_address r)
    (table (store st)).
Proof.
  intro H. destruct (reachable_invariant w st H) as [_ Hwf].
  eapply Forall_impl; [|exact Hwf]. now intros r [H1 _ _ _ _ _ _ _].
Qed.

(** X7 (no trimming on lookup): [register_ip] trims the address, but
    [get_ip_row] and [update_host_details] compare the text as given; in
    every reachable state an address text with surrounding white space
    is not found by either, even right after [register_ip] accepted that
    very text. *)
Theorem untrimmed_address_is_not_found :
  forall w st ip,
    reachable w st ->
    Py.strip ip <> ip ->
    get_ip_row ip st = (Ok None, st)
    /\ (forall hn ht loc nt al,
          Py.truthy ht && negb (existsb (String.eqb ht) HOST_TYPE_OPTIONS) = false ->
          update_host_details ip hn ht loc nt al st = (Ok (false, MSG_NOT_FOUND), st))
    /\ (forall alias,
          get_ip_row ip (snd (register_ip w ip alias st))
          = (Ok None, snd (register_ip w ip alias st))).
Proof.
  intros w st ip Hreach Hne.
  pose proof (select_by_ip_none_untrimmed ip (store st)
                (reachable_addresses_trimmed w st Hreach) Hne) as Hsel.
  split; [|split].
  - rewrite get_ip_row_unfold. now rewrite Hsel.
  - intros hn ht loc nt al G.
    rewrite (update_host_details_accepted _ _ _ _ _ _ _ G). now rewrite Hsel.
  - intro alias. rewrite get_ip_row_unfold.
    rewrite (select_by_ip_none_untrimmed ip _
               (reachable_addresses_trimmed w _ (reach_register w ip alias st Hreach))
               Hne).
    reflexivity.
Qed.

Lemma untrimmed_address_is_not_found_witness :
  fst (register_ip world_reachable " 10.9.9.9 " None state_segments)
  = Ok (true, MSG_REGISTERED)
  /\ get_ip_row " 10.9.9.9 "
       (snd (register_ip world_reachable " 10.9.9.9 " None state_segments))
     = (Ok None, snd (register_ip world_reachable " 10.9.9.9 " None state_segments)).
Proof.
  split; [reflexivity|].
  apply (proj2 (proj2 (untrimmed_address_is_not_found world_reachable state_segments
                         " 10.9.9.9 " state_segments_reachable
                         ltac:(vm_compute; discriminate)))).
Defined.

Lemma select_by_ip_app_old ip rows r seq :
  ip_registry.ip_address r <> ip ->
  select_by_ip ip {| table := (rows ++ [r])%list; sqlite_sequence := seq |}
  = find (fun r => String.eqb (ip_registry.ip_address r) ip) rows.
Proof.
  intro Hne. unfold select_by_ip; simpl.
  induction rows as [|r0 rows IH]; simpl.
  - apply String.eqb_neq in Hne. now rewrite Hne.
  - destruct (String.eqb (ip_registry.ip_address r0) ip); [reflexivity | exact IH].
Qed.

(** X8 (insert, then look up): after [register_ip] reports success,
    [get_ip_row] of the trimmed address returns the new record: that
    address, the alias as [register_ip] keeps it, and null in the eight
    other columns; the lookup of every other address text answers as
    before. *)
Theorem register_ip_then_get_ip_row :
  forall w ip alias st,
    fst (register_ip w ip alias st) = Ok (true, MSG_REGISTERED) ->
    fst (get_ip_row (Py.strip ip) (snd (register_ip w ip alias st)))
    = Ok (Some [("ip_address", Some (Py.strip ip));
                ("alias", register_alias alias);
                ("host_name", None); ("host_type", None); ("location", None);
                ("notes", None); ("hostname", None); ("last_ping_at", None);
                ("last_status", None); ("last_output", None)])
    /\ fst (get_ip_row (Py.strip ip) st) = Ok None
    /\ forall other,
         other <> Py.strip ip ->
         fst (get_ip_row other (snd (register_ip w ip alias st)))
         = fst (get_ip_row other st).
Proof.
  intros w ip alias st. rewrite register_ip_unfold.
  destruct (is_valid_ip ip); simpl negb; cbv iota;
    [|simpl; intros [= E]; discriminate E].
  unfold insert_row.
  destruct (existsb _ (table (store st))) eqn:E; [simpl; intros [= E']; discriminate E'|].
  intros _. simpl snd.
  assert (Hnone : select_by_ip (Py.strip ip) (store st) = None).
  { destruct (select_by_ip (Py.strip ip) (store st)) eqn:Hs; [|reflexivity].
    assert (Hn : select_by_ip (Py.strip ip) (store st) <> None) by congruence.
    apply select_by_ip_existsb in Hn. congruence. }
  rewrite !get_ip_row_unfold. simpl store. simpl fst.
  split; [|split].
  - erewrite select_by_ip_app_new; [reflexivity | exact Hnone | reflexivity].
  - now rewrite Hnone.
  - intros other Hne. rewrite select_by_ip_app_old by (simpl; congruence).
    reflexivity.
Qed.

Lemma register_ip_then_get_ip_row_witness :
  fst (get_ip_row "10.9.9.9"
         (snd (register_ip world_reachable " 10.9.9.9 " (Some " lab ") state_segments)))
  = Ok (Some [("ip_address", Some (Py.strip " 10.9.9.9 "));
              ("alias", register_alias (Some " lab "));
              ("host_name", None); ("host_type", None); ("location", None);
              ("notes", None); ("hostname", None); ("last_ping_at", None);
              ("last_status", None); ("last_output", None)]).
Proof.
  exact (proj1 (register_ip_then_get_ip_row world_reachable " 10.9.9.9 "
                  (Some " lab ") state_segments eq_refl)).
Defined.

(** X9 (records stay): no operation deletes a record or rewrites its id,
    address or [created_at]: [register_ip] appends at most one record to
    the others, [update_host_details] and a probe cycle, complete or cut
    short, keep the sequence of these three columns as it is. *)
Theorem row_keys_are_kept :
  forall w st,
    (forall ip alias,
        exists added,
          map row_key (table (store (snd (register_ip w ip alias st))))
          = (map row_key (table (store st)) ++ added)%list
          /\ (List.length added <= 1)%nat)
    /\ (forall ip hn ht loc nt al,
          map row_key (table (store (snd (update_host_details ip hn ht loc nt al st))))
          = map row_key (table (store st)))
    /\ map row_key (table (store (snd (ping_all_registered_ips w st))))
       = map row_key (table (store st)).
Proof.
  intros w st. split; [|split].
  - intros ip alias. rewrite register_ip_unfold.
    destruct (is_valid_ip ip); simpl.
    + unfold insert_row. destruct (existsb _ (table (store st))); simpl.
      * exists []. split; [now rewrite app_nil_r | simpl; lia].
      * rewrite map_app. eexists. split; [reflexivity | simpl; lia].
    + exists []. split; [now rewrite app_nil_r | simpl; lia].
  - intros ip hn ht loc nt al.
    destruct (Py.truthy ht && negb (existsb (String.eqb ht) HOST_TYPE_OPTIONS)) eqn:G.
    + now rewrite (update_host_details_rejected _ _ _ _ _ _ _ G).
    + rewrite (update_host_details_accepted _ _ _ _ _ _ _ G).
      destruct (select_by_ip ip (store st)) as [found|]; [|reflexivity].
      simpl. apply map_keeps. intro r.
      now destruct (String.eqb (ip_registry.ip_address r) ip).
  - destruct (ping_cycle_writes w st) as (F & Htable & _ & HF).
    rewrite Htable. apply map_keeps. intro r.
    destruct (HF r) as [-> | Hp]; [reflexivity | now apply probe_written_key].
Qed.

Lemma update_host_details_outcomes_witness :
  exists ok msg st',
    update_host_details "10.0.0.9" "" "PRINTER" "" "" "" state_one = (Ok (ok, msg), st')
    /\ msg = MSG_INVALID_HOST_TYPE
    /\ st' = state_one.
Proof.
  destruct (update_host_details_outcomes "10.0.0.9" "" "PRINTER" "" "" "" state_one)
    as (ok & msg & st' & H & _ & Hsame & Hok & Hmsg).
  exists ok, msg, st'. split; [exact H|]. split; [exact (Hmsg eq_refl)|].
  apply Hsame. destruct ok; [|reflexivity].
  destruct (proj1 Hok eq_refl) as [G _]. discriminate G.
Defined.

(** ** A probe cycle, record by record *)

Lemma run_ping_by_ticks w ip st :
  run_ping w ip st = (probe_outcome w (ticks st) ip, st).
Proof.
  unfold probe_outcome, run_ping, bind, get_ticks. simpl.
  destruct (subprocess_run w (ticks st) (ping_cmd w ip)) as [rc out err | e].
  - now destruct (rc =? 0)%Z.
  - reflexivity.
Qed.

Lemma position_none row_id rows :
  ~ In row_id (map ip_registry.id rows) -> position row_id rows = None.
Proof.
  induction rows as [|r rows IH]; [reflexivity|].
  cbn [map position In]. intro H.
  destruct (N.eqb_spec (ip_registry.id r) row_id) as [E | _]; [tauto|].
  rewrite IH; [reflexivity | tauto].
Qed.

Lemma position_nth rows :
  NoDup (map ip_registry.id rows) ->
  forall i r, nth_error rows i = Some r -> position (ip_registry.id r) rows = Some i.
Proof.
  induction rows as [|r0 rows IH]; intros Hnd [|i] r Hi; try discriminate Hi.
  - injection Hi as <-. cbn [position]. now rewrite N.eqb_refl.
  - cbn [nth_error] in Hi. cbn [map] in Hnd. apply NoDup_cons_iff in Hnd.
    destruct Hnd as [Hnotin Hnd]. cbn [position].
    destruct (N.eqb_spec (ip_registry.id r0) (ip_registry.id r)) as [E | _].
    + exfalso. apply Hnotin. rewrite E. apply in_map.
      eapply nth_error_In; eassumption.
    + now rewrite (IH Hnd i r Hi).
Qed.

Lemma same_id_same_row rows x y :
  NoDup (map ip_registry.id rows) ->
  In x rows -> In y rows -> ip_registry.id x = ip_registry.id y -> x = y.
Proof.
  induction rows as [|r rows IH]; [intros _ []|].
  cbn [map]. intros Hnd Hx Hy E. apply NoDup_cons_iff in Hnd.
  destruct Hnd as [Hnotin Hnd].
  destruct Hx as [<- | Hx], Hy as [<- | Hy]; [reflexivity | | | now apply IH].
  - exfalso. apply Hnotin. rewrite E. now apply in_map.
  - exfalso. apply Hnotin. rewrite <- E. now apply in_map.
Qed.

Lemma insert_asc_sorted r rows : by_address rows -> by_address (insert_asc r rows).
Proof.
  unfold by_address. induction rows as [|r' rows IH]; intro Hs; simpl.
  - constructor; constructor.
  - apply StronglySorted_inv in Hs. destruct Hs as [Hs Hall].
    destruct (String.leb (ip_registry.ip_address r) (ip_registry.ip_address r')) eqn:E.
    + constructor; [now constructor|].
      constructor; [exact E|].
      rewrite Forall_forall in *. intros x Hx.
      eapply string_leb_trans; [exact E | apply Hall, Hx].
    + constructor; [now apply IH|].
      apply string_leb_total in E.
      rewrite Forall_forall in *. intros x Hx.
      apply (Permutation_in _ (insert_asc_perm r rows)) in Hx.
      destruct Hx as [<- | Hx]; [exact E | now apply Hall].
Qed.

Lemma index_on_ip_address_sorted rows : by_address (index_on_ip_address rows).
Proof.
  induction rows as [|r rows IH]; simpl.
  - constructor.
  - now apply insert_asc_sorted.
Qed.

Lemma loop_outcome_cases w t ip e :
  loop_outcome w t ip = Raise e ->
  lookup_outcome w t ip = Raise e
  \/ exists hostname,
       lookup_outcome w t ip = Ok hostname /\ probe_outcome w t ip = Raise e.
Proof.
  unfold loop_outcome.
  destruct (lookup_outcome w t ip) as [hostname | e0]; cbn [rbind].
  - destruct (probe_outcome w t ip) as [so | e1]; cbn [rbind]; [discriminate|].
    intros [= <-]. right. now exists hostname.
  - intros [= <-]. now left.
Qed.

Lemma loop_outcome_ok_inv w t ip hostname so :
  loop_outcome w t ip = Ok (hostname, so) ->
  lookup_outcome w t ip = Ok hostname /\ probe_outcome w t ip = Ok so.
Proof.
  unfold loop_outcome.
  destruct (lookup_outcome w t ip) as [h | e0]; cbn [rbind]; [|discriminate].
  destruct (probe_outcome w t ip) as [so' | e1]; cbn [rbind]; [|discriminate].
  now intros [= <- <-].
Qed.

Lemma map_untouched w t todo (rows : list ip_registry.Row) :
  map (fun x => match position (ip_registry.id x) todo with
                | Some i => if (i <? 0)%nat then probe_row w (t + i) x else x
                | None => x
                end) rows
  = rows.
Proof.
  rewrite <- (map_id rows) at 2. apply map_ext. intro x.
  now destruct (position (ip_registry.id x) todo).
Qed.

(** The loop over a snapshot [todo] whose ids are distinct: it stops
    after [k] rows; the rows of the table whose id is among the first
    [k] of the snapshot hold the outcome of their turn, the others are
    as they were. *)
Lemma ping_rows_by_position w :
  forall todo st res st',
    NoDup (map ip_registry.id todo) ->
    (forall x r,
        In x (table (store st)) -> In r todo ->
        ip_registry.id x = ip_registry.id r ->
        ip_registry.ip_address x = ip_registry.ip_address r) ->
    ping_rows w
      (map (fun r => (ip_registry.id r, ip_registry.ip_address r)) todo) st
    = (res, st') ->
    exists k : nat,
      ticks st' = (ticks st + k)%nat
      /\ table (store st')
         = map (fun x => match position (ip_registry.id x) todo with
                         | Some i =>
                             if (i <? k)%nat then probe_row w (ticks st + i) x else x
                         | None => x
                         end) (table (store st))
      /\ (forall i r,
            (i < k)%nat -> nth_error todo i = Some r ->
            exists out,
              loop_outcome w (ticks st + i) (ip_registry.ip_address r) = Ok out)
      /\ ((res = Ok tt /\ k = List.length todo)
          \/ exists e r,
               res = Raise e
               /\ nth_error todo k = Some r
               /\ loop_outcome w (ticks st + k) (ip_registry.ip_address r) = Raise e).
Proof.
  induction todo as [|r rest IH]; intros st res st' Hnd Hsame H.
  - injection H as <- <-. exists O. split; [lia|].
    split; [now rewrite map_id|].
    split; [intros i r0 Hi; lia | now left].
  - cbn [map] in H. rewrite ping_rows_cons, run_ping_by_ticks in H.
    cbn [map] in Hnd. apply NoDup_cons_iff in Hnd. destruct Hnd as [Hnotin Hnd].
    destruct (lookup_outcome w (ticks st) (ip_registry.ip_address r))
      as [hostname | e0] eqn:EL.
    2:{ injection H as <- <-. exists O. split; [lia|].
        split; [now rewrite map_untouched|].
        split; [intros i r0 Hi; lia|].
        right. exists e0, r. split; [reflexivity|]. split; [reflexivity|].
        rewrite Nat.add_0_r. unfold loop_outcome. now rewrite EL. }
    destruct (probe_outcome w (ticks st) (ip_registry.ip_address r))
      as [[status output] | e] eqn:EP.
    2:{ injection H as <- <-. exists O. split; [lia|].
        split; [now rewrite map_untouched|].
        split; [intros i r0 Hi; lia|].
        right. exists e, r. split; [reflexivity|]. split; [reflexivity|].
        rewrite Nat.add_0_r. unfold loop_outcome. now rewrite EL, EP. }
    cbn [fst snd] in H.
    assert (Hloop : loop_outcome w (ticks st) (ip_registry.ip_address r)
                    = Ok (hostname, (status, output)))
      by (unfold loop_outcome; now rewrite EL, EP).
    apply IH in H; [|exact Hnd|].
    + destruct H as (k & Hticks & Htable & Hok & Hres).
      cbn [ticks store table update_probe] in Hticks, Htable, Hok, Hres.
      exists (S k). split; [lia|]. split.
      { rewrite Htable, map_map. apply map_ext_in. intros x Hx. cbv beta.
        cbn [position].
        destruct (N.eqb_spec (ip_registry.id x) (ip_registry.id r)) as [E | NE].
        - rewrite E, N.eqb_refl.
          change (ip_registry.id (set_probe hostname (utc_isoformat w (ticks st))
                                    status output x))
            with (ip_registry.id x).
          rewrite E, (position_none _ _ Hnotin).
          change (0 <? S k)%nat with true. cbv iota.
          rewrite Nat.add_0_r. unfold probe_row.
          rewrite (Hsame x r Hx (or_introl eq_refl) E), Hloop. reflexivity.
        - assert (NE' : (ip_registry.id r =? ip_registry.id x) = false)
            by (apply N.eqb_neq; congruence).
          rewrite NE'.
          destruct (position (ip_registry.id x) rest) as [i|]; [|reflexivity].
          cbn [option_map]. change (S i <? S k)%nat with (i <? k)%nat.
          replace (ticks st + S i)%nat with (S (ticks st) + i)%nat by lia.
          reflexivity. }
      split.
      { intros [|i] r0 Hlt Hi; cbn [nth_error] in Hi.
        - injection Hi as <-. rewrite Nat.add_0_r. eexists. exact Hloop.
        - replace (ticks st + S i)%nat with (S (ticks st) + i)%nat by lia.
          apply (Hok i r0); [lia | exact Hi]. }
      destruct Hres as [[-> ->] | (e & r0 & -> & Hk & Hraise)].
      { now left. }
      { right. exists e, r0. split; [reflexivity|]. split; [exact Hk|].
        replace (ticks st + S k)%nat with (S (ticks st) + k)%nat by lia.
        exact Hraise. }
    + cbn [store table update_probe]. intros x r0 Hx Hr0 E.
      apply in_map_iff in Hx. destruct Hx as (x0 & <- & Hx0).
      assert (Hkeep : forall y,
                 ip_registry.id
                   (if ip_registry.id y =? ip_registry.id r
                    then set_probe hostname (utc_isoformat w (ticks st)) status output y
                    else y) = ip_registry.id y
                 /\ ip_registry.ip_address
                      (if ip_registry.id y =? ip_registry.id r
                       then set_probe hostname (utc_isoformat w (ticks st)) status output y
                       else y) = ip_registry.ip_address y).
      { intro y. now destruct (ip_registry.id y =? ip_registry.id r). }
      destruct (Hkeep x0) as [Hid Hip]. rewrite Hid in E. rewrite Hip.
      apply (Hsame x0 r0 Hx0 (or_intror Hr0) E).
Qed.

Lemma ping_cycle_by_position w st :
  NoDup (map ip_registry.id (table (store st))) ->
  exists k : nat,
    ticks (snd (ping_all_registered_ips w st)) = (ticks st + k)%nat
    /\ (forall i j r,
          nth_error (index_on_ip_address (table (store st))) i = Some r ->
          nth_error (table (store st)) j = Some r ->
          nth_error (table (store (snd (ping_all_registered_ips w st)))) j
          = Some (if (i <? k)%nat then probe_row w (ticks st + i) r else r))
    /\ (forall i r,
          (i < k)%nat ->
          nth_error (index_on_ip_address (table (store st))) i = Some r ->
          exists out,
            loop_outcome w (ticks st + i) (ip_registry.ip_address r) = Ok out)
    /\ ((fst (ping_all_registered_ips w st) = Ok tt
         /\ k = List.length (table (store st)))
        \/ exists e r,
             fst (ping_all_registered_ips w st) = Raise e
             /\ nth_error (index_on_ip_address (table (store st))) k = Some r
             /\ loop_outcome w (ticks st + k) (ip_registry.ip_address r) = Raise e).
Proof.
  intro Hnd. rewrite ping_all_unfold.
  pose proof (index_on_ip_address_perm (table (store st))) as Hperm.
  assert (Hnd' : NoDup (map ip_registry.id (index_on_ip_address (table (store st))))).
  { eapply Permutation_NoDup; [|exact Hnd].
    apply Permutation_map, Permutation_sym, Hperm. }
  destruct (ping_rows w _ st) as [res st'] eqn:E.
  apply (ping_rows_by_position w _ st res st' Hnd') in E.
  - destruct E as (k & Hticks & Htable & Hok & Hres).
    exists k. cbn [fst snd]. split; [exact Hticks|]. split.
    + intros i j r Hi Hj. rewrite Htable, nth_error_map, Hj. cbn [option_map].
      now rewrite (position_nth _ Hnd' i r Hi).
    + split; [exact Hok|].
      destruct Hres as [[-> ->] | Hres]; [|now right].
      left. split; [reflexivity|]. apply Permutation_length, Hperm.
  - intros x r Hx Hr Hid.
    apply (Permutation_in _ Hperm) in Hr.
    now rewrite (same_id_same_row _ x r Hnd Hx Hr Hid).
Qed.

(** X10 (a complete cycle): the records are probed in the order of the
    index on [ip_address], ascending address text, not in the order of
    registration.  When ids are unique and the cycle returns, the clock
    was read once per record, and the record that stands at position [i]
    of that order holds, at its own place in the table, the host name,
    status and output of its own turn, made and stamped at the moment
    [i] readings after the start. *)
Theorem ping_cycle_complete_by_position :
  forall w st st',
    NoDup (map ip_registry.id (table (store st))) ->
    ping_all_registered_ips w st = (Ok tt, st') ->
    let snapshot := index_on_ip_address (table (store st)) in
    ticks st' = (ticks st + List.length (table (store st)))%nat
    /\ Permutation snapshot (table (store st))
    /\ by_address snapshot
    /\ forall i j r,
         nth_error snapshot i = Some r ->
         nth_error (table (store st)) j = Some r ->
         exists hostname status output,
           lookup_outcome w (ticks st + i) (ip_registry.ip_address r) = Ok hostname
           /\ probe_outcome w (ticks st + i) (ip_registry.ip_address r)
              = Ok (status, output)
           /\ nth_error (table (store st')) j
              = Some (set_probe hostname (utc_isoformat w (ticks st + i))
                        status output r).
Proof.
  intros w st st' Hnd H snapshot.
  destruct (ping_cycle_by_position w st Hnd) as (k & Hticks & Hnth & Hok & Hres).
  rewrite H in *. cbn [fst snd] in *.
  destruct Hres as [[_ ->] | (e & r & Habs & _)]; [|discriminate].
  split; [exact Hticks|].
  split; [apply index_on_ip_address_perm|].
  split; [apply index_on_ip_address_sorted|].
  intros i j r Hi Hj.
  assert (Hlt : (i < List.length (table (store st)))%nat).
  { rewrite <- (Permutation_length (index_on_ip_address_perm (table (store st)))).
    apply nth_error_Some. fold snapshot. congruence. }
  destruct (Hok i r Hlt Hi) as [[hostname [status output]] Hout].
  destruct (loop_outcome_ok_inv _ _ _ _ _ Hout) as [HL HP].
  exists hostname, status, output. split; [exact HL|]. split; [exact HP|].
  rewrite (Hnth i j r Hi Hj).
  apply Nat.ltb_lt in Hlt. rewrite Hlt. unfold probe_row. now rewrite Hout.
Qed.

Lemma state_reversed_ids_unique :
  NoDup (map ip_registry.id (table (store state_reversed))).
Proof.
  simpl. repeat constructor; simpl; intuition discriminate.
Qed.

Lemma ping_cycle_complete_by_position_witness :
  map ip_registry.ip_address (table (store state_reversed)) = ["10.0.0.2"; "10.0.0.1"]
  /\ map ip_registry.last_ping_at
       (table (store (snd (ping_all_registered_ips world_reachable state_reversed))))
     = [Some (sample_clock 3); Some (sample_clock 2)].
Proof.
  split; [reflexivity|].
  pose proof (ping_cycle_complete_by_position world_reachable state_reversed
                (snd (ping_all_registered_ips world_reachable state_reversed))
                state_reversed_ids_unique eq_refl) as (_ & _ & _ & H).
  destruct (H 0%nat 1%nat _ eq_refl eq_refl) as (h1 & s1 & o1 & _ & _ & H1).
  destruct (H 1%nat 0%nat _ eq_refl eq_refl) as (h0 & s0 & o0 & _ & _ & H0).
  destruct (table (store (snd (ping_all_registered_ips world_reachable state_reversed))))
    as [|r0 [|r1 [|r2 rows]]] eqn:E; try discriminate E.
  cbn [nth_error] in H0, H1. injection H0 as ->. injection H1 as ->.
  reflexivity.
Defined.

(** X11 (a cycle cut short): when ids are unique and the cycle ends with
    an exception, that exception left [resolve_hostname] or [run_ping]
    in the turn of the record at some position [k] of the order of the
    index on [ip_address]; the [k] records before it in that order hold
    the outcome of their turns, that record and all after it in that
    order are as they were, wherever they stand in the table, and the
    clock was read [k] times. *)
Theorem ping_cycle_aborted_by_position :
  forall w st e st',
    NoDup (map ip_registry.id (table (store st))) ->
    ping_all_registered_ips w st = (Raise e, st') ->
    let snapshot := index_on_ip_address (table (store st)) in
    Permutation snapshot (table (store st))
    /\ by_address snapshot
    /\ exists (k : nat) r,
         nth_error snapshot k = Some r
         /\ (lookup_outcome w (ticks st + k) (ip_registry.ip_address r) = Raise e
             \/ exists hostname,
                  lookup_outcome w (ticks st + k) (ip_registry.ip_address r)
                  = Ok hostname
                  /\ probe_outcome w (ticks st + k) (ip_registry.ip_address r)
                     = Raise e)
         /\ ticks st' = (ticks st + k)%nat
         /\ forall i j r',
              nth_error snapshot i = Some r' ->
              nth_error (table (store st)) j = Some r' ->
              ((i < k)%nat ->
               nth_error (table (store st')) j = Some (probe_row w (ticks st + i) r')
               /\ exists out,
                    loop_outcome w (ticks st + i) (ip_registry.ip_address r') = Ok out)
              /\ ((k <= i)%nat -> nth_error (table (store st')) j = Some r').
Proof.
  intros w st e st' Hnd H snapshot.
  destruct (ping_cycle_by_position w st Hnd) as (k & Hticks & Hnth & Hok & Hres).
  rewrite H in *. cbn [fst snd] in *.
  destruct Hres as [[Habs _] | (e' & r & [= <-] & Hk & Hraise)]; [discriminate|].
  split; [apply index_on_ip_address_perm|].
  split; [apply index_on_ip_address_sorted|].
  exists k, r. split; [exact Hk|].
  split; [now apply loop_outcome_cases|]. split; [exact Hticks|].
  intros i j r' Hi Hj. rewrite (Hnth i j r' Hi Hj). split.
  - intro Hlt. split; [|now apply (Hok i r')].
    apply Nat.ltb_lt in Hlt. now rewrite Hlt.
  - intro Hle. apply Nat.ltb_ge in Hle. now rewrite Hle.
Qed.

Lemma state_scoped_ids_unique :
  NoDup (map ip_registry.id (table (store state_scoped))).
Proof.
  simpl. repeat constructor; simpl; intuition discriminate.
Qed.

Lemma ping_cycle_aborted_by_position_witness :
  map ip_registry.ip_address (table (store state_scoped)) = ["fe80::1%a..b"; "10.0.0.1"]
  /\ fst (ping_all_registered_ips world_empty_label state_scoped) = Raise UnicodeError
  /\ exists (k : nat) r,
       nth_error (index_on_ip_address (table (store state_scoped))) k = Some r
       /\ (lookup_outcome world_empty_label (ticks state_scoped + k)
             (ip_registry.ip_address r) = Raise UnicodeError
           \/ exists hostname,
                lookup_outcome world_empty_label (ticks state_scoped + k)
                  (ip_registry.ip_address r) = Ok hostname
                /\ probe_outcome world_empty_label (ticks state_scoped + k)
                     (ip_registry.ip_address r) = Raise UnicodeError).
Proof.
  split; [reflexivity|]. split; [reflexivity|].
  destruct (ping_cycle_aborted_by_position world_empty_label state_scoped
              UnicodeError (snd (ping_all_registered_ips world_empty_label state_scoped))
              state_scoped_ids_unique eq_refl)
    as (_ & _ & k & r & Hk & Hraise & _).
  exists k, r. split; [exact Hk | exact Hraise].
Defined.

(** ** The segments on offer *)

Lemma string_lt_trans a b c :
  String.compare a b = Lt -> String.compare b c = Lt -> String.compare a c = Lt.
Proof.
  revert b c.
  induction a as [|x a IH]; intros [|y b] [|z c]; simpl; try congruence.
  unfold Ascii.compare.
  destruct (N.compare_spec (N_of_ascii x) (N_of_ascii y)) as [Exy | Lxy | Gxy];
    destruct (N.compare_spec (N_of_ascii y) (N_of_ascii z)) as [Eyz | Lyz | Gyz];
    destruct (N.compare_spec (N_of_ascii x) (N_of_ascii z)) as [Exz | Lxz | Gxz];
    try congruence; try lia.
  apply IH.
Qed.

Lemma string_ltb_iff a b : String.ltb a b = true <-> String.compare a b = Lt.
Proof. unfold String.ltb. destruct (String.compare a b); split; congruence. Qed.

Lemma insert_distinct_In x s sorted :
  In s (insert_distinct x sorted) <-> s = x \/ In s sorted.
Proof.
  induction sorted as [|y rest IH]; simpl.
  - intuition.
  - destruct (String.compare x y) eqn:E; simpl.
    + apply String.compare_eq_iff in E. subst. intuition.
    + intuition.
    + rewrite IH. intuition.
Qed.

Lemma insert_distinct_sorted x sorted :
  StronglySorted (fun a b => String.ltb a b = true) sorted ->
  StronglySorted (fun a b => String.ltb a b = true) (insert_distinct x sorted).
Proof.
  induction sorted as [|y rest IH]; intro Hs; simpl.
  - constructor; constructor.
  - apply StronglySorted_inv in Hs. destruct Hs as [Hs Hall].
    destruct (String.compare x y) eqn:E.
    + now constructor.
    + constructor; [now constructor|].
      constructor; [now apply string_ltb_iff|].
      rewrite Forall_forall in *. intros z Hz.
      apply string_ltb_iff. apply (string_lt_trans x y z E).
      now apply string_ltb_iff, Hall.
    + constructor; [now apply IH|].
      rewrite Forall_forall in *. intros z Hz.
      apply insert_distinct_In in Hz. destruct Hz as [-> | Hz]; [|now apply Hall].
      apply string_ltb_iff. rewrite String.compare_antisym, E. reflexivity.
Qed.

Lemma sorted_set_In s xs : In s (sorted_set xs) <-> In s xs.
Proof.
  induction xs as [|x xs IH]; simpl; [tauto|].
  rewrite insert_distinct_In, IH. intuition.
Qed.

Lemma sorted_set_sorted xs :
  StronglySorted (fun a b => String.ltb a b = true) (sorted_set xs).
Proof.
  induction xs as [|x xs IH]; simpl; [constructor | now apply insert_distinct_sorted].
Qed.

Lemma segments_of_valid rows :
  Forall (fun r => exists a, ipaddress.ip_address (ip_registry.ip_address r) = Ok a)
    rows ->
  exists segments,
    segments_of rows = Ok segments
    /\ forall s,
         In s segments
         <-> exists r, In r rows /\ infer_segment_24 (ip_registry.ip_address r) = Ok s.
Proof.
  induction 1 as [|r rows [a Ha] _ (segments & Hseg & Hin)].
  - exists []. split; [reflexivity|]. intro s. simpl. split; [tauto|].
    now intros (r & [] & _).
  - destruct (infer_segment_24_total _ _ Ha) as [seg Hr].
    exists (seg :: segments). split.
    + cbn [segments_of]. rewrite Hr. cbn [rbind]. rewrite Hseg. reflexivity.
    + intro s. simpl. rewrite Hin. split.
      * intros [<- | (r' & Hr' & Hs)]; [exists r | exists r']; auto.
      * intros (r' & [<- | Hr'] & Hs); [left; congruence | right; now exists r'].
Qed.

(** X12 ([get_available_segments]): on a store whose addresses are valid
    the call does not raise; the list it returns is in strictly ascending
    order, so without repetition, and holds exactly the segments that
    [infer_segment_24] gives for the stored addresses. *)
Theorem get_available_segments_spec :
  forall st,
    addresses_valid (store st) ->
    exists segments,
      get_available_segments st = (Ok segments, st)
      /\ StronglySorted (fun a b => String.ltb a b = true) segments
      /\ forall s,
           In s segments
           <-> exists r,
                 In r (table (store st))
                 /\ infer_segment_24 (ip_registry.ip_address r) = Ok s.
Proof.
  intros st Hvalid.
  destruct (segments_of_valid _ Hvalid) as (segments & Hseg & Hin).
  exists (sorted_set segments).
  unfold get_available_segments, bind, get_store, lift. rewrite Hseg.
  split; [reflexivity|]. split; [apply sorted_set_sorted|].
  intro s. now rewrite sorted_set_In, Hin.
Qed.

Lemma get_available_segments_spec_witness :
  exists segments,
    get_available_segments state_segments = (Ok segments, state_segments)
    /\ segments = ["192.168.56.0/24"; "192.168.59.0/24"; "IPv6"].
Proof.
  assert (Hvalid : addresses_valid (store state_segments)).
  { repeat constructor; eexists; vm_compute; reflexivity. }
  destruct (get_available_segments_spec state_segments Hvalid)
    as (segments & Hget & _).
  exists segments. split; [exact Hget|].
  vm_compute in Hget. now injection Hget as <-.
Defined.

(** ** Segments as filters *)

Lemma parse_octet_str_N v : v <= 255 -> ipaddress.parse_octet (Py.str_N v) = Some v.
Proof.
  intro Hv.
  assert (Hall : forallb
                   (fun n => match ipaddress.parse_octet (Py.str_N (N.of_nat n)) with
                             | Some m => m =? N.of_nat n
                             | None => false
                             end) (seq 0 256) = true) by (vm_compute; reflexivity).
  rewrite forallb_forall in Hall.
  specialize (Hall (N.to_nat v)). rewrite N2Nat.id in Hall.
  assert (Hin : In (N.to_nat v) (seq 0 256)) by (apply in_seq; lia).
  specialize (Hall Hin).
  destruct (ipaddress.parse_octet (Py.str_N v)) as [m|]; [|discriminate].
  apply N.eqb_eq in Hall. now subst.
Qed.

Lemma str_N_no_sep v :
  Py.contains "." (Py.str_N v) = false /\ Py.contains "/" (Py.str_N v) = false.
Proof.
  destruct (str_N_facts v) as (_ & Hdec & _). now apply decimal_contains_none.
Qed.

Lemma IPv4Address_dotted v0 v1 v2 v3 :
  v0 <= 255 -> v1 <= 255 -> v2 <= 255 -> v3 <= 255 ->
  ipaddress.IPv4Address
    (Py.str_N v0 ++ "." ++ Py.str_N v1 ++ "." ++ Py.str_N v2 ++ "." ++ Py.str_N v3)
  = Some (((v0 * 256 + v1) * 256 + v2) * 256 + v3).
Proof.
  intros H0 H1 H2 H3.
  destruct (str_N_no_sep v0) as [D0 S0]. destruct (str_N_no_sep v1) as [D1 S1].
  destruct (str_N_no_sep v2) as [D2 S2]. destruct (str_N_no_sep v3) as [D3 S3].
  unfold ipaddress.IPv4Address.
  assert (Hslash : Py.contains "/"
            (Py.str_N v0 ++ "." ++ Py.str_N v1 ++ "." ++ Py.str_N v2 ++ "."
             ++ Py.str_N v3) = false).
  { repeat (rewrite contains_app; cbn [Py.contains Ascii.eqb Bool.eqb orb andb]).
    now rewrite S0, S1, S2, S3. }
  rewrite Hslash. unfold ipaddress.v4_ip_int_from_string.
  assert (Ht : Py.truthy
            (Py.str_N v0 ++ "." ++ Py.str_N v1 ++ "." ++ Py.str_N v2 ++ "."
             ++ Py.str_N v3) = true).
  { apply truthy_true_iff. destruct (str_N_facts v0) as (Hne & _).
    destruct (Py.str_N v0); [congruence | discriminate]. }
  rewrite Ht. cbn [negb].
  change (Py.str_N v0 ++ "." ++ Py.str_N v1 ++ "." ++ Py.str_N v2 ++ "." ++ Py.str_N v3)
    with (Py.str_N v0
          ++ String "." (Py.str_N v1 ++ String "." (Py.str_N v2 ++ String "." (Py.str_N v3)))).
  rewrite !split_app_sep by assumption.
  rewrite (split_no_sep "." _ D3).
  cbn [List.length Nat.eqb negb ipaddress.mapM].
  rewrite !parse_octet_str_N by assumption.
  reflexivity.
Qed.

Lemma segment_text_split v0 v1 v2 :
  segment_text v0 v1 v2
  = (Py.str_N v0 ++ "." ++ Py.str_N v1 ++ "." ++ Py.str_N v2 ++ "." ++ Py.str_N 0)
    ++ "/24".
Proof.
  unfold segment_text. rewrite !append_assoc. reflexivity.
Qed.

Lemma segment_text_strip v0 v1 v2 :
  Py.strip (segment_text v0 v1 v2) = segment_text v0 v1 v2.
Proof.
  rewrite segment_text_split.
  destruct (str_N_facts v0) as (Hne & Hdec & _).
  destruct (Py.str_N v0) as [|c s] eqn:E; [congruence|].
  simpl in Hdec. apply andb_true_iff in Hdec. destruct Hdec as [Hc _].
  destruct (isdecimal_not_sign c Hc) as (_ & _ & _ & _ & _ & Hsp).
  unfold Py.strip. cbn [append Py.lstrip]. rewrite Hsp.
  apply (rstrip_app_fixed
           (String c (s ++ "." ++ Py.str_N v1 ++ "." ++ Py.str_N v2 ++ "." ++ Py.str_N 0))
           "/24"); [discriminate | reflexivity].
Qed.

Lemma segment_text_facts v0 v1 v2 :
  segment_text v0 v1 v2 <> ""
  /\ Py.contains "." (segment_text v0 v1 v2) = true
  /\ Py.startswith "THIRD_OCTET:" (segment_text v0 v1 v2) = false
  /\ segment_text v0 v1 v2 <> "IPv6".
Proof.
  assert (Hdot : Py.contains "." (segment_text v0 v1 v2) = true).
  { unfold segment_text. rewrite contains_app. simpl. apply orb_true_r. }
  destruct (str_N_facts v0) as (Hne & Hdec & _).
  unfold segment_text in *.
  destruct (Py.str_N v0) as [|c s] eqn:E; [congruence|].
  simpl in Hdec. apply andb_true_iff in Hdec. destruct Hdec as [Hc _].
  split; [discriminate|]. split; [exact Hdot|]. split.
  - unfold Py.startswith. cbn [append String.prefix].
    destruct (Ascii.ascii_dec "T" c) as [<- | _]; [discriminate Hc | reflexivity].
  - intro Habs. rewrite Habs in Hdot. discriminate.
Qed.

Lemma normalize_segment_text v0 v1 v2 :
  v0 <= 255 -> v1 <= 255 -> v2 <= 255 ->
  normalize_segment_filter (Some (segment_text v0 v1 v2))
  = Ok (Some (segment_text v0 v1 v2)).
Proof.
  intros H0 H1 H2.
  assert (H3 : 0 <= 255) by lia.
  pose proof (IPv4Address_dotted v0 v1 v2 0 H0 H1 H2 H3) as Haddr.
  pose proof (IPv4Network_slash24 _ _ Haddr) as Hnet.
  rewrite <- segment_text_split in Hnet.
  pose proof (infer_segment_24_v4 _ _ Haddr) as Hinf1.
  pose proof (infer_segment_24_octets _ _ v0 v1 v2 0 Haddr H0 H1 H2 H3 eq_refl) as Hinf2.
  rewrite Hinf1 in Hinf2. injection Hinf2 as Hstr.
  destruct (segment_text_facts v0 v1 v2) as (Hne & Hdot & _).
  rewrite normalize_segment_filter_some. cbv zeta.
  rewrite segment_text_strip.
  apply truthy_true_iff in Hne. rewrite Hne, Hdot, andb_false_r.
  cbn [negb]. cbv iota.
  rewrite (cidr_filter_v4_24 _ _ Hnet). do 2 f_equal. exact Hstr.
Qed.

Lemma segment_of_v4 ip a :
  ipaddress.IPv4Address ip = Some a ->
  exists v0 v1 v2,
    v0 <= 255 /\ v1 <= 255 /\ v2 <= 255
    /\ third_octet a = v2
    /\ infer_segment_24 ip = Ok (segment_text v0 v1 v2).
Proof.
  intro H.
  destruct (IPv4Address_inv _ _ H)
    as (_ & o0 & o1 & o2 & o3 & v0 & v1 & v2 & v3 & Hs & P0 & P1 & P2 & P3 & Ha).
  destruct (parse_octet_facts _ _ P0) as (_ & _ & _ & B0).
  destruct (parse_octet_facts _ _ P1) as (_ & _ & _ & B1).
  destruct (parse_octet_facts _ _ P2) as (_ & _ & _ & B2).
  destruct (parse_octet_facts _ _ P3) as (_ & _ & _ & B3).
  exists v0, v1, v2. repeat (split; [assumption|]).
  split.
  - destruct (packed_octets v0 v1 v2 v3 B0 B1 B2 B3) as (_ & _ & _ & _ & E).
    subst a. exact E.
  - exact (infer_segment_24_octets ip a v0 v1 v2 v3 H B0 B1 B2 B3 Ha).
Qed.

(** X13 (a segment as a filter): the segment that [infer_segment_24]
    computes for a version 4 address is a text that
    [normalize_segment_filter] returns unchanged, so a segment offered by
    [get_available_segments] can be given back as a filter; the marker
    "IPv6", computed for a version 6 address, is not a filter: it
    normalizes to null. *)
Theorem segment_normalizes_to_itself :
  forall ip x segment,
    ipaddress.ip_address ip = Ok x ->
    infer_segment_24 ip = Ok segment ->
    normalize_segment_filter (Some segment)
    = Ok (if ipaddress.version x =? 4 then Some segment else None).
Proof.
  intros ip x segment Hx Hseg. unfold ipaddress.ip_address in Hx.
  destruct (ipaddress.IPv4Address ip) as [a|] eqn:E4.
  - injection Hx as <-. simpl.
    destruct (segment_of_v4 ip a E4) as (v0 & v1 & v2 & B0 & B1 & B2 & _ & Hinf).
    rewrite Hinf in Hseg. injection Hseg as <-.
    now apply normalize_segment_text.
  - destruct (ipaddress.IPv6Address ip) as [[n sc]|] eqn:E6; [|discriminate].
    injection Hx as <-.
    rewrite (infer_segment_24_v6 _ _ E4 E6) in Hseg. injection Hseg as <-.
    reflexivity.
Qed.

Lemma segment_normalizes_to_itself_witness :
  normalize_segment_filter (Some "192.168.56.0/24") = Ok (Some "192.168.56.0/24")
  /\ normalize_segment_filter (Some "IPv6") = Ok None.
Proof.
  split.
  - exact (segment_normalizes_to_itself "192.168.56.10" (ipaddress.V4 3232249866)
             "192.168.56.0/24" eq_refl eq_refl).
  - exact (segment_normalizes_to_itself "::1" (ipaddress.V6 1 None) "IPv6"
             eq_refl eq_refl).
Defined.

(** ** What [normalize_segment_filter] can return *)

Lemma cidr_filter_inv v res :
  cidr_filter v = res ->
  res = Ok None
  \/ exists a, ipaddress.IPv4Network v = Some (a, 24)
               /\ res = Ok (Some (ipaddress.v4_string_from_ip_int a ++ "/24")).
Proof.
  intros <-. unfold cidr_filter, ipaddress.ip_network.
  destruct (ipaddress.IPv4Network v) as [[a p]|] eqn:E4.
  - cbn [ipaddress.net_version ipaddress.net_prefixlen].
    change (4 =? 4) with true. cbn [andb].
    destruct (N.eqb_spec p 24) as [-> | _]; [|now left].
    right. exists a. split; reflexivity.
  - left. destruct (ipaddress.IPv6Network v) as [[[a sc] p]|]; reflexivity.
Qed.

Lemma Some_string_inj (x y : string) : Some x = Some y -> x = y.
Proof. intros [= ->]. reflexivity. Qed.

Lemma Ok_Some_inj (x y : string) : @Ok (option string) (Some x) = Ok (Some y) -> x = y.
Proof. intros [= ->]. reflexivity. Qed.

Lemma IPv4Network_24_text v a :
  ipaddress.IPv4Network v = Some (a, 24) ->
  exists v0 v1 v2,
    v0 <= 255 /\ v1 <= 255 /\ v2 <= 255
    /\ ipaddress.v4_string_from_ip_int a ++ "/24" = segment_text v0 v1 v2.
Proof.
  unfold ipaddress.IPv4Network.
  destruct (ipaddress.split_addr_prefix v) as [[addr mask]|]; [|discriminate].
  destruct (ipaddress.IPv4Address addr) as [packed|] eqn:Ha; [|discriminate].
  assert (Hmask : forall netmask,
             match mask with
             | Some m => ipaddress.v4_make_netmask m
             | None => Some (ipaddress.v4_ip_int_from_prefix 32, 32)
             end = Some (netmask, 24) -> netmask = 4294967040).
  { intros netmask. destruct mask as [m|]; [|discriminate].
    unfold ipaddress.v4_make_netmask.
    destruct (match ipaddress.prefix_from_prefix_string 32 m with
              | Some p => Some p
              | None => ipaddress.prefix_from_ip_string m
              end) as [p|]; [|discriminate].
    simpl. intros [= <- ->]. reflexivity. }
  destruct (match mask with
            | Some m => ipaddress.v4_make_netmask m
            | None => Some (ipaddress.v4_ip_int_from_prefix 32, 32)
            end) as [[netmask p]|] eqn:Em; [|discriminate].
  intros [= <- ->]. rewrite (Hmask netmask eq_refl).
  destruct (IPv4Address_inv _ _ Ha)
    as (_ & o0 & o1 & o2 & o3 & v0 & v1 & v2 & v3 & _ & P0 & P1 & P2 & P3 & Hp).
  destruct (parse_octet_facts _ _ P0) as (_ & _ & _ & B0).
  destruct (parse_octet_facts _ _ P1) as (_ & _ & _ & B1).
  destruct (parse_octet_facts _ _ P2) as (_ & _ & _ & B2).
  destruct (parse_octet_facts _ _ P3) as (_ & _ & _ & B3).
  exists v0, v1, v2. repeat (split; [assumption|]).
  pose proof (infer_segment_24_v4 _ _ Ha) as H1.
  pose proof (infer_segment_24_octets _ _ v0 v1 v2 v3 Ha B0 B1 B2 B3 Hp) as H2.
  rewrite H1 in H2. injection H2 as H2. exact H2.
Qed.

Lemma str_Z_nonneg z : (0 <= z)%Z -> Py.str_Z z = Py.str_N (Z.to_N z).
Proof.
  intro H. rewrite <- (str_Z_of_N (Z.to_N z)). now rewrite Z2N.id.
Qed.

Lemma normalize_segment_filter_range raw f :
  normalize_segment_filter (Some raw) = Ok (Some f) ->
  (exists n, n <= 255 /\ f = "THIRD_OCTET:" ++ Py.str_N n)
  \/ (exists v0 v1 v2,
        v0 <= 255 /\ v1 <= 255 /\ v2 <= 255 /\ f = segment_text v0 v1 v2).
Proof.
  rewrite normalize_segment_filter_some. cbv zeta.
  assert (Hcidr : cidr_filter (Py.strip raw) = Ok (Some f) ->
             exists v0 v1 v2,
               v0 <= 255 /\ v1 <= 255 /\ v2 <= 255 /\ f = segment_text v0 v1 v2).
  { intro H. apply cidr_filter_inv in H.
    destruct H as [H | (a & Hnet & H)]; [discriminate|].
    apply Ok_Some_inj in H.
    destruct (IPv4Network_24_text _ _ Hnet) as (v0 & v1 & v2 & B0 & B1 & B2 & E).
    exists v0, v1, v2. repeat (split; [assumption|]). now rewrite H. }
  destruct (Py.truthy (Py.strip raw)); [|discriminate]. cbn [negb]. cbv iota.
  destruct (Py.endswith "/24" (Py.strip raw) && negb (Py.contains "." (Py.strip raw)));
    [|intro H; right; now apply Hcidr].
  destruct (Py.getitem (Py.split "/" (Py.strip raw)) 0) as [octet|e]; [|discriminate].
  cbn [rbind].
  destruct (Py.isdigit octet); [|intro H; right; now apply Hcidr].
  destruct (Py.int octet) as [z|e]; [|discriminate]. cbn [rbind].
  destruct ((0 <=? z)%Z && (z <=? 255)%Z) eqn:Hz; [|intro H; right; now apply Hcidr].
  apply andb_true_iff in Hz. destruct Hz as [Hz0 Hz1].
  apply Z.leb_le in Hz0. apply Z.leb_le in Hz1.
  intros [= <-]. left. exists (Z.to_N z). split; [lia|].
  now rewrite str_Z_nonneg.
Qed.

Lemma token_not_network n :
  Py.strip ("THIRD_OCTET:" ++ Py.str_N n) = "THIRD_OCTET:" ++ Py.str_N n
  /\ Py.contains "." ("THIRD_OCTET:" ++ Py.str_N n) = false
  /\ Py.endswith "/24" ("THIRD_OCTET:" ++ Py.str_N n) = false.
Proof.
  destruct (str_N_facts n) as (Hne & Hdec & _).
  destruct (str_N_no_sep n) as [Hdot Hslash].
  split; [|split].
  - unfold Py.strip.
    change (Py.lstrip ("THIRD_OCTET:" ++ Py.str_N n)) with ("THIRD_OCTET:" ++ Py.str_N n).
    apply rstrip_app_fixed; [exact Hne|].
    now apply rstrip_no_space, decimal_no_space.
  - rewrite contains_app. now rewrite Hdot.
  - destruct (Py.endswith "/24" ("THIRD_OCTET:" ++ Py.str_N n)) eqn:E; [|reflexivity].
    exfalso.
    assert (Hc : forall s, Py.endswith "/24" s = true -> Py.contains "/" s = true).
    { induction s as [|c s IH]; simpl.
      - discriminate.
      - intro H. apply orb_true_iff in H. destruct H as [H | H].
        + change (String.eqb (String c s) "/24" = true) in H.
          apply String.eqb_eq in H. injection H as -> ->. reflexivity.
        + rewrite (IH H). apply orb_true_r. }
    apply Hc in E. rewrite contains_app in E. rewrite Hslash in E. discriminate E.
Qed.

(** X14 (the results of [normalize_segment_filter]): a filter that is
    returned is either a token THIRD_OCTET:n with n at most 255 or the
    text a.b.c.0/24 of a /24 network with octets at most 255; given back
    to [normalize_segment_filter], a network text is returned as it is
    and a token is read as no filter. *)
Theorem normalize_segment_filter_results :
  forall raw f,
    normalize_segment_filter (Some raw) = Ok (Some f) ->
    ((exists n, n <= 255 /\ f = "THIRD_OCTET:" ++ Py.str_N n)
     \/ exists v0 v1 v2,
          v0 <= 255 /\ v1 <= 255 /\ v2 <= 255 /\ f = segment_text v0 v1 v2)
    /\ normalize_segment_filter (Some f)
       = Ok (if Py.startswith "THIRD_OCTET:" f then None else Some f).
Proof.
  intros raw f H. pose proof (normalize_segment_filter_range raw f H) as Hr.
  split; [exact Hr|].
  destruct Hr as [(n & Hn & ->) | (v0 & v1 & v2 & B0 & B1 & B2 & ->)].
  - rewrite startswith_app.
    destruct (token_not_network n) as (Hs & Hdot & Hend).
    rewrite normalize_segment_filter_some. cbv zeta. rewrite Hs, Hend.
    assert (Ht : Py.truthy ("THIRD_OCTET:" ++ Py.str_N n) = true) by reflexivity.
    rewrite Ht. cbn [negb andb]. cbv iota.
    apply cidr_filter_none. intros a Ha.
    apply IPv4Network_contains_dot in Ha. congruence.
  - destruct (segment_text_facts v0 v1 v2) as (_ & _ & Hpre & _).
    rewrite Hpre. now apply normalize_segment_text.
Qed.

Lemma normalize_segment_filter_results_witness :
  normalize_segment_filter (Some "THIRD_OCTET:56") = Ok None
  /\ normalize_segment_filter (Some "10.1.2.0/24") = Ok (Some "10.1.2.0/24").
Proof.
  split.
  - exact (proj2 (normalize_segment_filter_results " 056/24" "THIRD_OCTET:56" eq_refl)).
  - exact (proj2 (normalize_segment_filter_results "10.1.2.77/255.255.255.0"
                    "10.1.2.0/24" eq_refl)).
Defined.

(** ** Listing under a normalized filter *)

Lemma segment_text_parts v0 v1 v2 :
  Py.split "." (segment_text v0 v1 v2) = [Py.str_N v0; Py.str_N v1; Py.str_N v2; "0/24"].
Proof.
  destruct (str_N_no_sep v0) as [D0 _]. destruct (str_N_no_sep v1) as [D1 _].
  destruct (str_N_no_sep v2) as [D2 _].
  unfold segment_text.
  change (Py.str_N v0 ++ "." ++ Py.str_N v1 ++ "." ++ Py.str_N v2 ++ ".0/24")
    with (Py.str_N v0
          ++ String "." (Py.str_N v1 ++ String "." (Py.str_N v2 ++ String "." "0/24"))).
  rewrite !split_app_sep by assumption. reflexivity.
Qed.

Lemma str_N_inj a b : Py.str_N a = Py.str_N b -> a = b.
Proof.
  intro H. destruct (str_N_facts a) as (_ & _ & Ha).
  destruct (str_N_facts b) as (_ & _ & Hb). rewrite H in Ha. congruence.
Qed.

Lemma segment_text_inj w0 w1 w2 v0 v1 v2 :
  segment_text w0 w1 w2 = segment_text v0 v1 v2 -> w0 = v0 /\ w1 = v1 /\ w2 = v2.
Proof.
  intro H. apply (f_equal (Py.split ".")) in H.
  rewrite !segment_text_parts in H. injection H as H0 H1 H2.
  repeat split; now apply str_N_inj.
Qed.

Lemma has_segment_third_octet v0 v1 v2 row :
  has_segment (segment_text v0 v1 v2) row = true -> has_third_octet v2 row = true.
Proof.
  unfold has_segment, has_third_octet.
  destruct (ipaddress.IPv4Address (ip_registry.ip_address row)) as [a|] eqn:E4.
  - destruct (segment_of_v4 _ _ E4) as (w0 & w1 & w2 & _ & _ & _ & Ht & Hinf).
    rewrite Hinf. intro H. apply String.eqb_eq in H.
    apply segment_text_inj in H. destruct H as (_ & _ & H).
    rewrite Ht, H. apply N.eqb_refl.
  - destruct (ipaddress.IPv6Address (ip_registry.ip_address row)) as [x|] eqn:E6.
    + rewrite (infer_segment_24_v6 _ _ E4 E6). intro H. apply String.eqb_eq in H.
      destruct (segment_text_facts v0 v1 v2) as (_ & _ & _ & Hne). congruence.
    + unfold infer_segment_24, ipaddress.ip_address. rewrite E4, E6. discriminate.
Qed.

Lemma listed_functional row d d' : listed row d -> listed row d' -> d = d'.
Proof. intros (s & Hs & ->) (s' & Hs' & ->). congruence. Qed.

Lemma Forall2_In_right {A B : Type} (R : A -> B -> Prop) xs ys y :
  Forall2 R xs ys -> In y ys -> exists x, In x xs /\ R x y.
Proof.
  induction 1 as [|x0 y0 xs ys Hxy _ IH]; simpl; [tauto|].
  intros [<- | Hin]; [exists x0; auto|].
  destruct (IH Hin) as (x & Hx & Hr). exists x. auto.
Qed.

Lemma Forall2_In_left {A B : Type} (R : A -> B -> Prop) xs ys x :
  Forall2 R xs ys -> In x xs -> exists y, In y ys /\ R x y.
Proof.
  induction 1 as [|x0 y0 xs ys Hxy _ IH]; simpl; [tauto|].
  intros [<- | Hin]; [exists y0; auto|].
  destruct (IH Hin) as (y & Hy & Hr). exists y. auto.
Qed.

Lemma get_rows_third_octet st n :
  addresses_valid (store st) ->
  N.of_nat (String.length (Py.str_N n)) <= Py.INT_MAX_STR_DIGITS ->
  exists ds,
    get_rows (Some ("THIRD_OCTET:" ++ Py.str_N n)) st = (Ok ds, st)
    /\ Forall2 listed
         (filter (has_third_octet n) (order_by_created_at_desc (table (store st)))) ds.
Proof.
  intros Hvalid Hlen. pose proof (addresses_valid_sorted _ Hvalid) as Hsorted.
  destruct (render_rows_filter (Some ("THIRD_OCTET:" ++ Py.str_N n))
              (has_third_octet n) (order_by_created_at_desc (table (store st))))
    as (ds & Hds & Hall).
  - eapply Forall_impl; [|exact Hsorted].
    intros row [a Ha]. destruct (infer_segment_24_total _ _ Ha) as [seg Hseg].
    exists seg. split; [exact Hseg|]. now apply (keep_row_third_octet n row a).
  - exists ds. rewrite get_rows_unfold. now rewrite Hds.
Qed.

Lemma get_rows_segment st f :
  addresses_valid (store st) ->
  f <> "" ->
  Py.startswith "THIRD_OCTET:" f = false ->
  exists ds,
    get_rows (Some f) st = (Ok ds, st)
    /\ Forall2 listed
         (filter (has_segment f) (order_by_created_at_desc (table (store st)))) ds.
Proof.
  intros Hvalid Hne Hpre. pose proof (addresses_valid_sorted _ Hvalid) as Hsorted.
  destruct (render_rows_filter (Some f) (has_segment f)
              (order_by_created_at_desc (table (store st))))
    as (ds & Hds & Hall).
  - eapply Forall_impl; [|exact Hsorted].
    intros row [a Ha]. destruct (infer_segment_24_total _ _ Ha) as [seg Hseg].
    exists seg. split; [exact Hseg|]. now apply keep_row_cidr.
  - exists ds. rewrite get_rows_unfold. now rewrite Hds.
Qed.

Lemma get_rows_all st segment_filter :
  addresses_valid (store st) ->
  segment_filter = None \/ segment_filter = Some "" ->
  exists ds,
    get_rows segment_filter st = (Ok ds, st)
    /\ Forall2 listed (order_by_created_at_desc (table (store st))) ds.
Proof.
  intros Hvalid Hf. pose proof (addresses_valid_sorted _ Hvalid) as Hsorted.
  destruct (render_rows_filter segment_filter (fun _ => true)
              (order_by_created_at_desc (table (store st))))
    as (ds & Hds & Hall).
  - eapply Forall_impl; [|exact Hsorted].
    intros row [a Ha]. destruct (infer_segment_24_total _ _ Ha) as [seg Hseg].
    exists seg. split; [exact Hseg|]. destruct Hf as [-> | ->]; reflexivity.
  - exists ds. rewrite get_rows_unfold, Hds. split; [reflexivity|].
    assert (E : forall l : list ip_registry.Row, filter (fun _ => true) l = l).
    { induction l as [|r l IH]; simpl; [reflexivity | now rewrite IH]. }
    now rewrite E in Hall.
Qed.

Lemma order_by_created_at_desc_spec rows :
  newest_first (order_by_created_at_desc rows)
  /\ Permutation (order_by_created_at_desc rows) rows
  /\ forall c,
       filter (created_at_is c) (order_by_created_at_desc rows)
       = filter (created_at_is c) rows.
Proof.
  split; [apply order_by_created_at_desc_sorted|].
  split; [apply order_by_created_at_desc_perm|].
  intro c. apply order_by_created_at_desc_stable.
Qed.

(** X15 (normalize, then list): on a store whose addresses are valid,
    [get_rows] does not raise for any filter that
    [normalize_segment_filter] returns, whatever the raw text was.  The
    records come with the greatest [created_at] first, those created at
    the same moment in rowid order; of them it lists, in that order, all
    when the filter is null, those with third octet n for the token
    THIRD_OCTET:n, and those whose computed segment is the filter when
    the filter is the text of a network. *)
Theorem get_rows_of_normalized_filter :
  forall st raw f,
    addresses_valid (store st) ->
    normalize_segment_filter raw = Ok f ->
    exists ds keep sorted,
      get_rows f st = (Ok ds, st)
      /\ (newest_first sorted
          /\ Permutation sorted (table (store st))
          /\ forall c,
               filter (created_at_is c) sorted
               = filter (created_at_is c) (table (store st)))
      /\ Forall2 listed (filter keep sorted) ds
      /\ (f = None -> forall r, keep r = true)
      /\ (forall n, f = Some ("THIRD_OCTET:" ++ Py.str_N n) -> keep = has_third_octet n)
      /\ (forall v0 v1 v2,
            f = Some (segment_text v0 v1 v2) ->
            keep = has_segment (segment_text v0 v1 v2)).
Proof.
  intros st raw f Hvalid Hnorm.
  assert (Hall : forall l : list ip_registry.Row, filter (fun _ => true) l = l).
  { induction l as [|r l IH]; simpl; [reflexivity | now rewrite IH]. }
  assert (Hcase : f = None
                  \/ (exists n, n <= 255 /\ f = Some ("THIRD_OCTET:" ++ Py.str_N n))
                  \/ exists v0 v1 v2, f = Some (segment_text v0 v1 v2)).
  { destruct f as [f|]; [|now left]. right.
    destruct raw as [raw|]; [|discriminate].
    destruct (normalize_segment_filter_range raw f Hnorm)
      as [(n & Hn & ->) | (v0 & v1 & v2 & _ & _ & _ & ->)].
    - left. now exists n.
    - right. now exists v0, v1, v2. }
  pose proof (order_by_created_at_desc_spec (table (store st))) as Hord.
  destruct Hcase as [-> | [(n & Hn & ->) | (v0 & v1 & v2 & ->)]].
  - destruct (get_rows_all st None Hvalid (or_introl eq_refl)) as (ds & Hget & Hl).
    exists ds, (fun _ => true), (order_by_created_at_desc (table (store st))).
    rewrite Hall.
    split; [exact Hget|]. split; [exact Hord|]. split; [exact Hl|].
    repeat split; try assumption; try discriminate.
  - destruct (get_rows_third_octet st n Hvalid (str_N_short n Hn)) as (ds & Hget & Hl).
    exists ds, (has_third_octet n), (order_by_created_at_desc (table (store st))).
    split; [exact Hget|]. split; [exact Hord|]. split; [exact Hl|].
    split; [discriminate|]. split.
    + intros m [= E]. apply str_N_inj in E. now subst.
    + intros v0 v1 v2 E. apply Some_string_inj in E. exfalso.
      destruct (segment_text_facts v0 v1 v2) as (_ & _ & Hpre & _).
      rewrite <- E, startswith_app in Hpre. discriminate.
  - destruct (segment_text_facts v0 v1 v2) as (Hne & _ & Hpre & _).
    destruct (get_rows_segment st _ Hvalid Hne Hpre) as (ds & Hget & Hl).
    exists ds, (has_segment (segment_text v0 v1 v2)),
      (order_by_created_at_desc (table (store st))).
    split; [exact Hget|]. split; [exact Hord|]. split; [exact Hl|].
    split; [discriminate|]. split.
    + intros m E. apply Some_string_inj in E. exfalso.
      rewrite E, startswith_app in Hpre. discriminate.
    + intros w0 w1 w2 E. apply Some_string_inj in E. now rewrite E.
Qed.

Lemma state_segments_valid : addresses_valid (store state_segments).
Proof. repeat constructor; eexists; vm_compute; reflexivity. Qed.

Lemma get_rows_of_normalized_filter_witness :
  exists ds keep sorted,
    get_rows (Some "192.168.59.0/24") state_segments = (Ok ds, state_segments)
    /\ newest_first sorted
    /\ Forall2 listed (filter keep sorted) ds.
Proof.
  destruct (get_rows_of_normalized_filter state_segments
              (Some " 192.168.59.77/255.255.255.0 ") (Some "192.168.59.0/24")
              state_segments_valid eq_refl)
    as (ds & keep & sorted & Hget & (Hnew & _) & Hl & _).
  exists ds, keep, sorted. split; [exact Hget|]. split; [exact Hnew | exact Hl].
Defined.

(** X16 (two filter kinds): on a store whose addresses are valid, every
    entry that [get_rows] lists under the network filter a.b.c.0/24 is
    also listed under the token THIRD_OCTET:c, for every c written with
    no more digits than [int] converts (so for every octet). *)
Theorem cidr_listing_within_third_octet_listing :
  forall st v0 v1 v2,
    addresses_valid (store st) ->
    N.of_nat (String.length (Py.str_N v2)) <= Py.INT_MAX_STR_DIGITS ->
    exists ds_cidr ds_octet,
      get_rows (Some (segment_text v0 v1 v2)) st = (Ok ds_cidr, st)
      /\ get_rows (Some ("THIRD_OCTET:" ++ Py.str_N v2)) st = (Ok ds_octet, st)
      /\ incl ds_cidr ds_octet.
Proof.
  intros st v0 v1 v2 Hvalid Hlen.
  destruct (segment_text_facts v0 v1 v2) as (Hne & _ & Hpre & _).
  destruct (get_rows_segment st _ Hvalid Hne Hpre) as (ds1 & Hget1 & Hl1).
  destruct (get_rows_third_octet st v2 Hvalid Hlen) as (ds2 & Hget2 & Hl2).
  exists ds1, ds2. split; [exact Hget1|]. split; [exact Hget2|].
  intros d Hd.
  destruct (Forall2_In_right _ _ _ _ Hl1 Hd) as (r & Hr & Hlisted).
  apply filter_In in Hr. destruct Hr as [Hin Hseg].
  assert (Hr2 : In r (filter (has_third_octet v2)
                        (order_by_created_at_desc (table (store st))))).
  { apply filter_In. split; [exact Hin|]. now apply (has_segment_third_octet v0 v1). }
  destruct (Forall2_In_left _ _ _ _ Hl2 Hr2) as (d' & Hd' & Hlisted').
  now rewrite (listed_functional r d d' Hlisted Hlisted').
Qed.

Lemma cidr_listing_within_third_octet_listing_witness :
  exists ds_cidr ds_octet,
    get_rows (Some (segment_text 192 168 56)) state_segments = (Ok ds_cidr, state_segments)
    /\ get_rows (Some ("THIRD_OCTET:" ++ Py.str_N 56)) state_segments
       = (Ok ds_octet, state_segments)
    /\ incl ds_cidr ds_octet.
Proof.
  apply (cidr_listing_within_third_octet_listing state_segments 192 168 56
           state_segments_valid).
  vm_compute. discriminate.
Defined.

(** ** The validator at its edges *)

Lemma strip_between c body u :
  Py.isspace_char c = false -> u <> "" -> Py.rstrip u = u ->
  Py.strip (String c (body ++ u)) = String c (body ++ u).
Proof.
  intros Hc Hne Hu. unfold Py.strip. cbn [Py.lstrip]. rewrite Hc.
  apply (rstrip_app_fixed (String c body) u Hne Hu).
Qed.

Lemma dotted_strip v0 v1 v2 v3 :
  Py.strip (Py.str_N v0 ++ "." ++ Py.str_N v1 ++ "." ++ Py.str_N v2 ++ "." ++ Py.str_N v3)
  = Py.str_N v0 ++ "." ++ Py.str_N v1 ++ "." ++ Py.str_N v2 ++ "." ++ Py.str_N v3.
Proof.
  destruct (str_N_facts v0) as (Hne & Hdec & _).
  destruct (str_N_facts v3) as (Hne3 & Hdec3 & _).
  destruct (Py.str_N v0) as [|c s] eqn:E0; [congruence|].
  cbn [Py.forallb_str] in Hdec. apply andb_true_iff in Hdec. destruct Hdec as [Hc _].
  destruct (isdecimal_not_sign c Hc) as (_ & _ & _ & _ & _ & Hsp).
  assert (E : String c s ++ "." ++ Py.str_N v1 ++ "." ++ Py.str_N v2 ++ "."
              ++ Py.str_N v3
              = String c ((s ++ "." ++ Py.str_N v1 ++ "." ++ Py.str_N v2 ++ ".")
                          ++ Py.str_N v3)).
  { change (String c s ++ "." ++ Py.str_N v1 ++ "." ++ Py.str_N v2 ++ "." ++ Py.str_N v3)
      with (String c (s ++ "." ++ Py.str_N v1 ++ "." ++ Py.str_N v2 ++ "."
                      ++ Py.str_N v3)).
    f_equal. rewrite !append_assoc. reflexivity. }
  rewrite E. apply strip_between; [exact Hsp | exact Hne3 |].
  now apply rstrip_no_space, decimal_no_space.
Qed.

(** X17 ([is_valid_ip]): the answer depends only on the trimmed text; a
    text that is empty once trimmed or that holds a slash is refused, so
    no network text such as 10.0.0.0/24 is taken for an address; a text
    is accepted exactly when its trimmed form parses as a version 4 or
    as a version 6 address; and every dotted quad of four numbers up to
    255, written without leading zeros, is accepted. *)
Theorem is_valid_ip_edges :
  forall s,
    is_valid_ip (Py.strip s) = is_valid_ip s
    /\ (Py.strip s = "" -> is_valid_ip s = false)
    /\ (Py.contains "/" (Py.strip s) = true -> is_valid_ip s = false)
    /\ (is_valid_ip s = true <->
        (exists a, ipaddress.IPv4Address (Py.strip s) = Some a)
        \/ exists x, ipaddress.IPv6Address (Py.strip s) = Some x)
    /\ (forall v0 v1 v2 v3,
          v0 <= 255 -> v1 <= 255 -> v2 <= 255 -> v3 <= 255 ->
          is_valid_ip
            (Py.str_N v0 ++ "." ++ Py.str_N v1 ++ "." ++ Py.str_N v2 ++ "."
             ++ Py.str_N v3) = true).
Proof.
  intro s. split; [apply is_valid_ip_strip|].
  unfold is_valid_ip, ipaddress.ip_address.
  split; [|split; [|split]].
  - intros ->. reflexivity.
  - intro H. unfold ipaddress.IPv4Address, ipaddress.IPv6Address. now rewrite H.
  - destruct (ipaddress.IPv4Address (Py.strip s)) as [a|].
    + split; [intros _; left; now exists a | reflexivity].
    + destruct (ipaddress.IPv6Address (Py.strip s)) as [[n sc]|].
      * split; [intros _; right; now exists (n, sc) | reflexivity].
      * split; [discriminate | intros [[a H] | [x H]]; discriminate].
  - intros v0 v1 v2 v3 H0 H1 H2 H3.
    rewrite dotted_strip. now rewrite (IPv4Address_dotted v0 v1 v2 v3 H0 H1 H2 H3).
Qed.

Lemma is_valid_ip_edges_witness :
  is_valid_ip " 10.0.0.0/24 " = false
  /\ is_valid_ip (Py.str_N 192 ++ "." ++ Py.str_N 168 ++ "." ++ Py.str_N 0 ++ "."
                  ++ Py.str_N 255) = true.
Proof.
  split.
  - apply (proj1 (proj2 (proj2 (is_valid_ip_edges " 10.0.0.0/24 ")))). reflexivity.
  - apply (proj2 (proj2 (proj2 (proj2 (is_valid_ip_edges "")))) 192 168 0 255); lia.
Defined.

(** ** The order of the listing under writes *)

Lemma insert_desc_map (F : ip_registry.Row -> ip_registry.Row) r rows :
  (forall x, ip_registry.created_at (F x) = ip_registry.created_at x) ->
  insert_desc (F r) (map F rows) = map F (insert_desc r rows).
Proof.
  intro H. induction rows as [|r' rows IH]; simpl; [reflexivity|].
  rewrite !H. destruct (String.leb _ _); simpl; [reflexivity | now rewrite IH].
Qed.

Lemma order_by_created_at_desc_map (F : ip_registry.Row -> ip_registry.Row) rows :
  (forall x, ip_registry.created_at (F x) = ip_registry.created_at x) ->
  order_by_created_at_desc (map F rows) = map F (order_by_created_at_desc rows).
Proof.
  intro H. induction rows as [|r rows IH]; simpl; [reflexivity|].
  rewrite IH. now apply insert_desc_map.
Qed.

Lemma listed_addresses rows ds :
  Forall2 listed rows ds ->
  map (dict_get "ip_address") ds
  = map (fun r => Some (Some (ip_registry.ip_address r))) rows.
Proof.
  induction 1 as [|r d rows ds (seg & _ & ->) _ IH]; simpl; [reflexivity|].
  now rewrite IH.
Qed.

Lemma written_rows_listing (F : ip_registry.Row -> ip_registry.Row) st st' :
  table (store st') = map F (table (store st)) ->
  (forall r, row_key (F r) = row_key r) ->
  addresses_valid (store st) ->
  exists ds ds',
    get_rows None st = (Ok ds, st)
    /\ get_rows None st' = (Ok ds', st')
    /\ map (dict_get "ip_address") ds' = map (dict_get "ip_address") ds.
Proof.
  intros Htable Hkey Hvalid.
  assert (Hip : forall r, ip_registry.ip_address (F r) = ip_registry.ip_address r).
  { intro r. specialize (Hkey r). unfold row_key in Hkey. congruence. }
  assert (Hcreated : forall r, ip_registry.created_at (F r) = ip_registry.created_at r).
  { intro r. specialize (Hkey r). unfold row_key in Hkey. congruence. }
  assert (Hvalid' : addresses_valid (store st')).
  { unfold addresses_valid in *. rewrite Htable, Forall_map.
    eapply Forall_impl; [|exact Hvalid]. intros r Hr. now rewrite Hip. }
  destruct (get_rows_all st None Hvalid (or_introl eq_refl)) as (ds & Hget & Hl).
  destruct (get_rows_all st' None Hvalid' (or_introl eq_refl)) as (ds' & Hget' & Hl').
  exists ds, ds'. split; [exact Hget|]. split; [exact Hget'|].
  rewrite (listed_addresses _ _ Hl), (listed_addresses _ _ Hl').
  rewrite Htable, (order_by_created_at_desc_map F _ Hcreated), map_map.
  apply map_ext. intro r. now rewrite Hip.
Qed.

(** X18 (a stable listing): on a store whose addresses are valid, neither
    [update_host_details] nor a probe cycle, complete or cut short,
    changes which addresses the unfiltered [get_rows] lists or their
    order. *)
Theorem listing_order_kept_by_writes :
  forall w st,
    addresses_valid (store st) ->
    (forall ip hn ht loc nt al,
        exists ds ds',
          get_rows None st = (Ok ds, st)
          /\ get_rows None (snd (update_host_details ip hn ht loc nt al st))
             = (Ok ds', snd (update_host_details ip hn ht loc nt al st))
          /\ map (dict_get "ip_address") ds' = map (dict_get "ip_address") ds)
    /\ exists ds ds',
         get_rows None st = (Ok ds, st)
         /\ get_rows None (snd (ping_all_registered_ips w st))
            = (Ok ds', snd (ping_all_registered_ips w st))
         /\ map (dict_get "ip_address") ds' = map (dict_get "ip_address") ds.
Proof.
  intros w st Hvalid. split.
  - intros ip hn ht loc nt al.
    destruct (Py.truthy ht && negb (existsb (String.eqb ht) HOST_TYPE_OPTIONS)) eqn:G.
    + rewrite (update_host_details_rejected _ _ _ _ _ _ _ G). simpl snd.
      apply (written_rows_listing (fun r => r));
        [now rewrite map_id | reflexivity | exact Hvalid].
    + rewrite (update_host_details_accepted _ _ _ _ _ _ _ G).
      destruct (select_by_ip ip (store st)) as [found|]; simpl snd.
      * apply (written_rows_listing
                 (fun r => if String.eqb (ip_registry.ip_address r) ip
                           then set_details (strip_or_none al) (strip_or_none hn)
                                  (strip_or_none ht) (strip_or_none loc)
                                  (strip_or_none nt) r
                           else r)); [reflexivity | | exact Hvalid].
        intro r. now destruct (String.eqb (ip_registry.ip_address r) ip).
      * apply (written_rows_listing (fun r => r));
          [now rewrite map_id | reflexivity | exact Hvalid].
  - destruct (ping_cycle_writes w st) as (F & Htable & _ & HF).
    apply (written_rows_listing F); [exact Htable | | exact Hvalid].
    intro r. destruct (HF r) as [-> | Hp]; [reflexivity | now apply probe_written_key].
Qed.

Lemma listing_order_kept_by_writes_witness :
  exists ds ds',
    get_rows None state_segments = (Ok ds, state_segments)
    /\ get_rows None (snd (ping_all_registered_ips world_first_times_out state_segments))
       = (Ok ds', snd (ping_all_registered_ips world_first_times_out state_segments))
    /\ map (dict_get "ip_address") ds' = map (dict_get "ip_address") ds.
Proof.
  exact (proj2 (listing_order_kept_by_writes world_first_times_out state_segments
                  state_segments_valid)).
Defined.

(** ** The column migration *)

Lemma existsb_eqb_app c xs ys :
  existsb (String.eqb c) (xs ++ ys)
  = existsb (String.eqb c) xs || existsb (String.eqb c) ys.
Proof. apply existsb_app. Qed.

Lemma ensure_loop_spec current :
  forall missing added,
    NoDup (added ++ missing) ->
    (forall a b,
        In a (added ++ missing) -> In b (added ++ missing) -> a <> b ->
        same_column a b = false) ->
    ensure_loop current missing (current ++ added)
    = (if existsb (blocked current) missing then Raise OperationalError else Ok tt,
       (current ++ added
        ++ filter (fun c => negb (existsb (String.eqb c) current))
             (until_blocked current missing))%list).
Proof.
  induction missing as [|c rest IH]; intros added Hnd Hcase.
  - simpl. now rewrite app_nil_r.
  - cbn [ensure_loop existsb until_blocked]. unfold blocked at 1 3.
    destruct (existsb (String.eqb c) current) eqn:E; cbn [negb andb orb].
    + cbn [filter]. rewrite E. cbn [negb].
      replace (current ++ added ++ filter _ (until_blocked current rest))%list
        with (current ++ (added ++ []) ++
              filter (fun c => negb (existsb (String.eqb c) current))
                (until_blocked current rest))%list
        by (now rewrite app_nil_r).
      rewrite <- (app_nil_r added) at 1.
      apply IH.
      * rewrite app_nil_r. apply NoDup_remove_1 in Hnd. exact Hnd.
      * rewrite app_nil_r. intros a b Ha Hb. apply Hcase.
        -- apply in_app_iff in Ha. apply in_app_iff. simpl. tauto.
        -- apply in_app_iff in Hb. apply in_app_iff. simpl. tauto.
    + unfold add_column. rewrite existsb_app.
      assert (Hadded : existsb (same_column c) added = false).
      { destruct (existsb (same_column c) added) eqn:Ea; [|reflexivity].
        apply existsb_exists in Ea. destruct Ea as (a & Ha & Hsame).
        rewrite (Hcase c a) in Hsame; [discriminate | | |].
        - apply in_app_iff. right. now left.
        - apply in_app_iff. now left.
        - intros <-. apply NoDup_remove_2 in Hnd. apply Hnd.
          apply in_app_iff. now left. }
      rewrite Hadded, orb_false_r.
      destruct (existsb (same_column c) current) eqn:B.
      * cbn [filter]. now rewrite app_nil_r.
      * cbn [filter]. rewrite E. cbn [negb]. rewrite <- app_assoc.
        rewrite (IH (added ++ [c])%list).
        -- now rewrite <- !app_assoc.
        -- now rewrite <- app_assoc.
        -- rewrite <- app_assoc. exact Hcase.
Qed.

Lemma MIGRATED_COLUMNS_NoDup : NoDup MIGRATED_COLUMNS.
Proof. repeat constructor; simpl; intuition discriminate. Qed.

Lemma MIGRATED_COLUMNS_cases a b :
  In a MIGRATED_COLUMNS -> In b MIGRATED_COLUMNS -> a <> b -> same_column a b = false.
Proof.
  simpl. intros Ha Hb Hne.
  repeat (destruct Ha as [<- | Ha]; [|]); try contradiction;
    repeat (destruct Hb as [<- | Hb]; [|]); try contradiction;
    try reflexivity; congruence.
Qed.

Lemma _ensure_columns_unfold columns :
  _ensure_columns columns
  = (if existsb (blocked columns) MIGRATED_COLUMNS then Raise OperationalError else Ok tt,
     (columns
      ++ filter (fun c => negb (existsb (String.eqb c) columns))
           (until_blocked columns MIGRATED_COLUMNS))%list).
Proof.
  unfold _ensure_columns.
  rewrite <- (app_nil_r columns) at 2.
  rewrite (ensure_loop_spec columns MIGRATED_COLUMNS []);
    [reflexivity | exact MIGRATED_COLUMNS_NoDup | exact MIGRATED_COLUMNS_cases].
Qed.

Lemma until_blocked_all columns ms :
  existsb (blocked columns) ms = false -> until_blocked columns ms = ms.
Proof.
  induction ms as [|m ms IH]; [reflexivity|].
  cbn [existsb until_blocked]. intro H. apply orb_false_iff in H.
  destruct H as [-> H]. now rewrite IH.
Qed.

Lemma until_blocked_incl columns ms : incl (until_blocked columns ms) ms.
Proof.
  induction ms as [|m ms IH]; [intros x []|].
  cbn [until_blocked]. destruct (blocked columns m); [intros x []|].
  intros x [<- | Hx]; [now left | right; now apply IH].
Qed.

(** X19 ([_ensure_columns]): the migration runs into SQLite's
    duplicate-column error exactly when the table lacks one of
    host_name, host_type, location and notes but has a column that is
    that name up to the case of its letters; the columns added before
    the error stay.  Otherwise it keeps the columns the table has, in
    their order, and puts after them exactly the ones of the four that
    the table lacks; afterwards all four are there, and a second run
    changes nothing.  On a new file [init_db] gives the columns of its
    CREATE TABLE statement. *)
Theorem _ensure_columns_spec :
  forall columns,
    let missing :=
      filter (fun c => negb (existsb (String.eqb c) columns)) MIGRATED_COLUMNS in
    (existsb (blocked columns) MIGRATED_COLUMNS = false ->
     _ensure_columns columns = (Ok tt, (columns ++ missing)%list)
     /\ (forall c, In c MIGRATED_COLUMNS -> In c (columns ++ missing))
     /\ (forall c, In c (columns ++ missing) <-> In c columns \/ In c MIGRATED_COLUMNS)
     /\ (NoDup columns -> NoDup (columns ++ missing))
     /\ _ensure_columns (columns ++ missing) = (Ok tt, (columns ++ missing)%list)
     /\ init_db_columns (Some columns) = (Ok tt, (columns ++ missing)%list))
    /\ (existsb (blocked columns) MIGRATED_COLUMNS = true ->
        exists added,
          _ensure_columns columns = (Raise OperationalError, (columns ++ added)%list)
          /\ incl added missing
          /\ exists m c,
               In m MIGRATED_COLUMNS /\ ~ In m (columns ++ added)
               /\ In c columns /\ c <> m /\ lower c = m)
    /\ init_db_columns None = (Ok tt, CREATE_TABLE_COLUMNS).
Proof.
  intros columns missing.
  assert (Hin : forall c, In c (columns ++ missing)
                          <-> In c columns \/ In c MIGRATED_COLUMNS).
  { intro c. unfold missing. rewrite in_app_iff, filter_In, negb_true_iff. split.
    - intros [H | [H _]]; auto.
    - intros [H | H]; [now left|].
      destruct (existsb (String.eqb c) columns) eqn:E.
      + left. now apply existsb_eqb_In.
      + right. now split. }
  split; [|split].
  - intro Hfree.
    assert (Hrun : _ensure_columns columns = (Ok tt, (columns ++ missing)%list)).
    { rewrite _ensure_columns_unfold, Hfree.
      now rewrite (until_blocked_all _ _ Hfree). }
    split; [exact Hrun|].
    split; [intros c Hc; apply Hin; now right|].
    split; [exact Hin|].
    split.
    { intro Hnd. apply NoDup_app; [exact Hnd | | ].
      + apply NoDup_filter, MIGRATED_COLUMNS_NoDup.
      + intros c Hc Hf. apply filter_In in Hf. destruct Hf as [_ Hf].
        apply negb_true_iff in Hf.
        assert (Ht : existsb (String.eqb c) columns = true) by (now apply existsb_eqb_In).
        congruence. }
    split; [|exact Hrun].
    assert (Hall : forall l,
               (forall c, In c l -> In c MIGRATED_COLUMNS) ->
               existsb (blocked (columns ++ missing)) l = false
               /\ filter (fun c => negb (existsb (String.eqb c) (columns ++ missing))) l
                  = []).
    { induction l as [|c l IH]; intro Hl; [now split|].
      assert (Hc : existsb (String.eqb c) (columns ++ missing) = true).
      { apply existsb_eqb_In, Hin. right. apply Hl. now left. }
      destruct IH as [IH1 IH2]; [intros c' Hc'; apply Hl; now right|].
      cbn [existsb filter]. unfold blocked at 1. rewrite Hc. cbn [negb andb orb].
      now split. }
    destruct (Hall MIGRATED_COLUMNS (fun c H => H)) as [Hfree' Hnone].
    rewrite _ensure_columns_unfold, Hfree', (until_blocked_all _ _ Hfree'), Hnone.
    now rewrite app_nil_r.
  - intro Hblocked. eexists. split; [|split].
    + rewrite _ensure_columns_unfold, Hblocked. reflexivity.
    + intros c Hc. apply filter_In in Hc. destruct Hc as [Hc Hnot].
      apply filter_In. split; [|exact Hnot].
      now apply (until_blocked_incl columns MIGRATED_COLUMNS).
    + assert (Hfirst : forall ms,
                 existsb (blocked columns) ms = true ->
                 exists m, In m ms /\ blocked columns m = true
                           /\ ~ In m (until_blocked columns ms)).
      { induction ms as [|m ms IH]; [discriminate|].
        cbn [existsb until_blocked].
        destruct (blocked columns m) eqn:B.
        - intros _. exists m. split; [now left|]. split; [exact B | intros []].
        - cbn [orb]. intro H. destruct (IH H) as (m' & Hm' & B' & Hnot).
          exists m'. split; [now right|]. split; [exact B'|].
          intros [<- | Habs]; [congruence | now apply Hnot]. }
      destruct (Hfirst _ Hblocked) as (m & Hm & B & Hnot).
      unfold blocked in B. apply andb_true_iff in B. destruct B as [Hlack Hsame].
      apply negb_true_iff in Hlack.
      apply existsb_exists in Hsame. destruct Hsame as (c & Hc & Hsame).
      exists m, c. split; [exact Hm|]. split.
      { rewrite in_app_iff, filter_In. intros [Habs | [Habs _]].
        - apply existsb_eqb_In in Habs. congruence.
        - now apply Hnot. }
      split; [exact Hc|]. split.
      { intros ->. apply existsb_eqb_In in Hc. congruence. }
      unfold same_column in Hsame. apply String.eqb_eq in Hsame.
      rewrite <- Hsame. clear -Hm. simpl in Hm.
      repeat (destruct Hm as [<- | Hm]; [reflexivity|]). contradiction.
  - reflexivity.
Qed.

Lemma _ensure_columns_spec_witness :
  init_db_columns
    (Some ["id"; "ip_address"; "alias"; "hostname"; "last_ping_at"; "last_status";
           "last_output"; "created_at"])
  = (Ok tt,
     ["id"; "ip_address"; "alias"; "hostname"; "last_ping_at"; "last_status";
      "last_output"; "created_at"; "host_name"; "host_type"; "location"; "notes"])
  /\ exists added,
       _ensure_columns ["id"; "ip_address"; "Notes"; "created_at"]
       = (Raise OperationalError, (["id"; "ip_address"; "Notes"; "created_at"] ++ added)%list)
       /\ incl added MIGRATED_COLUMNS.
Proof.
  split.
  - apply (proj1 (_ensure_columns_spec
                    ["id"; "ip_address"; "alias"; "hostname"; "last_ping_at";
                     "last_status"; "last_output"; "created_at"])).
    reflexivity.
  - destruct (proj1 (proj2 (_ensure_columns_spec
                              ["id"; "ip_address"; "Notes"; "created_at"])) eq_refl)
      as (added & Hrun & Hincl & _).
    exists added. split; [exact Hrun|].
    intros c Hc. apply Hincl in Hc. apply filter_In in Hc. tauto.
Defined.

(** ** The scheduler *)

Lemma ping_rows_ticks w rows :
  forall st st',
    ping_rows w rows st = (Ok tt, st') ->
    ticks st' = (ticks st + List.length rows)%nat
    /\ List.length (table (store st')) = List.length (table (store st)).
Proof.
  induction rows as [|[row_id ip] rest IH]; intros st st' H.
  - injection H as <-. split; [simpl; lia | reflexivity].
  - rewrite ping_rows_cons in H.
    destruct (lookup_outcome w (ticks st) ip) as [hostname | e0]; [|discriminate].
    destruct (run_ping w ip st) as [[so|e] st1]; [|discriminate].
    apply IH in H. destruct H as [Ht Hl]. simpl in Ht, Hl.
    rewrite length_map in Hl. split; [simpl; lia | exact Hl].
Qed.

Lemma ping_cycle_completes w st :
  resolver_raises_only_OSError w ->
  every_ping_completes w ->
  exists st',
    ping_all_registered_ips w st = (Ok tt, st')
    /\ ticks st' = (ticks st + List.length (table (store st)))%nat
    /\ List.length (table (store st')) = List.length (table (store st)).
Proof.
  intros Hlookup Hrun. rewrite ping_all_unfold.
  destruct (ping_rows_completes w Hlookup Hrun
              (map (fun r => (ip_registry.id r, ip_registry.ip_address r))
                 (index_on_ip_address (table (store st)))) st) as [st' H].
  exists st'. split; [exact H|].
  apply ping_rows_ticks in H. rewrite length_map in H.
  now rewrite (Permutation_length (index_on_ip_address_perm (table (store st)))) in H.
Qed.

Lemma scheduler_loop_step w is_set k fuel st :
  scheduler_loop w is_set k (S fuel) st
  = if is_set k then (Ok true, st)
    else match ping_all_registered_ips w st with
         | (Ok _, st') => scheduler_loop w is_set (S k) fuel st'
         | (Raise e, st') => (Raise e, st')
         end.
Proof.
  cbn [scheduler_loop]. destruct (is_set k); [reflexivity|].
  cbn [negb]. unfold bind at 1.
  now destruct (ping_all_registered_ips w st) as [[[]|e] st'].
Qed.

Lemma scheduler_loop_runs w is_set :
  resolver_raises_only_OSError w ->
  every_ping_completes w ->
  forall n k st,
    (forall j, (j < n)%nat -> is_set (k + j)%nat = false) ->
    is_set (k + n)%nat = true ->
    forall fuel, (n < fuel)%nat ->
    exists st',
      scheduler_loop w is_set k fuel st = (Ok true, st')
      /\ ticks st' = (ticks st + n * List.length (table (store st)))%nat.
Proof.
  intros Hlookup Hrun. induction n as [|n IH]; intros k st Hnot Hset fuel Hfuel.
  - destruct fuel as [|fuel]; [lia|].
    rewrite scheduler_loop_step. rewrite Nat.add_0_r in Hset. rewrite Hset.
    exists st. split; [reflexivity | lia].
  - destruct fuel as [|fuel]; [lia|].
    rewrite scheduler_loop_step.
    assert (H0 : is_set k = false).
    { rewrite <- (Nat.add_0_r k). apply Hnot. lia. }
    rewrite H0.
    destruct (ping_cycle_completes w st Hlookup Hrun) as (st1 & Hcycle & Hticks & Hlen).
    rewrite Hcycle.
    destruct (IH (S k) st1) with (fuel := fuel) as (st' & Hloop & Ht).
    + intros j Hj. replace (S k + j)%nat with (k + S j)%nat by lia. apply Hnot. lia.
    + replace (S k + n)%nat with (k + S n)%nat by lia. exact Hset.
    + lia.
    + exists st'. split; [exact Hloop|]. rewrite Ht, Hticks, Hlen. lia.
Qed.

(** X20 ([scheduler_loop]): the loop leaves at once, without probing,
    when the stop event is set at its first test; an exception that
    leaves a probe cycle, be it that of a ping or that of the resolver,
    leaves the loop too, so no later cycle runs; and when every ping
    subprocess completes, the resolver raises nothing but [OSError] and
    the stop event is first seen set at the test after [n] cycles, the
    loop returns after exactly [n] cycles, each reading the clock once
    per record. *)
Theorem scheduler_loop_spec :
  forall w is_set st,
    (forall fuel,
        is_set O = true -> scheduler_loop w is_set O (S fuel) st = (Ok true, st))
    /\ (forall fuel e st',
          is_set O = false ->
          ping_all_registered_ips w st = (Raise e, st') ->
          scheduler_loop w is_set O (S fuel) st = (Raise e, st'))
    /\ (resolver_raises_only_OSError w ->
        every_ping_completes w ->
        forall n,
          (forall j, (j < n)%nat -> is_set j = false) ->
          is_set n = true ->
          forall fuel, (n < fuel)%nat ->
          exists st',
            scheduler_loop w is_set O fuel st = (Ok true, st')
            /\ ticks st' = (ticks st + n * List.length (table (store st)))%nat).
Proof.
  intros w is_set st. split; [|split].
  - intros fuel H. rewrite scheduler_loop_step. now rewrite H.
  - intros fuel e st' H Hraise. rewrite scheduler_loop_step. now rewrite H, Hraise.
  - intros Hlookup Hrun n Hnot Hset fuel Hfuel.
    apply (scheduler_loop_runs w is_set Hlookup Hrun n O st); assumption.
Qed.

Lemma scheduler_loop_spec_witness :
  scheduler_loop world_first_times_out (fun k => (2 <=? k)%nat) O 5 state_two
  = (Raise TimeoutExpired, state_two)
  /\ fst (scheduler_loop world_empty_label (fun k => (2 <=? k)%nat) O 5 state_scoped)
     = Raise UnicodeError
  /\ exists st',
       scheduler_loop world_reachable (fun k => (2 <=? k)%nat) O 5 state_two
       = (Ok true, st')
       /\ ticks st' = (ticks state_two + 2 * List.length (table (store state_two)))%nat.
Proof.
  split; [|split].
  - apply (proj1 (proj2 (scheduler_loop_spec world_first_times_out
                           (fun k => (2 <=? k)%nat) state_two))); reflexivity.
  - rewrite (proj1 (proj2 (scheduler_loop_spec world_empty_label
                             (fun k => (2 <=? k)%nat) state_scoped))
               4%nat UnicodeError
               (snd (ping_all_registered_ips world_empty_label state_scoped)));
      reflexivity.
  - apply (proj2 (proj2 (scheduler_loop_spec world_reachable
                           (fun k => (2 <=? k)%nat) state_two))).
    + intros t ip e [= <-]. reflexivity.
    + intros t cmd. now exists 0%Z, "1 packets transmitted, 1 received", "".
    + intros [|[|j]] Hj; [reflexivity | reflexivity | lia].
    + reflexivity.
    + lia.
Defined.

(** ** When [normalize_segment_filter] raises *)

Lemma isdigit_char_not_space c :
  Py.isdigit_char c = true ->
  Py.int_space c = false /\ Ascii.eqb c "-" = false /\ Ascii.eqb c "+" = false
  /\ Ascii.eqb c "_" = false.
Proof.
  destruct c as [[] [] [] [] [] [] [] []]; vm_compute; intro H;
    try discriminate H; repeat split.
Qed.

Lemma int_digits_superscript s :
  forall prev,
    Py.forallb_str Py.isdigit_char s = true ->
    Py.forallb_str Py.isdecimal_char s = false ->
    Py.int_digits prev s = None
    \/ exists d c rest,
         Py.int_digits prev s = Some (d, String c rest) /\ Py.int_space c = false.
Proof.
  induction s as [|c s IH]; intros prev Hdig Hdec; [discriminate Hdec|].
  cbn [Py.forallb_str] in Hdig, Hdec.
  apply andb_true_iff in Hdig. destruct Hdig as [Hc Hs].
  cbn [Py.int_digits].
  destruct (Py.isdecimal_char c) eqn:Hd.
  - simpl in Hdec. destruct (IH true Hs Hdec) as [-> | (d & c' & rest & -> & Hsp)].
    + now left.
    + right. exists (String c d), c', rest. now split.
  - destruct (isdigit_char_not_space c Hc) as (Hsp & _ & _ & Hu).
    rewrite Hu. destruct prev; [|now left].
    right. exists "", c, s. now split.
Qed.

Lemma int_superscript s :
  Py.isdigit s = true ->
  Py.forallb_str Py.isdecimal_char s = false ->
  Py.int s = Raise ValueError.
Proof.
  unfold Py.isdigit. rewrite andb_true_iff. intros [_ Hdig] Hdec.
  destruct s as [|c s]; [discriminate Hdec|].
  pose proof Hdig as Hdig'. cbn [Py.forallb_str] in Hdig'.
  apply andb_true_iff in Hdig'. destruct Hdig' as [Hc _].
  destruct (isdigit_char_not_space c Hc) as (Hsp & Hm & Hp & _).
  unfold Py.int. cbn [Py.skip_int_space]. rewrite Hsp, Hm, Hp.
  destruct (int_digits_superscript (String c s) false Hdig Hdec)
    as [-> | (d & c' & rest & -> & Hsp')]; [reflexivity|].
  destruct (Py.INT_MAX_STR_DIGITS <? _); [reflexivity|].
  cbn [Py.skip_int_space]. now rewrite Hsp'.
Qed.

Lemma int_too_long s :
  Py.forallb_str Py.isdecimal_char s = true ->
  Py.INT_MAX_STR_DIGITS < N.of_nat (String.length s) ->
  Py.int s = Raise ValueError.
Proof.
  intros Hdec Hlen. apply N.ltb_lt in Hlen.
  destruct s as [|c s]; [discriminate Hlen|].
  pose proof Hdec as Hdec'. cbn [Py.forallb_str] in Hdec'.
  apply andb_true_iff in Hdec'. destruct Hdec' as [Hc Hs].
  unfold Py.int. cbn [Py.skip_int_space].
  rewrite (isdecimal_not_space c Hc).
  destruct (isdecimal_not_sign c Hc) as (Hm & Hp & _).
  rewrite Hm, Hp. cbn [Py.int_digits]. rewrite Hc, (int_digits_decimal s Hs).
  cbn [option_map]. now rewrite Hlen.
Qed.

Lemma decimal_value_exists s :
  s <> "" ->
  Py.forallb_str Py.isdecimal_char s = true ->
  exists v, Py.digits_value s = Some v.
Proof.
  intros Hne Hdec.
  assert (H : exists d, NilEmpty.uint_of_string s = Some d).
  { clear Hne. induction s as [|c s IH]; [now exists Nil|].
    cbn [Py.forallb_str] in Hdec. apply andb_true_iff in Hdec.
    destruct Hdec as [Hc Hs]. destruct (IH Hs) as [d Hd].
    cbn [NilEmpty.uint_of_string]. rewrite Hd.
    revert Hc. clear.
    destruct c as [[] [] [] [] [] [] [] []]; vm_compute; intro H;
      try discriminate H; eexists; reflexivity. }
  destruct H as [d Hd]. exists (N.of_uint d).
  unfold Py.digits_value, NilZero.uint_of_string.
  destruct s; [congruence|]. now rewrite Hd.
Qed.

Lemma cidr_filter_ok v : exists r, cidr_filter v = Ok r.
Proof.
  destruct (cidr_filter_inv v _ eq_refl) as [-> | (a & _ & ->)]; eexists; reflexivity.
Qed.

Lemma normalize_segment_filter_raising raw :
  Py.endswith "/24" (Py.strip raw) = true ->
  Py.contains "." (Py.strip raw) = false ->
  Py.isdigit (List.hd "" (Py.split "/" (Py.strip raw))) = true ->
  Py.forallb_str Py.isdecimal_char (List.hd "" (Py.split "/" (Py.strip raw))) = false
  \/ Py.INT_MAX_STR_DIGITS
     < N.of_nat (String.length (List.hd "" (Py.split "/" (Py.strip raw)))) ->
  normalize_segment_filter (Some raw) = Raise ValueError.
Proof.
  intros Hend Hdot Hdig Hbad.
  rewrite normalize_segment_filter_some. cbv zeta.
  assert (Ht : Py.truthy (Py.strip raw) = true).
  { apply truthy_true_iff. intro E. rewrite E in Hend. discriminate. }
  rewrite Ht, Hend, Hdot. cbn [negb andb]. cbv iota.
  destruct (Py.split "/" (Py.strip raw)) as [|octet rest] eqn:Hs;
    [now destruct (split_not_nil "/" (Py.strip raw))|].
  cbn [List.hd] in Hdig, Hbad. cbn [Py.getitem nth_error rbind].
  rewrite Hdig.
  destruct (Py.forallb_str Py.isdecimal_char octet) eqn:Hdec.
  - destruct Hbad as [Hbad | Hlen]; [discriminate|].
    now rewrite (int_too_long octet Hdec Hlen).
  - now rewrite (int_superscript octet Hdig Hdec).
Qed.

(** C5, what the code does where the claim fails.  [int(octet)] stands
    before the [try] block, so its [ValueError] leaves
    [normalize_segment_filter]: for a trimmed input without a dot that
    ends in "/24" and whose text before the first "/" passes
    [str.isdigit], the call raises when that text holds a digit that
    [int] does not convert (a superscript two) or has more than 4300
    digits.  So 56 written after 4299 zeros and followed by "/24", a bare
    decimal in [0,255], gives no token, and neither the superscript two
    nor 4301 ones followed by "/24" give null.  And "5/6/24", which is
    not a decimal followed by "/24" nor a network, gives the token of
    third octet 5. *)
Theorem normalize_segment_filter_raises_before_try :
  (forall raw,
      Py.endswith "/24" (Py.strip raw) = true ->
      Py.contains "." (Py.strip raw) = false ->
      Py.isdigit (List.hd "" (Py.split "/" (Py.strip raw))) = true ->
      Py.forallb_str Py.isdecimal_char (List.hd "" (Py.split "/" (Py.strip raw))) = false
      \/ Py.INT_MAX_STR_DIGITS
         < N.of_nat (String.length (List.hd "" (Py.split "/" (Py.strip raw)))) ->
      normalize_segment_filter (Some raw) = Raise ValueError)
  /\ normalize_segment_filter (Some (String "178" "/24")) = Raise ValueError
  /\ (normalize_segment_filter (Some filter_of_padded_56) = Raise ValueError
      /\ Py.digits_value (Py.mul "0" 4299 ++ "56") = Some 56)
  /\ normalize_segment_filter (Some filter_of_4301_ones) = Raise ValueError
  /\ (normalize_segment_filter (Some "5/6/24") = Ok (Some "THIRD_OCTET:5")
      /\ ipaddress.ip_network "5/6/24" = Raise ValueError).
Proof.
  split; [exact normalize_segment_filter_raising|].
  repeat split; vm_compute; reflexivity.
Qed.

(** X21 (the one way [normalize_segment_filter] raises): the call raises,
    and then [ValueError], exactly when the trimmed input has no dot,
    ends in "/24", and its text before the first "/" passes
    [str.isdigit] but either holds a character that [str.isdecimal]
    refuses, as the superscript two, or is longer than the 4300 digits
    that [int] converts; for every other input, and for no input at all,
    it returns. *)
Theorem normalize_segment_filter_raises_iff :
  normalize_segment_filter None = Ok None
  /\ forall raw e,
       normalize_segment_filter (Some raw) = Raise e
       <-> e = ValueError
           /\ Py.endswith "/24" (Py.strip raw) = true
           /\ Py.contains "." (Py.strip raw) = false
           /\ Py.isdigit (List.hd "" (Py.split "/" (Py.strip raw))) = true
           /\ (Py.forallb_str Py.isdecimal_char
                 (List.hd "" (Py.split "/" (Py.strip raw))) = false
               \/ Py.INT_MAX_STR_DIGITS
                  < N.of_nat (String.length (List.hd "" (Py.split "/" (Py.strip raw))))).
Proof.
  split; [reflexivity|].
  intros raw e. split.
  - rewrite normalize_segment_filter_some. cbv zeta.
    destruct (cidr_filter_ok (Py.strip raw)) as [r Hr].
    destruct (Py.truthy (Py.strip raw)) eqn:Ht; cbn [negb]; cbv iota;
      [|discriminate].
    destruct (Py.endswith "/24" (Py.strip raw)) eqn:Hend;
      [|rewrite Hr; cbn [andb]; discriminate].
    destruct (Py.contains "." (Py.strip raw)) eqn:Hdot;
      [rewrite Hr; cbn [andb negb]; discriminate|].
    cbn [andb negb]. cbv iota.
    destruct (Py.split "/" (Py.strip raw)) as [|octet rest] eqn:Hs;
      [now destruct (split_not_nil "/" (Py.strip raw))|].
    cbn [Py.getitem nth_error rbind List.hd].
    destruct (Py.isdigit octet) eqn:Hdig; [|rewrite Hr; discriminate].
    destruct (Py.forallb_str Py.isdecimal_char octet) eqn:Hdec.
    + destruct (N.ltb_spec Py.INT_MAX_STR_DIGITS (N.of_nat (String.length octet)))
        as [Hlen | Hlen].
      * rewrite (int_too_long octet Hdec Hlen). cbn [rbind].
        intros [= <-]. repeat split. now right.
      * assert (Hne : octet <> "").
        { unfold Py.isdigit in Hdig. apply andb_true_iff in Hdig.
          now apply truthy_true_iff. }
        destruct (decimal_value_exists octet Hne Hdec) as [v Hv].
        rewrite (int_decimal octet v Hne Hdec Hv Hlen). cbn [rbind].
        destruct ((0 <=? Z.of_N v)%Z && (Z.of_N v <=? 255)%Z);
          [|rewrite Hr]; discriminate.
    + rewrite (int_superscript octet Hdig Hdec). cbn [rbind].
      intros [= <-]. repeat split. now left.
  - intros (-> & Hend & Hdot & Hdig & Hbad).
    now apply normalize_segment_filter_raising.
Qed.

Lemma normalize_segment_filter_raises_iff_witness :
  normalize_segment_filter (Some (String "178" "/24")) = Raise ValueError.
Proof.
  apply (proj2 normalize_segment_filter_raises_iff (String "178" "/24") ValueError).
  split; [reflexivity|]. split; [reflexivity|]. split; [reflexivity|].
  split; [reflexivity|]. left. reflexivity.
Defined.
